(** * cleanup.py: a retention sweeper, modelled and verified

    The script removes the immediate children of one directory (regular
    files and, if asked, sub-directories) whose status-change time lies
    before a cutoff: the end of the current day minus a number of days.

    The development follows the source file top-down:
    - Python's exceptions, and computations with state and exceptions over
      the world the script runs in (file system, standard output, clock);
    - the fragment of [datetime] that [get_time_before] uses;
    - the fragment of [os], [os.path] and [shutil] that the sweeps use;
    - the functions of cleanup.py, in source order, under their own names;
    - a sample host and directory, and the definitions the statements use;
    - the same functions once more, in the module [Posix], over a file
      system with symbolic links, hard links and times that change;
    - the properties.

    There are two models. In the first the file system is a tree changed
    by the script alone: every entry has a status-change time of its own
    that no removal touches (no two entries are hard links to one file,
    and a directory keeps its time when an entry is taken out), a symbolic
    link is not told apart from what it resolves to, every datetime has a
    timestamp, every name can be printed and no call fails for lack of
    permission. It carries the properties that do not depend on these
    simplifications: the cutoff, the listers, the option loop, the order of
    the steps of [__main__], and what a sweep never does. The second
    model, [Posix], drops all of them but the last and carries the
    properties that do depend on them: what a sweep counts, what a dry run
    shows, and the age test. *)

From Stdlib Require Import ZArith QArith Lia Lqa Ascii String.
From stdpp Require Import gmap strings list fin_maps.

Set Warnings "-register-all".
Local Open Scope Z_scope.

(** ** Exceptions and results *)

(** The exceptions that the script or the library calls it makes can raise.
    Only the one the script builds itself carries its message. *)
Inductive exn : Type :=
| OverflowError
| ValueError
| StopIteration
| FileNotFoundError
| IsADirectoryError
| NotADirectoryError (msg : string)
| OSError
| UnicodeEncodeError.

Inductive result (A : Type) : Type :=
| Ok (a : A)
| Raise (e : exn).
Arguments Ok {A} a.
Arguments Raise {A} e.

Definition result_bind {A B} (r : result A) (k : A -> result B) : result B :=
  match r with
  | Ok a => k a
  | Raise e => Raise e
  end.

(** ** The datetime fragment *)

Module Calendar.

(** The proleptic Gregorian calendar of CPython's datetime module, with its
    private helpers under their own names. *)

Definition _MAXORDINAL : Z := 3652059.
Definition _DI400Y : Z := 146097.
Definition _DI100Y : Z := 36524.
Definition _DI4Y : Z := 1461.

Definition _is_leap (year : Z) : bool :=
  (year mod 4 =? 0) && (negb (year mod 100 =? 0) || (year mod 400 =? 0)).

Definition _days_before_year (year : Z) : Z :=
  let y := year - 1 in
  y * 365 + y / 4 - y / 100 + y / 400.

Definition _DAYS_IN_MONTH (month : Z) : Z :=
  match month with
  | 1 => 31 | 2 => 28 | 3 => 31 | 4 => 30 | 5 => 31 | 6 => 30
  | 7 => 31 | 8 => 31 | 9 => 30 | 10 => 31 | 11 => 30 | 12 => 31
  | _ => -1
  end.

Definition _DAYS_BEFORE_MONTH (month : Z) : Z :=
  match month with
  | 1 => 0 | 2 => 31 | 3 => 59 | 4 => 90 | 5 => 120 | 6 => 151
  | 7 => 181 | 8 => 212 | 9 => 243 | 10 => 273 | 11 => 304 | 12 => 334
  | _ => -1
  end.

Definition _days_in_month (year month : Z) : Z :=
  if (month =? 2) && _is_leap year then 29 else _DAYS_IN_MONTH month.

Definition _days_before_month (year month : Z) : Z :=
  _DAYS_BEFORE_MONTH month + (if (2 <? month) && _is_leap year then 1 else 0).

Definition _ymd2ord (year month day : Z) : Z :=
  _days_before_year year + _days_before_month year month + day.

Definition _ord2ymd (ordinal : Z) : Z * Z * Z :=
  let n := ordinal - 1 in
  let n400 := n / _DI400Y in
  let n := n mod _DI400Y in
  let year := n400 * 400 + 1 in
  let n100 := n / _DI100Y in
  let n := n mod _DI100Y in
  let n4 := n / _DI4Y in
  let n := n mod _DI4Y in
  let n1 := n / 365 in
  let n := n mod 365 in
  let year := year + n100 * 100 + n4 * 4 + n1 in
  if (n1 =? 4) || (n100 =? 4) then (year - 1, 12, 31)
  else
    let leapyear := (n1 =? 3) && (negb (n4 =? 24) || (n100 =? 3)) in
    let month := Z.shiftr (n + 50) 5 in
    let preceding :=
      _DAYS_BEFORE_MONTH month + (if (2 <? month) && leapyear then 1 else 0) in
    let '(month, preceding) :=
      if n <? preceding
      then (month - 1,
            preceding - (_DAYS_IN_MONTH (month - 1)
                         + (if (month - 1 =? 2) && leapyear then 1 else 0)))
      else (month, preceding) in
    (year, month, n - preceding + 1).

(** A naive [datetime] (no tzinfo), field by field. *)
Record datetime : Type := mk_datetime {
  year : Z;
  month : Z;
  day : Z;
  hour : Z;
  minute : Z;
  second : Z;
  microsecond : Z
}.

(** A [timedelta], normalised: 0 <= seconds < 86400, 0 <= microseconds < 10^6. *)
Record timedelta : Type := mk_timedelta {
  td_days : Z;
  td_seconds : Z;
  td_microseconds : Z
}.

(** What the constructor of a datetime checks. *)
Definition valid_datetime (d : datetime) : Prop :=
  1 <= year d <= 9999 /\ 1 <= month d <= 12 /\
  1 <= day d <= _days_in_month (year d) (month d) /\
  0 <= hour d < 24 /\ 0 <= minute d < 60 /\ 0 <= second d < 60 /\
  0 <= microsecond d < 1000000.

Definition toordinal (d : datetime) : Z :=
  _ymd2ord (year d) (month d) (day d).

Definition seconds_of_day (d : datetime) : Z :=
  second d + minute d * 60 + hour d * 3600.

(** [timedelta(days, seconds, microseconds)] on integers: the carries, then
    the range check on the number of days. *)
Definition new_timedelta (days seconds microseconds : Z) : result timedelta :=
  let s := seconds + microseconds / 1000000 in
  let us := microseconds mod 1000000 in
  let d := days + s / 86400 in
  let s := s mod 86400 in
  if 999999999 <? Z.abs d then Raise OverflowError
  else Ok (mk_timedelta d s us).

(** [datetime.strptime(str(y) + '-' + str(m) + '-' + str(d) + ' 23:59:59',
    '%Y-%m-%d %H:%M:%S')]. The directive %Y reads exactly four digits, %m and
    %d one or two, and the date has to exist; the parsed datetime has those
    fields, the time 23:59:59 and no microseconds. *)
Definition strptime_end_of_day (y m d : Z) : result datetime :=
  if (1000 <=? y) && (y <=? 9999) && (1 <=? m) && (m <=? 12)
     && (1 <=? d) && (d <=? _days_in_month y m)
  then Ok (mk_datetime y m d 23 59 59 0)
  else Raise ValueError.

(** [datetime.__add__]: through the ordinal of the date, refusing a result
    outside years 1 to 9999. *)
Definition datetime_add (self : datetime) (other : timedelta) : result datetime :=
  result_bind
    (new_timedelta (toordinal self) (seconds_of_day self) (microsecond self))
    (fun delta =>
  result_bind
    (new_timedelta (td_days delta + td_days other)
                   (td_seconds delta + td_seconds other)
                   (td_microseconds delta + td_microseconds other))
    (fun delta =>
  let hour := td_seconds delta / 3600 in
  let rem := td_seconds delta mod 3600 in
  let minute := rem / 60 in
  let second := rem mod 60 in
  if (0 <? td_days delta) && (td_days delta <=? _MAXORDINAL)
  then let '(y, m, d) := _ord2ymd (td_days delta) in
       Ok (mk_datetime y m d hour minute second (td_microseconds delta))
  else Raise OverflowError)).

(** [datetime.__sub__] on two naive datetimes. *)
Definition datetime_sub (self other : datetime) : result timedelta :=
  new_timedelta (toordinal self - toordinal other)
                (seconds_of_day self - seconds_of_day other)
                (microsecond self - microsecond other).

End Calendar.
Import Calendar.

(** ** The world the script runs in *)

(** A file-system object as the script can tell them apart: a regular file,
    a directory with its entries, or anything else that is not a directory
    (a FIFO, a socket, a device). Each carries its status-change time, in
    POSIX seconds; [os.path.getctime] returns a float and every finite
    float is a rational, compared as such. There are no links in this
    model: the module [Posix] has them. *)
Inductive node : Type :=
| File (ctime : Q)
| Other (ctime : Q)
| Dir (ctime : Q) (entries : gmap string node).

(** A path, resolved: the names from the root down. *)
Definition fspath : Type := list string.

Definition node_ctime (n : node) : Q :=
  match n with
  | File t | Other t | Dir t _ => t
  end.

Definition is_file_node (n : node) : bool :=
  match n with File _ => true | _ => false end.

Definition is_dir_node (n : node) : bool :=
  match n with Dir _ _ => true | _ => false end.

Fixpoint fs_lookup (p : fspath) (n : node) : option node :=
  match p with
  | [] => Some n
  | x :: p' =>
      match n with
      | Dir _ entries =>
          match entries !! x with
          | Some child => fs_lookup p' child
          | None => None
          end
      | _ => None
      end
  end.

(** Whether [p] names a regular file, respectively a directory; a path that
    names nothing is neither. *)
Definition fs_isfile (p : fspath) (root : node) : bool :=
  match fs_lookup p root with
  | Some n => is_file_node n
  | None => false
  end.

Definition fs_isdir (p : fspath) (root : node) : bool :=
  match fs_lookup p root with
  | Some n => is_dir_node n
  | None => false
  end.

(** Unlinking the entry named by [p] from its parent directory; the whole
    subtree below the entry goes with it. Nothing happens when the parent
    is missing. (Unlinking also stamps the parent itself; the script never
    reads the times of the directory it sweeps, and this model leaves
    them. [Posix.unlink_at] stamps.) *)
Fixpoint fs_delete (p : fspath) (n : node) : node :=
  match p, n with
  | x :: p', Dir t entries =>
      match p' with
      | [] => Dir t (delete x entries)
      | _ :: _ =>
          match entries !! x with
          | Some child => Dir t (<[x := fs_delete p' child]> entries)
          | None => n
          end
      end
  | _, _ => n
  end.

(** One argument of a call to [print]. *)
Inductive pyval : Type :=
| PStr (s : string)
| PPath (p : fspath)
| PInt (n : Z).

(** The world: the file system from its root, the calls to [print] so far
    (one list of arguments per call, oldest first) and the reading of the
    wall clock that [datetime.now()] returns. *)
Record world : Type := mk_world {
  fs : node;
  stdout : list (list pyval);
  clock : datetime
}.

(** What the host decides and the script cannot see: how local time maps to
    POSIX time ([datetime.timestamp] of a naive datetime; in this model
    every datetime has one, [Posix.Host] says which have), how a path
    string resolves to a place in the file system, and the builtin [int]
    on strings ([None] for a [ValueError]). *)
Class Platform : Type := {
  timestamp : datetime -> Q;
  resolve : string -> fspath;
  py_int : string -> option Z
}.

(** ** Computations: state and exceptions *)

(** A computation runs in a world and leaves a world, also when it raises. *)
Definition M (A : Type) : Type := world -> result A * world.

Definition ret {A} (a : A) : M A := fun w => (Ok a, w).

Definition raise {A} (e : exn) : M A := fun w => (Raise e, w).

Definition bind {A B} (c : M A) (k : A -> M B) : M B :=
  fun w =>
    match c w with
    | (Ok a, w') => k a w'
    | (Raise e, w') => (Raise e, w')
    end.

Definition lift {A} (r : result A) : M A := fun w => (r, w).

Notation "'let*' x ':=' c 'in' k" := (bind c (fun x => k))
  (at level 10, x pattern, c at level 100, k at level 200).
Notation "'run' c 'in' k" := (bind c (fun _ => k))
  (at level 10, c at level 100, k at level 200).

(** A [for] loop over a list that was built before the loop starts; the
    loop's local variables are threaded through the body. A [continue] is a
    body that returns them as they are. *)
Fixpoint for_each {A S} (xs : list A) (body : A -> S -> M S) (s : S) : M S :=
  match xs with
  | [] => ret s
  | x :: xs' => let* s' := body x s in for_each xs' body s'
  end.

(** ** The library calls *)

(** [print]: in this model every argument can be encoded. *)
Definition print (args : list pyval) : M unit :=
  fun w => (Ok tt, mk_world (fs w) (stdout w ++ [args]) (clock w)).

Definition datetime_now : M datetime :=
  fun w => (Ok (clock w), w).

(** [os.path.abspath]: a resolved path is absolute already. *)
Definition os_path_abspath (p : fspath) : fspath := p.

(** [os.path.join(path, name)] for a name that a listing returned. *)
Definition os_path_join (p : fspath) (name : string) : fspath := p ++ [name].

Definition os_path_isfile (p : fspath) : M bool :=
  fun w => (Ok (fs_isfile p (fs w)), w).

Definition os_path_isdir (p : fspath) : M bool :=
  fun w => (Ok (fs_isdir p (fs w)), w).

(** [x < y] on two floats, as rationals. *)
Definition Qltb (x y : Q) : bool :=
  (Qnum x * QDen y <? Qnum y * QDen x)%Z.

(** [os.path.getctime]: the time of what the path names. *)
Definition os_path_getctime (p : fspath) : M Q :=
  fun w => match fs_lookup p (fs w) with
           | Some n => (Ok (node_ctime n), w)
           | None => (Raise FileNotFoundError, w)
           end.

(** [os.remove]: unlinks anything but a directory. *)
Definition os_remove (p : fspath) : M unit :=
  fun w => match fs_lookup p (fs w) with
           | None => (Raise FileNotFoundError, w)
           | Some (Dir _ _) => (Raise IsADirectoryError, w)
           | Some _ => (Ok tt, mk_world (fs_delete p (fs w)) (stdout w) (clock w))
           end.

(** [shutil.rmtree]: removes a directory and all that is below it. (No
    directory of this model is a symbolic link, which [shutil.rmtree]
    refuses: see [Posix.shutil_rmtree].) *)
Definition shutil_rmtree (p : fspath) : M unit :=
  fun w => match fs_lookup p (fs w) with
           | None => (Raise FileNotFoundError, w)
           | Some (Dir _ _) =>
               (Ok tt, mk_world (fs_delete p (fs w)) (stdout w) (clock w))
           | Some _ => (Raise (NotADirectoryError "Not a directory"), w)
           end.

(** The directory entries in the order the host enumerates them. *)
Definition scandir (entries : gmap string node) : list (string * node) :=
  map_to_list entries.

(** How [os.walk] splits them: the names of the directories, and the rest. *)
Definition scan_dirs (entries : gmap string node) : list string :=
  (filter (fun e : string * node => is_dir_node e.2) (scandir entries)).*1.

Definition scan_nondirs (entries : gmap string node) : list string :=
  (filter (fun e : string * node => negb (is_dir_node e.2))
          (scandir entries)).*1.

(** What the generator [os.walk(top)] yields first, if anything: the triple
    for [top] itself, its entries split into directories and the rest. The
    generator is lazy and walks top-down, so nothing below [top] has been
    read at that point. When [top] cannot be listed the error is swallowed
    (no [onerror] handler is given) and the generator is exhausted at once. *)
Definition os_walk_first (top : fspath)
  : M (option (fspath * list string * list string)) :=
  fun w => match fs_lookup top (fs w) with
           | Some (Dir _ entries) =>
               let dirs := scan_dirs entries in
               let nondirs := scan_nondirs entries in
               (Ok (Some (top, dirs, nondirs)), w)
           | _ => (Ok None, w)
           end.

(** The builtin [next] on a generator. *)
Definition next {A} (g : M (option A)) : M A :=
  let* item := g in
  match item with
  | Some a => ret a
  | None => raise StopIteration
  end.

(** ** cleanup.py *)

Section Cleanup.
Context `{Platform}.

Definition get_time_before (days : Z) : M datetime :=
  let* dtn := datetime_now in
  let* rm_dt := lift (strptime_end_of_day (year dtn) (month dtn) (day dtn)) in
  let* delta := lift (new_timedelta (days * -1) 0 0) in
  lift (datetime_add rm_dt delta).

Definition get_files_by_path (p : fspath) : M (list string) :=
  let apath := os_path_abspath p in
  let* (rpath, subdirs, files) := next (os_walk_first apath) in
  ret files.

Definition get_subdirs_by_path (p : fspath) : M (list string) :=
  let apath := os_path_abspath p in
  let* (rpath, subdirs, files) := next (os_walk_first apath) in
  ret subdirs.

Definition is_older (file_path : fspath) (comp_time : datetime) : M bool :=
  let* f_ctime := os_path_getctime file_path in
  ret (Qltb f_ctime (timestamp comp_time)).

(** The body of the loop of [rm_files_in], for one name of the listing. *)
Definition rm_files_in_body (p : fspath) (rm_time : datetime) (dryun : bool)
    (file : string) (cnt : Z) : M Z :=
  let f_path := os_path_join p file in
  let* isfile := os_path_isfile f_path in
  if negb isfile then ret cnt else
  let* older := is_older f_path rm_time in
  if negb older then ret cnt else
  run (if negb dryun
       then run print [PStr "Removing file"; PPath f_path; PStr "..."] in
            os_remove f_path
       else print [PStr "Would remove"; PPath f_path]) in
  ret (cnt + 1).

Definition rm_files_in (p : fspath) (days : Z) (dryun : bool) : M Z :=
  let cnt := 0 in
  let* rm_time := get_time_before days in
  let* files := get_files_by_path p in
  let* cnt := for_each files (rm_files_in_body p rm_time dryun) cnt in
  ret cnt.

(** The body of the loop of [rm_folders_in]. *)
Definition rm_folders_in_body (p : fspath) (rm_time : datetime) (dryrun : bool)
    (dir : string) (cnt : Z) : M Z :=
  let d_path := os_path_join p dir in
  let* isdir := os_path_isdir d_path in
  if negb isdir then ret cnt else
  let* older := is_older d_path rm_time in
  if negb older then ret cnt else
  run (if negb dryrun
       then run print [PStr "Removing directory"; PPath d_path; PStr "..."] in
            shutil_rmtree d_path
       else print [PStr "Would remove"; PPath d_path]) in
  ret (cnt + 1).

Definition rm_folders_in (p : fspath) (days : Z) (dryrun : bool) : M Z :=
  let cnt := 0 in
  let* rm_time := get_time_before days in
  let* dirs := get_subdirs_by_path p in
  let* cnt := for_each dirs (rm_folders_in_body p rm_time dryrun) cnt in
  ret cnt.

(** The local variables of [__main__] that the option loop assigns. *)
Record locals : Type := mk_locals {
  path : string;
  rm_files : bool;
  rm_files_after : Z;
  rm_folders : bool;
  rm_folders_after : Z;
  dryrun : bool
}.

Definition defaults : locals := mk_locals "/tmp/" true 30 false 10 false.

(** String operations of Python, on byte strings. *)

(** [s[0:n]] *)
Fixpoint str_prefix (n : nat) (s : string) : string :=
  match n, s with
  | S n', String c s' => String c (str_prefix n' s')
  | _, _ => EmptyString
  end.

(** [s[n:]] *)
Fixpoint str_from (n : nat) (s : string) : string :=
  match n, s with
  | S n', String c s' => str_from n' s'
  | _, _ => s
  end.

(** [s.split(sep)] for a separator of one character: never an empty list. *)
Fixpoint str_split (sep : ascii) (s : string) : list string :=
  match s with
  | EmptyString => [EmptyString]
  | String c s' =>
      if Ascii.eqb c sep then EmptyString :: str_split sep s'
      else match str_split sep s' with
           | h :: t => String c h :: t
           | [] => [String c EmptyString]
           end
  end.

(** [s.lower()]. Only the letters A to Z change here; no character outside
    ASCII lowers to one of y, e or s, so the comparisons with 'yes' below
    come out as in Python. *)
Definition ascii_lower (c : ascii) : ascii :=
  let n := nat_of_ascii c in
  if ((65 <=? n) && (n <=? 90))%nat then ascii_of_nat (n + 32) else c.

Fixpoint str_lower (s : string) : string :=
  match s with
  | EmptyString => EmptyString
  | String c s' => String (ascii_lower c) (str_lower s')
  end.

(** [opt[i]] where the index is known to be in range. *)
Definition item (opt : list string) (i : nat) : string := nth i opt EmptyString.

(** [int(s)], raising [ValueError] on a string that is no integer. *)
Definition int (s : string) : result Z :=
  match py_int s with
  | Some n => Ok n
  | None => Raise ValueError
  end.

(** The body of the loop [for arg in args] of [__main__]. *)
Definition parse_arg (arg : string) (l : locals) : result locals :=
  if String.eqb arg "--" then Ok l
  else
    result_bind
      (if String.eqb (str_prefix 2 arg) "--" then
         let opt := str_split "="%char (str_from 2 arg) in
         if (1 <? length opt)%nat then
           if String.eqb (item opt 0) "files" then
             Ok (mk_locals (path l) (String.eqb (str_lower (item opt 1)) "yes")
                           (rm_files_after l) (rm_folders l) (rm_folders_after l)
                           (dryrun l))
           else if String.eqb (item opt 0) "files_after" then
             result_bind (int (item opt 1)) (fun v =>
             Ok (mk_locals (path l) (rm_files l) v (rm_folders l)
                           (rm_folders_after l) (dryrun l)))
           else if String.eqb (item opt 0) "folders" then
             Ok (mk_locals (path l) (rm_files l) (rm_files_after l)
                           (String.eqb (str_lower (item opt 1)) "yes")
                           (rm_folders_after l) (dryrun l))
           else if String.eqb (item opt 0) "folders_after" then
             result_bind (int (item opt 1)) (fun v =>
             Ok (mk_locals (path l) (rm_files l) (rm_files_after l) (rm_folders l)
                           v (dryrun l)))
           else if String.eqb (item opt 0) "dryrun" then
             Ok (mk_locals (path l) (rm_files l) (rm_files_after l) (rm_folders l)
                           (rm_folders_after l)
                           (String.eqb (str_lower (item opt 1)) "yes"))
           else Ok l
         else
           if String.eqb (item opt 0) "files" then
             Ok (mk_locals (path l) true (rm_files_after l) (rm_folders l)
                           (rm_folders_after l) (dryrun l))
           else if String.eqb (item opt 0) "folders" then
             Ok (mk_locals (path l) (rm_files l) (rm_files_after l) true
                           (rm_folders_after l) (dryrun l))
           else if String.eqb (item opt 0) "dryrun" then
             Ok (mk_locals (path l) (rm_files l) (rm_files_after l) (rm_folders l)
                           (rm_folders_after l) true)
           else Ok l
       else Ok l)
      (fun l =>
         if String.eqb (str_prefix 1 arg) "-" then Ok l
         else Ok (mk_locals arg (rm_files l) (rm_files_after l) (rm_folders l)
                            (rm_folders_after l) (dryrun l))).

(** The option loop of [__main__] over [sys.argv[1:]]. *)
Definition parse_args (args : list string) : M locals :=
  for_each args (fun arg l => lift (parse_arg arg l)) defaults.

(** The double quote character. *)
Definition dquote : string := String (ascii_of_nat 34) EmptyString.

Definition __main__ (argv : list string) : M unit :=
  let args := drop 1 argv in
  let* l := parse_args args in
  run print [PStr "Starting cleanup"] in
  run print [PStr "Cleanup for base"; PStr (path l)] in
  let* isdir := os_path_isdir (resolve (path l)) in
  if negb isdir
  then raise (NotADirectoryError
                (dquote +:+ path l +:+ dquote +:+ " is not a directory"))
  else
    run (if rm_files l then
           run print [PStr "Cleaning files..."] in
           let* fi_cnt :=
             rm_files_in (resolve (path l)) (rm_files_after l) (dryrun l) in
           print [PStr "Removed"; PInt fi_cnt; PStr "files"]
         else print [PStr "Skipping file cleanup"]) in
    run (if rm_folders l then
           run print [PStr "Cleaning folders..."] in
           let* fo_cnt :=
             rm_folders_in (resolve (path l)) (rm_folders_after l) (dryrun l) in
           print [PStr "Removed"; PInt fo_cnt; PStr "folders"]
         else print [PStr "Skipping folder cleanup"]) in
    print [PStr "Finished cleanup"].

End Cleanup.

(** ** A sample host and a sample directory *)

(** A host on UTC: POSIX time counts from the first of January 1970. *)
Definition utc_timestamp (d : datetime) : Q :=
  (inject_Z ((toordinal d - 719163) * 86400 + seconds_of_day d)
   + (microsecond d # 1000000))%Q.

(** Path strings resolved from the root: the names between slashes. *)
Definition split_slash (s : string) : fspath :=
  List.filter (fun x => negb (String.eqb x EmptyString)) (str_split "/"%char s).

(** Decimal integers with an optional sign. The builtin [int] of Python
    accepts these (and, beyond them, blanks around the number, underscores
    between digits and digits outside ASCII). *)
Fixpoint decimal_digits (acc : Z) (s : string) : option Z :=
  match s with
  | EmptyString => Some acc
  | String c s' =>
      let n := nat_of_ascii c in
      if ((48 <=? n) && (n <=? 57))%nat
      then decimal_digits (acc * 10 + Z.of_nat (n - 48)) s'
      else None
  end.

Definition decimal_int (s : string) : option Z :=
  match s with
  | EmptyString => None
  | String "-" EmptyString | String "+" EmptyString => None
  | String "-" s' => option_map Z.opp (decimal_digits 0 s')
  | String "+" s' => decimal_digits 0 s'
  | _ => decimal_digits 0 s
  end.

Definition utc_host : Platform :=
  {| timestamp := utc_timestamp;
     resolve := split_slash;
     py_int := decimal_int |}.

(** The clock reads 2024-03-15 10:30:00.25. *)
Definition sample_clock : datetime := mk_datetime 2024 3 15 10 30 0 250000.

(** The status-change time of something changed [n] days before that. *)
Definition days_ago (n : Z) : Q :=
  (utc_timestamp sample_clock - inject_Z (n * 86400))%Q.

(** The end of the day ten days before the sample clock, in POSIX seconds. *)
Definition ten_days_cutoff : Q :=
  utc_timestamp (mk_datetime 2024 3 5 23 59 59 0).

(** /tmp/root holds a.txt (40 days old), b.txt (5 days old), a file changed
    at the ten-day cutoff to the second and one changed a second before
    it, the directory old_dir (15 days old, one file inside, one directory
    with a file below that), a directory new_dir changed today, and a FIFO
    of 100 days. *)
Definition sample_root : gmap string node :=
  {[ "a.txt" := File (days_ago 40);
     "b.txt" := File (days_ago 5);
     "at_cutoff.txt" := File ten_days_cutoff;
     "just_before.txt" := File (ten_days_cutoff - 1)%Q;
     "old_dir" := Dir (days_ago 15)
                      {[ "inner.txt" := File (days_ago 90);
                         "deep" :=
                           Dir (days_ago 80)
                               {[ "deeper.txt" := File (days_ago 70) ]} ]};
     "new_dir" := Dir (days_ago 0)
                      {[ "ancient.txt" := File (days_ago 400) ]};
     "pipe" := Other (days_ago 100) ]}.

Definition sample_fs : node :=
  Dir (days_ago 500)
      {[ "tmp" := Dir (days_ago 1)
                      {[ "root" := Dir (days_ago 1) sample_root ]};
         "etc" := Dir (days_ago 300)
                      {[ "passwd" := File (days_ago 300) ]} ]}.

Definition sample_world : world := mk_world sample_fs [] sample_clock.



(** ** Reference definitions for the statements *)

(** 23:59:59 of the calendar day that lies [days] days before the day of
    [dtn], without a sub-second part. *)
Definition cutoff_of (dtn : datetime) (days : Z) : datetime :=
  let '(y, m, d) := _ord2ymd (toordinal dtn - days) in
  mk_datetime y m d 23 59 59 0.

(** The number of days before [dtn] for which the cutoff is a date that
    [datetime] can hold (year 1 to year 9999). *)
Definition cutoff_in_range (dtn : datetime) (days : Z) : Prop :=
  0 < toordinal dtn - days <= _MAXORDINAL.

(** A regular file, respectively a directory, changed strictly before the
    instant [t]. *)
Definition old_file (t : Q) (n : node) : bool :=
  is_file_node n && Qltb (node_ctime n) t.

Definition old_dir (t : Q) (n : node) : bool :=
  is_dir_node n && Qltb (node_ctime n) t.

(** The directory at [p] with [f] applied to its entries, all else as it is. *)
Fixpoint fs_alter_dir (f : gmap string node -> gmap string node)
    (p : fspath) (n : node) : node :=
  match n with
  | Dir t entries =>
      match p with
      | [] => Dir t (f entries)
      | x :: p' => Dir t (alter (fs_alter_dir f p') x entries)
      end
  | _ => n
  end.

(** The entries that a sweep leaves in place. *)
Definition keep (old : Q -> node -> bool) (t : Q)
    (entries : gmap string node) : gmap string node :=
  filter (fun e : string * node => negb (old t e.2)) entries.

(** The entries that a sweep is after, and how many they are. *)
Definition targets (old : Q -> node -> bool) (t : Q)
    (entries : gmap string node) : gmap string node :=
  filter (fun e : string * node => old t e.2) entries.

Definition count_targets (old : Q -> node -> bool) (t : Q)
    (entries : gmap string node) : Z :=
  Z.of_nat (size (targets old t entries)).

(** Whether the entry named [x] is one of them. *)
Definition hit (old : node -> bool) (entries : gmap string node)
    (x : string) : bool :=
  match entries !! x with
  | Some n => old n
  | None => false
  end.

(** The entries named in [names] unlinked, one after the other. *)
Definition unlink_all (names : list string)
    (entries : gmap string node) : gmap string node :=
  foldl (fun m x => delete x m) entries names.

(** The lines a sweep prints for the entry [x] of the directory [p]. *)
Definition removing_file (p : fspath) (x : string) : list pyval :=
  [PStr "Removing file"; PPath (os_path_join p x); PStr "..."].

Definition removing_directory (p : fspath) (x : string) : list pyval :=
  [PStr "Removing directory"; PPath (os_path_join p x); PStr "..."].

Definition would_remove (p : fspath) (x : string) : list pyval :=
  [PStr "Would remove"; PPath (os_path_join p x)].

(** The option names that the loop of [__main__] knows, and the pieces of
    a long option: the text after the two dashes, split at the equals
    signs. *)
Definition recognized : list string :=
  ["files"; "files_after"; "folders"; "folders_after"; "dryrun"].

Definition opt_of (arg : string) : list string :=
  str_split "="%char (str_from 2 arg).


(** An argument that the option loop takes for the path: one that does not
    begin with a dash. *)
Definition positional (arg : string) : bool :=
  negb (String.eqb (str_prefix 1 arg) "-").

(** The option loop as a fold over the arguments, the first exception
    ending it. *)
Definition options_of `{Platform} (args : list string) : result locals :=
  foldl (fun r arg => result_bind r (parse_arg arg)) (Ok defaults) args.




(** What a run leaves of the entries of its target: each sweep that is
    switched on and is no dry run takes its targets away, the files first. *)
Definition after_files (l : locals) (tf : Q)
    (e : gmap string node) : gmap string node :=
  if rm_files l && negb (dryrun l) then keep old_file tf e else e.

Definition after_folders (l : locals) (td : Q)
    (e : gmap string node) : gmap string node :=
  if rm_folders l && negb (dryrun l) then keep old_dir td e else e.


Definition folders_lines (l : locals) (p : fspath) (td : Q)
    (e : gmap string node) : list (list pyval) :=
  if rm_folders l then
    [PStr "Cleaning folders..."]
    :: ((if dryrun l then would_remove p else removing_directory p)
        <$> filter (fun x => hit (old_dir td) e x) (scan_dirs e))
    ++ [[PStr "Removed"; PInt (count_targets old_dir td e); PStr "folders"]]
  else [[PStr "Skipping folder cleanup"]].

(** Goals of linear arithmetic with divisions by constants. *)
Ltac zdiv := Z.to_euclidean_division_equations; lia.

(** The three facts about one step of the option loop on an argument that
    begins with a dash (the path stays, an argument without a recognized
    name changes nothing, only [int] raises), for a step that returns:
    [option_taken E] when the name was found equal to a recognized one by
    [E], [option_passed_over] when the variables are returned as they
    were. *)
Ltac option_taken E :=
  cbn [result_bind];
  split; [by intros ? [= <-] |];
  split; [| discriminate];
  intros [Hno | Hno]; [contradiction |];
  exfalso; apply Hno; apply String.eqb_eq in E; rewrite E;
  unfold recognized; rewrite !elem_of_cons; tauto.

Ltac option_passed_over :=
  cbn [result_bind];
  split; [by intros ? [= <-] |];
  split; [reflexivity | discriminate].


(** * The script over a file system with links *)

(** The world above is a tree of files and directories in which every name
    has a status-change time of its own, time stands still, every datetime
    has a timestamp and every name can be printed. The module below embeds
    the same functions of cleanup.py over a file system that has what the
    tree leaves out:
    - symbolic links, resolved anew at every call, so that a link dangles
      once its target is gone;
    - regular and special files as inodes with any number of names, so that
      the status-change time is shared between the names of a file;
    - [unlink] and [rmdir] stamping the directory they change and the inode
      that loses a name;
    - [shutil.rmtree] refusing a symbolic link with [OSError];
    - [datetime.timestamp], which raises [ValueError] on datetimes at the
      ends of the range;
    - [print], which raises [UnicodeEncodeError] on a name that the
      encoding of the standard output cannot take.
    What remains outside: access rights (every call is permitted), other
    processes changing the file system during the run, and devices that
    fail. *)
Module Posix.

Declare Scope posix_scope.
Local Open Scope posix_scope.

(** ** The file system *)

(** What is not a directory and not a symbolic link is an inode, a regular
    file or something special (a FIFO, a socket, a device), with its
    status-change time in POSIX seconds. *)
Inductive kind : Type := Regular | Special.

Record inode : Type := mk_inode {
  ikind : kind;
  ictime : Q
}.

(** A directory entry: a name of an inode (a hard link), a directory with
    its status-change time and its entries, or a symbolic link with its
    target, an absolute path given by its names. *)
Inductive lnode : Type :=
| Leaf (ino : positive)
| Folder (ctime : Q) (entries : gmap string lnode)
| Symlink (target : fspath).

(** The state: the directory tree from its root, the inodes, the calls to
    [print] so far, the reading of the wall clock that [datetime.now()]
    returns, and the POSIX time with which a change is stamped. *)
Record state : Type := mk_state {
  tree : lnode;
  inodes : gmap positive inode;
  stdout : list (list pyval);
  clock : datetime;
  now : Q
}.

(** What the host decides: besides [timestamp], [resolve] and [py_int],
    for which datetimes [datetime.timestamp()] returns at all, and which
    names the standard output can encode. *)
Class Host : Type := {
  host_platform :: Platform;
  convertible : datetime -> bool;
  printable : string -> bool
}.

(** The path as it is, without following a link: [None] when a name is
    missing or when the way leads through anything but directories. *)
Fixpoint descend (p : fspath) (n : lnode) : option lnode :=
  match p with
  | [] => Some n
  | x :: p' =>
      match n with
      | Folder _ entries =>
          match entries !! x with
          | Some child => descend p' child
          | None => None
          end
      | _ => None
      end
  end.

(** The number of symbolic links that one path resolution follows at
    most. *)
Definition _MAXSYMLINKS : nat := 40.

(** Path resolution as the kernel does it for [stat]: from [cur], reached
    under the real path [here], along the names [rest], following every
    symbolic link on the way and at the end. The result is the real path
    and what lies there, which is never a link. [None] stands for every
    failure: a missing name, a way through a file, too many links. *)
Fixpoint locate (fuel : nat) (root : lnode) (here : fspath) (cur : lnode)
    (rest : fspath) {struct fuel} : option (fspath * lnode) :=
  (fix go (here : fspath) (cur : lnode) (rest : fspath) {struct rest}
     : option (fspath * lnode) :=
     match cur with
     | Symlink target =>
         match fuel with
         | O => None
         | S fuel' => locate fuel' root [] root (target ++ rest)
         end
     | Leaf _ =>
         match rest with
         | [] => Some (here, cur)
         | _ :: _ => None
         end
     | Folder _ entries =>
         match rest with
         | [] => Some (here, cur)
         | x :: rest' =>
             match entries !! x with
             | Some child => go (here ++ [x]) child rest'
             | None => None
             end
         end
     end) here cur rest.

(** The file types that [stat] tells apart here. *)
Inductive filetype : Type := S_IFREG | S_IFDIR | S_IFOTHER.

Definition filetype_eqb (a b : filetype) : bool :=
  match a, b with
  | S_IFREG, S_IFREG | S_IFDIR, S_IFDIR | S_IFOTHER, S_IFOTHER => true
  | _, _ => false
  end.

(** Type and status-change time of what a resolution ended at. *)
Definition status_of (s : state) (n : lnode) : option (filetype * Q) :=
  match n with
  | Leaf i =>
      match inodes s !! i with
      | Some ino =>
          Some (match ikind ino with
                | Regular => S_IFREG
                | Special => S_IFOTHER
                end, ictime ino)
      | None => None
      end
  | Folder t _ => Some (S_IFDIR, t)
  | Symlink _ => None
  end.

(** [os.stat] of a directory entry, following it when it is a link. *)
Definition entry_stat (s : state) (n : lnode) : option (filetype * Q) :=
  match locate _MAXSYMLINKS (tree s) [] n [] with
  | Some (_, n') => status_of s n'
  | None => None
  end.

(** [os.stat] of a path. *)
Definition os_stat (q : fspath) (s : state) : option (filetype * Q) :=
  match locate _MAXSYMLINKS (tree s) [] (tree s) q with
  | Some (_, n) => status_of s n
  | None => None
  end.

(** A path as its directory and its last name. *)
Fixpoint split_last (q : fspath) : option (fspath * string) :=
  match q with
  | [] => None
  | x :: q' =>
      match split_last q' with
      | Some (d, y) => Some (x :: d, y)
      | None => Some ([], x)
      end
  end.

(** The directory at the real path [c] replaced by [f] of its time and
    entries. *)
Fixpoint tree_alter (f : Q -> gmap string lnode -> lnode) (c : fspath)
    (n : lnode) : lnode :=
  match n with
  | Folder t entries =>
      match c with
      | [] => f t entries
      | x :: c' => Folder t (alter (tree_alter f c') x entries)
      end
  | _ => n
  end.

(** The name [x] taken out of the directory at [c], which is stamped. *)
Definition unlink_at (c : fspath) (x : string) (stamp : Q)
    (root : lnode) : lnode :=
  tree_alter (fun _ entries => Folder stamp (delete x entries)) c root.

(** The inodes that have a name at or below an entry. *)
Fixpoint leaves (n : lnode) : list positive :=
  match n with
  | Leaf i => [i]
  | Folder _ entries =>
      map_fold (fun _ child acc => leaves child ++ acc) [] entries
  | Symlink _ => []
  end.

(** An inode that loses a name is stamped. *)
Definition touch (stamp : Q) (i : positive)
    (table : gmap positive inode) : gmap positive inode :=
  alter (fun ino => mk_inode (ikind ino) stamp) i table.

Definition touch_all (stamp : Q) (inos : list positive)
    (table : gmap positive inode) : gmap positive inode :=
  foldr (touch stamp) table inos.

(** ** Computations *)

Definition M (A : Type) : Type := state -> result A * state.

Definition ret {A} (a : A) : M A := fun s => (Ok a, s).

Definition raise {A} (e : exn) : M A := fun s => (Raise e, s).

Definition bind {A B} (c : M A) (k : A -> M B) : M B :=
  fun s =>
    match c s with
    | (Ok a, s') => k a s'
    | (Raise e, s') => (Raise e, s')
    end.

Definition lift {A} (r : result A) : M A := fun s => (r, s).

Notation "'let*' x ':=' c 'in' k" := (bind c (fun x => k))
  (at level 10, x pattern, c at level 100, k at level 200) : posix_scope.
Notation "'run' c 'in' k" := (bind c (fun _ => k))
  (at level 10, c at level 100, k at level 200) : posix_scope.

Fixpoint for_each {A S} (xs : list A) (body : A -> S -> M S) (s : S) : M S :=
  match xs with
  | [] => ret s
  | x :: xs' => let* s' := body x s in for_each xs' body s'
  end.

(** ** The library calls *)

Section Calls.
Context `{Host}.

(** The arguments of [print] that the standard output can encode. The
    strings that the script prints in its sweeps are literals of ASCII;
    a path is printable when its names are. *)
Definition printable_val (v : pyval) : bool :=
  match v with
  | PStr _ => true
  | PPath q => forallb printable q
  | PInt _ => true
  end.

(** The arguments before the first that cannot be encoded: they have been
    written when [print] raises. *)
Fixpoint written (args : list pyval) : list pyval :=
  match args with
  | [] => []
  | v :: args' => if printable_val v then v :: written args' else []
  end.

Definition print (args : list pyval) : M unit :=
  fun s =>
    if forallb printable_val args
    then (Ok tt, mk_state (tree s) (inodes s) (stdout s ++ [args])
                          (clock s) (now s))
    else (Raise UnicodeEncodeError,
          mk_state (tree s) (inodes s) (stdout s ++ [written args])
                   (clock s) (now s)).

Definition datetime_now : M datetime :=
  fun s => (Ok (clock s), s).

(** [datetime.timestamp()] of a naive datetime. *)
Definition datetime_timestamp (d : datetime) : M Q :=
  if convertible d then ret (timestamp d) else raise ValueError.

(** [os.path.isfile], [os.path.isdir]: by [stat], [False] when it fails. *)
Definition os_path_isfile (q : fspath) : M bool :=
  fun s => (Ok (match os_stat q s with
                | Some (S_IFREG, _) => true
                | _ => false
                end), s).

Definition os_path_isdir (q : fspath) : M bool :=
  fun s => (Ok (match os_stat q s with
                | Some (S_IFDIR, _) => true
                | _ => false
                end), s).

Definition os_path_getctime (q : fspath) : M Q :=
  fun s => match os_stat q s with
           | Some (_, t) => (Ok t, s)
           | None => (Raise FileNotFoundError, s)
           end.

(** [os.remove]: the directory of the path is resolved, the last name is
    not followed. The name goes, the directory is stamped, and so is the
    inode that lost the name. *)
Definition os_remove (q : fspath) : M unit :=
  fun s =>
    match split_last q with
    | None => (Raise IsADirectoryError, s)
    | Some (d, x) =>
        match locate _MAXSYMLINKS (tree s) [] (tree s) d with
        | Some (c, Folder _ entries) =>
            match entries !! x with
            | None => (Raise FileNotFoundError, s)
            | Some (Folder _ _) => (Raise IsADirectoryError, s)
            | Some child =>
                (Ok tt,
                 mk_state (unlink_at c x (now s) (tree s))
                          (touch_all (now s) (leaves child) (inodes s))
                          (stdout s) (clock s) (now s))
            end
        | Some (_, _) => (Raise (NotADirectoryError "Not a directory"), s)
        | None => (Raise FileNotFoundError, s)
        end
    end.

(** [shutil.rmtree]: refuses a symbolic link; removes a directory with all
    that is below it, never following a link, and stamps every inode that
    had a name there. *)
Definition shutil_rmtree (q : fspath) : M unit :=
  fun s =>
    match split_last q with
    | None => (Raise OSError, s)
    | Some (d, x) =>
        match locate _MAXSYMLINKS (tree s) [] (tree s) d with
        | Some (c, Folder _ entries) =>
            match entries !! x with
            | None => (Raise FileNotFoundError, s)
            | Some (Symlink _) => (Raise OSError, s)
            | Some (Leaf _) =>
                (Raise (NotADirectoryError "Not a directory"), s)
            | Some (Folder t below) =>
                (Ok tt,
                 mk_state (unlink_at c x (now s) (tree s))
                          (touch_all (now s) (leaves (Folder t below))
                                     (inodes s))
                          (stdout s) (clock s) (now s))
            end
        | Some (_, _) => (Raise (NotADirectoryError "Not a directory"), s)
        | None => (Raise FileNotFoundError, s)
        end
    end.

(** How [os.walk] splits the entries of a directory: [DirEntry.is_dir()]
    follows links and is [False] when that fails. *)
Definition entry_is_dir (s : state) (n : lnode) : bool :=
  match entry_stat s n with
  | Some (S_IFDIR, _) => true
  | _ => false
  end.

Definition scan_dirs (s : state) (entries : gmap string lnode)
  : list string :=
  (filter (fun e : string * lnode => entry_is_dir s e.2)
          (map_to_list entries)).*1.

Definition scan_nondirs (s : state) (entries : gmap string lnode)
  : list string :=
  (filter (fun e : string * lnode => negb (entry_is_dir s e.2))
          (map_to_list entries)).*1.

(** What [os.walk(top)] yields first, if anything. *)
Definition os_walk_first (top : fspath)
  : M (option (fspath * list string * list string)) :=
  fun s => match locate _MAXSYMLINKS (tree s) [] (tree s) top with
           | Some (_, Folder _ entries) =>
               (Ok (Some (top, scan_dirs s entries, scan_nondirs s entries)),
                s)
           | _ => (Ok None, s)
           end.

Definition next {A} (g : M (option A)) : M A :=
  let* item := g in
  match item with
  | Some a => ret a
  | None => raise StopIteration
  end.

(** ** cleanup.py *)

Definition get_time_before (days : Z) : M datetime :=
  let* dtn := datetime_now in
  let* rm_dt := lift (strptime_end_of_day (year dtn) (month dtn) (day dtn)) in
  let* delta := lift (new_timedelta (days * -1) 0 0) in
  lift (datetime_add rm_dt delta).

Definition get_files_by_path (p : fspath) : M (list string) :=
  let apath := os_path_abspath p in
  let* (rpath, subdirs, files) := next (os_walk_first apath) in
  ret files.

Definition get_subdirs_by_path (p : fspath) : M (list string) :=
  let apath := os_path_abspath p in
  let* (rpath, subdirs, files) := next (os_walk_first apath) in
  ret subdirs.

Definition is_older (file_path : fspath) (comp_time : datetime) : M bool :=
  let* f_ctime := os_path_getctime file_path in
  let* c_time := datetime_timestamp comp_time in
  ret (Qltb f_ctime c_time).

Definition rm_files_in_body (p : fspath) (rm_time : datetime) (dryun : bool)
    (file : string) (cnt : Z) : M Z :=
  let f_path := os_path_join p file in
  let* isfile := os_path_isfile f_path in
  if negb isfile then ret cnt else
  let* older := is_older f_path rm_time in
  if negb older then ret cnt else
  run (if negb dryun
       then run print [PStr "Removing file"; PPath f_path; PStr "..."] in
            os_remove f_path
       else print [PStr "Would remove"; PPath f_path]) in
  ret (cnt + 1).

Definition rm_files_in (p : fspath) (days : Z) (dryun : bool) : M Z :=
  let cnt := 0 in
  let* rm_time := get_time_before days in
  let* files := get_files_by_path p in
  let* cnt := for_each files (rm_files_in_body p rm_time dryun) cnt in
  ret cnt.

Definition rm_folders_in_body (p : fspath) (rm_time : datetime) (dryrun : bool)
    (dir : string) (cnt : Z) : M Z :=
  let d_path := os_path_join p dir in
  let* isdir := os_path_isdir d_path in
  if negb isdir then ret cnt else
  let* older := is_older d_path rm_time in
  if negb older then ret cnt else
  run (if negb dryrun
       then run print [PStr "Removing directory"; PPath d_path; PStr "..."] in
            shutil_rmtree d_path
       else print [PStr "Would remove"; PPath d_path]) in
  ret (cnt + 1).

Definition rm_folders_in (p : fspath) (days : Z) (dryrun : bool) : M Z :=
  let cnt := 0 in
  let* rm_time := get_time_before days in
  let* dirs := get_subdirs_by_path p in
  let* cnt := for_each dirs (rm_folders_in_body p rm_time dryrun) cnt in
  ret cnt.

End Calls.

(** ** Reference definitions for the statements *)

(** An entry that the sweep of files, respectively of directories, is
    after at the instant [ts]: [stat] shows a regular file, respectively a
    directory, changed strictly before [ts]. *)
Definition due (ft : filetype) (ts : Q) (s : state) (n : lnode) : bool :=
  match entry_stat s n with
  | Some (ft', t) => filetype_eqb ft' ft && Qltb t ts
  | None => false
  end.

Definition targets (ft : filetype) (ts : Q) (s : state)
    (entries : gmap string lnode) : gmap string lnode :=
  filter (fun e : string * lnode => due ft ts s e.2) entries.

Definition remains (ft : filetype) (ts : Q) (s : state)
    (entries : gmap string lnode) : gmap string lnode :=
  filter (fun e : string * lnode => negb (due ft ts s e.2)) entries.

Definition count_targets (ft : filetype) (ts : Q) (s : state)
    (entries : gmap string lnode) : Z :=
  Z.of_nat (size (targets ft ts s entries)).

Definition is_target (ft : filetype) (ts : Q) (s : state)
    (entries : gmap string lnode) (x : string) : bool :=
  match entries !! x with
  | Some n => due ft ts s n
  | None => false
  end.

(** A directory without oddities: no entry is a symbolic link, and no two
    entries are names of the same inode. *)
Definition plain (entries : gmap string lnode) : Prop :=
  (forall x target, entries !! x <> Some (Symlink target))
  /\ (forall x y i, entries !! x = Some (Leaf i) ->
                    entries !! y = Some (Leaf i) -> x = y).

(** Every name of the directory, and of the path to it, can be printed. *)
Definition names_printable `{Host} (p : fspath)
    (entries : gmap string lnode) : Prop :=
  forallb printable p = true
  /\ forall x n, entries !! x = Some n -> printable x = true.

(** The two conditions as tests on the entries. *)
Definition plainb (entries : gmap string lnode) : bool :=
  forallb
    (fun a : string * lnode =>
       match a.2 with
       | Symlink _ => false
       | Folder _ _ => true
       | Leaf i =>
           forallb
             (fun b : string * lnode =>
                match b.2 with
                | Leaf j => negb (Pos.eqb i j) || String.eqb a.1 b.1
                | _ => true
                end)
             (map_to_list entries)
       end)
    (map_to_list entries).

Definition names_printableb `{Host} (p : fspath)
    (entries : gmap string lnode) : bool :=
  forallb printable p
  && forallb (fun a : string * lnode => printable a.1) (map_to_list entries).

(** Two states with the same file system and clocks: they differ in what
    has been printed at most. *)
Definition same_files (s s' : state) : Prop :=
  tree s' = tree s /\ inodes s' = inodes s
  /\ clock s' = clock s /\ now s' = now s.

(** A computation that keeps a property of the state, however it ends. *)
Definition keeps {A} (I : state -> Prop) (c : M A) : Prop :=
  forall s, I s -> I (c s).2.

(** A property of the state that does not depend on what was printed. *)
Definition silent (I : state -> Prop) : Prop :=
  forall s out, I s -> I (mk_state (tree s) (inodes s) out (clock s) (now s)).

(** ** A sample host and sample directories *)

(** The host of the first sample, on UTC: there [datetime.timestamp()]
    fails on the first day of the year 1 and nowhere else, and every name
    but one with a byte above 127 can be printed. *)
Fixpoint ascii_only (x : string) : bool :=
  match x with
  | EmptyString => true
  | String c x' => (nat_of_ascii c <? 128)%nat && ascii_only x'
  end.

Definition utc_posix_host : Host :=
  {| host_platform := utc_host;
     convertible := fun d => 1 <? toordinal d;
     printable := ascii_only |}.

(** /tmp/root as in the first sample, without oddities: a.txt (inode 1, 40
    days old), b.txt (inode 2, 5 days), old_dir (15 days, with inner.txt,
    inode 3), new_dir (changed today) and a FIFO (inode 4, 100 days). *)
Definition plain_root : gmap string lnode :=
  {[ "a.txt" := Leaf 1;
     "b.txt" := Leaf 2;
     "old_dir" := Folder (days_ago 15) {[ "inner.txt" := Leaf 3 ]};
     "new_dir" := Folder (days_ago 0) ∅;
     "pipe" := Leaf 4 ]}.

Definition sample_inodes : gmap positive inode :=
  {[ 1%positive := mk_inode Regular (days_ago 40);
     2%positive := mk_inode Regular (days_ago 5);
     3%positive := mk_inode Regular (days_ago 90);
     4%positive := mk_inode Special (days_ago 100);
     5%positive := mk_inode Regular ten_days_cutoff ]}.

Definition state_of (entries : gmap string lnode) : state :=
  mk_state
    (Folder (days_ago 500)
       {[ "tmp" := Folder (days_ago 1)
                     {[ "root" := Folder (days_ago 1) entries ]};
          "srv" := Folder (days_ago 300)
                     {[ "data" := Folder (days_ago 200) ∅ ]} ]})
    sample_inodes [] sample_clock (utc_timestamp sample_clock).

Definition plain_state : state := state_of plain_root.



(** The same with a symbolic link to the directory /srv/data, which is 200
    days old. *)
Definition dirlink_root : gmap string lnode :=
  <["data" := Symlink ["srv"; "data"]]> plain_root.

Definition dirlink_state : state := state_of dirlink_root.

(** The same with a second name for the inode of a.txt. *)
Definition twin_root : gmap string lnode :=
  <["a_twin.txt" := Leaf 1]> plain_root.

Definition twin_state : state := state_of twin_root.

End Posix.
(** * Properties *)

(** ** The calendar *)

Lemma month_of_day_in_year (leap : bool) (n : Z) :
  0 <= n < 365 + (if leap then 1 else 0) ->
  let month := Z.shiftr (n + 50) 5 in
  let preceding :=
    _DAYS_BEFORE_MONTH month + (if (2 <? month) && leap then 1 else 0) in
  let '(month, preceding) :=
    if n <? preceding
    then (month - 1,
          preceding - (_DAYS_IN_MONTH (month - 1)
                       + (if (month - 1 =? 2) && leap then 1 else 0)))
    else (month, preceding) in
  1 <= month <= 12 /\
  _DAYS_BEFORE_MONTH month + (if (2 <? month) && leap then 1 else 0)
    + (n - preceding + 1) = n + 1 /\
  1 <= n - preceding + 1
    <= _DAYS_IN_MONTH month + (if (month =? 2) && leap then 1 else 0).
Proof.
  intros Hn. cbv zeta. rewrite Z.shiftr_div_pow2 by lia. change (2 ^ 5) with 32.
  assert (Hm : 1 <= (n + 50) / 32 <= 12) by (destruct leap; zdiv).
  assert (Hq : 32 * ((n + 50) / 32) <= n + 50 < 32 * ((n + 50) / 32) + 32) by zdiv.
  set (m := (n + 50) / 32) in *. clearbody m.
  assert (Hc : m = 1 \/ m = 2 \/ m = 3 \/ m = 4 \/ m = 5 \/ m = 6 \/
               m = 7 \/ m = 8 \/ m = 9 \/ m = 10 \/ m = 11 \/ m = 12) by lia.
  match goal with
  | |- context [n <? ?b] => destruct (Z.ltb_spec n b) as [Hlt | Hge]
  end;
  destruct leap; repeat (destruct Hc as [-> | Hc]); try subst m;
  repeat match goal with
         | |- context [Z.pos ?a - 1] =>
             let v := eval vm_compute in (Z.pos a - 1) in
             change (Z.pos a - 1) with v
         end;
  cbn in *; lia.
Qed.

Lemma is_leap_true (y : Z) :
  _is_leap y = true <-> y mod 4 = 0 /\ (y mod 100 <> 0 \/ y mod 400 = 0).
Proof.
  unfold _is_leap.
  rewrite andb_true_iff, orb_true_iff, negb_true_iff, !Z.eqb_eq, Z.eqb_neq.
  tauto.
Qed.

(** [_ord2ymd] yields a date that exists and whose ordinal is the argument. *)
Lemma ymd2ord_ord2ymd (n : Z) :
  1 <= n ->
  let '(y, m, d) := _ord2ymd n in
  _ymd2ord y m d = n /\ 1 <= m <= 12 /\ 1 <= d <= _days_in_month y m.
Proof.
  intros Hn. unfold _ord2ymd. cbv zeta.
  unfold _DI400Y, _DI100Y, _DI4Y.
  set (a := n - 1).
  set (n400 := a / 146097). set (r1 := a mod 146097).
  set (n100 := r1 / 36524). set (r2 := r1 mod 36524).
  set (n4 := r2 / 1461). set (r3 := r2 mod 1461).
  set (n1 := r3 / 365). set (r4 := r3 mod 365).
  assert (Ha : 0 <= a) by (unfold a; lia).
  assert (H1 : a = 146097 * n400 + r1 /\ 0 <= r1 < 146097)
    by (unfold n400, r1; zdiv).
  assert (H2 : r1 = 36524 * n100 + r2 /\ 0 <= r2 < 36524)
    by (unfold n100, r2; zdiv).
  assert (H3 : r2 = 1461 * n4 + r3 /\ 0 <= r3 < 1461) by (unfold n4, r3; zdiv).
  assert (H4 : r3 = 365 * n1 + r4 /\ 0 <= r4 < 365) by (unfold n1, r4; zdiv).
  clearbody n400 r1 n100 r2 n4 r3 n1 r4.
  assert (B400 : 0 <= n400) by lia.
  assert (B100 : 0 <= n100 <= 4) by lia.
  assert (B4 : 0 <= n4 <= 24) by lia.
  assert (B1 : 0 <= n1 <= 4) by lia.
  destruct ((n1 =? 4) || (n100 =? 4)) eqn:Hedge.
  - (* the last day of a leap year *)
    set (y := n400 * 400 + 1 + n100 * 100 + n4 * 4 + n1 - 1).
    assert (Hr : r4 = 0 /\ y mod 4 = 0 /\ (y mod 100 <> 0 \/ y mod 400 = 0)
                 /\ _days_before_year y + 365 = a).
    { unfold _days_before_year, y.
      apply orb_true_iff in Hedge. rewrite !Z.eqb_eq in Hedge. zdiv. }
    destruct Hr as (Hr4 & Hl1 & Hl2 & Hd).
    assert (Hleap : _is_leap y = true) by (apply is_leap_true; tauto).
    unfold _ymd2ord, _days_before_month, _days_in_month. rewrite Hleap.
    cbn. lia.
  - apply orb_false_iff in Hedge. rewrite !Z.eqb_neq in Hedge.
    set (leapyear := (n1 =? 3) && (negb (n4 =? 24) || (n100 =? 3))).
    set (yr := n400 * 400 + 1 + n100 * 100 + n4 * 4 + n1).
    assert (Hd : _days_before_year yr + r4 = a).
    { unfold _days_before_year, yr. zdiv. }
    assert (Hleap : _is_leap yr = leapyear).
    { unfold leapyear. destruct (_is_leap yr) eqn:E.
      - apply is_leap_true in E. symmetry.
        rewrite andb_true_iff, orb_true_iff, negb_true_iff, !Z.eqb_eq, Z.eqb_neq.
        unfold yr in E. zdiv.
      - symmetry. apply not_true_iff_false. intros Hl.
        apply not_true_iff_false in E. apply E, is_leap_true.
        rewrite andb_true_iff, orb_true_iff, negb_true_iff, !Z.eqb_eq, Z.eqb_neq
          in Hl.
        unfold yr. zdiv. }
    assert (Hr4 : 0 <= r4 < 365 + (if leapyear then 1 else 0)).
    { destruct leapyear eqn:E; [lia |]. unfold leapyear in E. lia. }
    pose proof (month_of_day_in_year leapyear r4 Hr4) as Hm. cbv zeta in Hm.
    destruct (r4 <? _) in Hm |- *.
    all: destruct Hm as (Hm1 & Hm2 & Hm3);
      unfold _ymd2ord, _days_before_month, _days_in_month; rewrite Hleap;
      (split; [lia | split; [lia |]]).
    all: match goal with
         | |- context [if ?b then 29 else _] => destruct b eqn:Eb
         end.
    all: try lia.
    all: apply andb_true_iff in Eb; destruct Eb as [Eb _]; apply Z.eqb_eq in Eb;
      rewrite ?Eb in Hm3 |- *; cbn in Hm3 |- *; lia.
Qed.

Lemma toordinal_cutoff_of (dtn : datetime) (days : Z) :
  0 < toordinal dtn - days ->
  toordinal (cutoff_of dtn days) = toordinal dtn - days.
Proof.
  intros Hpos. unfold cutoff_of.
  pose proof (ymd2ord_ord2ymd (toordinal dtn - days) ltac:(lia)) as Hr.
  destruct (_ord2ymd (toordinal dtn - days)) as [[y m] d].
  unfold toordinal at 1. cbn. tauto.
Qed.

(** The ordinal of a date that exists, roughly bounded. *)
Lemma toordinal_bounds (d : datetime) :
  valid_datetime d -> 1 <= toordinal d <= 3652060.
Proof.
  intros (Hy & Hm & Hd & _).
  unfold toordinal, _ymd2ord, _days_before_month, _days_before_year.
  unfold _days_in_month in Hd.
  assert (Hb : 0 <= _DAYS_BEFORE_MONTH (month d) <= 334
               /\ _DAYS_IN_MONTH (month d) <= 31).
  { assert (Hc : month d = 1 \/ month d = 2 \/ month d = 3 \/ month d = 4 \/
                 month d = 5 \/ month d = 6 \/ month d = 7 \/ month d = 8 \/
                 month d = 9 \/ month d = 10 \/ month d = 11 \/ month d = 12)
      by lia.
    repeat (destruct Hc as [-> | Hc]); try rewrite Hc; cbn; lia. }
  destruct (_ <? _), (_ =? _), (_is_leap _); cbn in Hd |- *; zdiv.
Qed.

(** ** The cutoff *)

Lemma strptime_end_of_day_valid (d : datetime) :
  valid_datetime d -> 1000 <= year d ->
  strptime_end_of_day (year d) (month d) (day d)
  = Ok (mk_datetime (year d) (month d) (day d) 23 59 59 0).
Proof.
  intros (Hy & Hm & Hd & _) H1000. unfold strptime_end_of_day.
  assert (Hc : (1000 <=? year d) && (year d <=? 9999) && (1 <=? month d)
               && (month d <=? 12) && (1 <=? day d)
               && (day d <=? _days_in_month (year d) (month d)) = true).
  { rewrite !andb_true_iff, !Z.leb_le. lia. }
  rewrite Hc. reflexivity.
Qed.

(** The clock is only read. *)
Lemma get_time_before_world (days : Z) (w : world) :
  (get_time_before days w).2 = w.
Proof.
  unfold get_time_before, bind, datetime_now, lift.
  destruct (strptime_end_of_day _ _ _); [| reflexivity].
  destruct (new_timedelta _ _ _); reflexivity.
Qed.

Lemma end_of_day_plus_days (y m d days : Z) :
  let eod := mk_datetime y m d 23 59 59 0 in
  1 <= toordinal eod <= 3652060 ->
  datetime_add eod (mk_timedelta (- days) 0 0)
  = if (0 <? toordinal eod - days) && (toordinal eod - days <=? _MAXORDINAL)
    then Ok (cutoff_of eod days)
    else Raise OverflowError.
Proof.
  intros eod Hord. unfold datetime_add.
  assert (Hfirst : new_timedelta (toordinal eod) (seconds_of_day eod)
                                 (microsecond eod)
                   = Ok (mk_timedelta (toordinal eod) 86399 0)).
  { unfold new_timedelta. cbn [seconds_of_day microsecond eod second minute hour].
    change (59 + 59 * 60 + 23 * 3600 + 0 / 1000000) with 86399.
    change (86399 / 86400) with 0. change (86399 mod 86400) with 86399.
    change (0 mod 1000000) with 0. rewrite Z.add_0_r.
    destruct (Z.ltb_spec 999999999 (Z.abs (toordinal eod))); [lia | reflexivity]. }
  rewrite Hfirst. cbn [result_bind td_days td_seconds td_microseconds].
  unfold new_timedelta.
  change (86399 + 0 + (0 + 0) / 1000000) with 86399.
  change (86399 / 86400) with 0. change (86399 mod 86400) with 86399.
  change ((0 + 0) mod 1000000) with 0. rewrite Z.add_0_r.
  replace (toordinal eod + - days) with (toordinal eod - days) by lia.
  destruct (Z.ltb_spec 999999999 (Z.abs (toordinal eod - days))) as [Hbig | Hok].
  - cbn [result_bind].
    destruct (Z.ltb_spec 0 (toordinal eod - days)),
             (Z.leb_spec (toordinal eod - days) _MAXORDINAL);
      cbn [andb]; try reflexivity.
    unfold _MAXORDINAL in *. lia.
  - cbn [result_bind td_days td_seconds td_microseconds].
    change (86399 / 3600) with 23. change (86399 mod 3600 / 60) with 59.
    change (86399 mod 3600 mod 60) with 59.
    destruct ((0 <? _) && (_ <=? _)); [| reflexivity].
    unfold cutoff_of. destruct (_ord2ymd _) as [[y' m'] d']. reflexivity.
Qed.

(** What [get_time_before] returns, for every number of days. *)
Lemma get_time_before_spec (days : Z) (w : world) :
  valid_datetime (clock w) -> 1000 <= year (clock w) ->
  get_time_before days w
  = (if (0 <? toordinal (clock w) - days)
        && (toordinal (clock w) - days <=? _MAXORDINAL)
     then Ok (cutoff_of (clock w) days)
     else Raise OverflowError, w).
Proof.
  intros Hvalid H1000.
  pose proof (toordinal_bounds _ Hvalid) as Hord.
  unfold get_time_before, bind, datetime_now, lift.
  rewrite (strptime_end_of_day_valid _ Hvalid H1000).
  set (eod := mk_datetime _ _ _ 23 59 59 0).
  assert (Heod : toordinal eod = toordinal (clock w)) by reflexivity.
  unfold new_timedelta.
  change (0 + 0 / 1000000) with 0. change (0 / 86400) with 0.
  change (0 mod 86400) with 0. change (0 mod 1000000) with 0.
  rewrite Z.add_0_r.
  replace (days * -1) with (- days) by lia.
  destruct (Z.ltb_spec 999999999 (Z.abs (- days))) as [Hbig | Hok].
  - destruct (Z.ltb_spec 0 (toordinal (clock w) - days)),
             (Z.leb_spec (toordinal (clock w) - days) _MAXORDINAL);
      cbn [andb]; try reflexivity.
    unfold _MAXORDINAL in *. lia.
  - pose proof (end_of_day_plus_days (year (clock w)) (month (clock w))
                                     (day (clock w)) days) as Hadd.
    cbv zeta in Hadd. fold eod in Hadd. rewrite Hadd by lia. rewrite Heod.
    replace (cutoff_of eod days) with (cutoff_of (clock w) days)
      by (unfold cutoff_of; rewrite Heod; reflexivity).
    reflexivity.
Qed.

(** ** The file system *)

Lemma fs_lookup_app (p q : fspath) (n : node) :
  fs_lookup (p ++ q) n = fs_lookup p n ≫= fs_lookup q.
Proof.
  revert n. induction p as [| x p IH]; intros n; [reflexivity |].
  cbn. destruct n as [t | t | t e]; try reflexivity.
  destruct (e !! x) as [child |]; [apply IH | reflexivity].
Qed.

Lemma fs_lookup_child (p : fspath) (x : string) (n : node) (t : Q)
    (e : gmap string node) :
  fs_lookup p n = Some (Dir t e) ->
  fs_lookup (os_path_join p x) n = e !! x.
Proof.
  intros Hp. unfold os_path_join. rewrite fs_lookup_app, Hp. cbn.
  destruct (e !! x); reflexivity.
Qed.

Lemma fs_delete_deeper (y z : string) (r : fspath) (t : Q)
    (e : gmap string node) :
  fs_delete (y :: z :: r) (Dir t e)
  = match e !! y with
    | Some child => Dir t (<[y := fs_delete (z :: r) child]> e)
    | None => Dir t e
    end.
Proof. reflexivity. Qed.

(** Unlinking a child is altering the parent's entries. *)
Lemma fs_delete_child (p : fspath) (x : string) (n : node) :
  fs_delete (os_path_join p x) n = fs_alter_dir (delete x) p n.
Proof.
  unfold os_path_join. revert n.
  induction p as [| y p IH]; intros n.
  - destruct n; reflexivity.
  - destruct n as [t | t | t e]; try reflexivity.
    assert (Hne : exists z r, p ++ [x] = z :: r) by (destruct p; cbn; eauto).
    destruct Hne as (z & r & Hpx).
    cbn [app fs_alter_dir]. rewrite Hpx, fs_delete_deeper, <- Hpx.
    destruct (e !! y) as [child |] eqn:Hy; f_equal; apply map_eq; intros k.
    + rewrite lookup_insert, lookup_alter.
      destruct (decide (y = k)) as [-> |]; [| reflexivity].
      rewrite Hy. cbn. by rewrite IH.
    + rewrite lookup_alter.
      destruct (decide (y = k)) as [-> |]; [| reflexivity].
      by rewrite Hy.
Qed.

Lemma fs_lookup_alter_dir f (p : fspath) (n : node) (t : Q)
    (e : gmap string node) :
  fs_lookup p n = Some (Dir t e) ->
  fs_lookup p (fs_alter_dir f p n) = Some (Dir t (f e)).
Proof.
  revert n. induction p as [| x p IH]; intros n Hp.
  - cbn in Hp. injection Hp as ->. reflexivity.
  - destruct n as [tn | tn | tn en]; try discriminate.
    cbn in Hp |- *. rewrite lookup_alter_eq.
    destruct (en !! x) as [child |]; [| discriminate].
    cbn. by apply IH.
Qed.

Lemma fs_alter_dir_compose f g (p : fspath) (n : node) :
  fs_alter_dir g p (fs_alter_dir f p n) = fs_alter_dir (g ∘ f) p n.
Proof.
  revert n. induction p as [| x p IH]; intros n.
  - destruct n; reflexivity.
  - destruct n as [tn | tn | tn en]; try reflexivity.
    cbn. f_equal. rewrite alter_alter_eq.
    apply alter_ext. intros child _. apply IH.
Qed.

Lemma fs_alter_dir_ext f g (p : fspath) (n : node) (t : Q)
    (e : gmap string node) :
  fs_lookup p n = Some (Dir t e) -> f e = g e ->
  fs_alter_dir f p n = fs_alter_dir g p n.
Proof.
  revert n. induction p as [| x p IH]; intros n Hp Hfg.
  - cbn in Hp. injection Hp as ->. cbn. by rewrite Hfg.
  - destruct n as [tn | tn | tn en]; try discriminate.
    cbn in Hp |- *. f_equal. apply alter_ext. intros child Hx.
    rewrite Hx in Hp. by apply IH.
Qed.

Lemma fs_alter_dir_id f (p : fspath) (n : node) (t : Q)
    (e : gmap string node) :
  fs_lookup p n = Some (Dir t e) -> f e = e -> fs_alter_dir f p n = n.
Proof.
  revert n. induction p as [| x p IH]; intros n Hp Hf.
  - cbn in Hp. injection Hp as ->. cbn. by rewrite Hf.
  - destruct n as [tn | tn | tn en]; try discriminate.
    cbn in Hp |- *. f_equal. apply map_eq. intros k.
    rewrite lookup_alter. destruct (decide (x = k)) as [-> |]; [| reflexivity].
    destruct (en !! k) as [child |] eqn:Hk; [| reflexivity].
    cbn. f_equal. by apply IH.
Qed.

(** A directory anywhere stays one when the alteration drops no directory. *)
Lemma fs_alter_dir_keeps_dirs f (p : fspath) :
  (forall e x v, e !! x = Some v -> is_dir_node v = true -> f e !! x = Some v) ->
  forall (n : node) (q : fspath) (t : Q) (e0 : gmap string node),
    fs_lookup q n = Some (Dir t e0) ->
    exists e1, fs_lookup q (fs_alter_dir f p n) = Some (Dir t e1).
Proof.
  intros Hf. induction p as [| y p IH]; intros n q t e0 Hq.
  - destruct n as [tn | tn | tn en]; try (cbn; eauto).
    destruct q as [| x q]; cbn in Hq |- *.
    + injection Hq as -> ->. eauto.
    + destruct (en !! x) as [child |] eqn:Hx; [| discriminate].
      assert (Hd : is_dir_node child = true).
      { destruct q; cbn in Hq; [by injection Hq as -> | by destruct child]. }
      rewrite (Hf _ _ _ Hx Hd). eauto.
  - destruct n as [tn | tn | tn en]; try (cbn; eauto).
    destruct q as [| x q]; cbn in Hq |- *.
    + injection Hq as -> ->. eauto.
    + rewrite lookup_alter. destruct (decide (y = x)) as [-> |].
      * destruct (en !! x) as [child |]; [| discriminate]. cbn. by eapply IH.
      * destruct (en !! x) as [child |]; [| discriminate]. eauto.
Qed.

(** Something that is not a directory stays as it is unless it is, or lies
    below, an entry that the alteration changes. *)
Lemma fs_alter_dir_frame f (p : fspath) (n : node) (q : fspath) (v : node) :
  fs_lookup q n = Some v -> is_dir_node v = false ->
  (forall t e x r, fs_lookup p n = Some (Dir t e) -> q = p ++ x :: r ->
                   f e !! x = e !! x) ->
  fs_lookup q (fs_alter_dir f p n) = Some v.
Proof.
  revert n q. induction p as [| y p IH]; intros n q Hq Hv Hsame.
  - destruct n as [tn | tn | tn en]; try exact Hq.
    destruct q as [| x q]; cbn in Hq |- *.
    + injection Hq as <-. discriminate.
    + rewrite (Hsame tn en x q eq_refl eq_refl). exact Hq.
  - destruct n as [tn | tn | tn en]; try exact Hq.
    destruct q as [| x q]; cbn in Hq |- *.
    + injection Hq as <-. discriminate.
    + rewrite lookup_alter. destruct (decide (y = x)) as [-> |]; [| exact Hq].
      destruct (en !! x) as [child |] eqn:Hx; [| discriminate]. cbn.
      apply IH; [exact Hq | exact Hv |].
      intros t e x' r Hp ->. apply (Hsame t e x' r); [| reflexivity].
      cbn. by rewrite Hx.
Qed.

(** ** The sweeps *)

Lemma Qltb_lt (x y : Q) : Qltb x y = true <-> (x < y)%Q.
Proof. unfold Qltb, Qlt. apply Z.ltb_lt. Qed.


Lemma lookup_unlink_all (names : list string) (e : gmap string node)
    (k : string) :
  unlink_all names e !! k = if decide (k ∈ names) then None else e !! k.
Proof.
  unfold unlink_all. revert e.
  induction names as [| x names IH]; intros e; cbn.
  - rewrite decide_False; [reflexivity | apply not_elem_of_nil].
  - rewrite IH. destruct (decide (k ∈ names)) as [Hin | Hout].
    + rewrite decide_True; [reflexivity | by right].
    + destruct (decide (k = x)) as [-> | Hne].
      * rewrite lookup_delete_eq, decide_True; [reflexivity | by left].
      * rewrite lookup_delete_ne by done.
        rewrite decide_False; [reflexivity |].
        rewrite elem_of_cons. tauto.
Qed.

Lemma filter_hit_ext (old : node -> bool) (e1 e2 : gmap string node)
    (names : list string) :
  (forall y, y ∈ names -> e1 !! y = e2 !! y) ->
  filter (fun y => hit old e1 y) names = filter (fun y => hit old e2 y) names.
Proof.
  induction names as [| y names IH]; intros Hsame; [reflexivity |].
  rewrite !filter_cons.
  assert (Hy : hit old e1 y = hit old e2 y).
  { unfold hit. rewrite (Hsame y); [reflexivity | by left]. }
  rewrite Hy, IH; [reflexivity |].
  intros z Hz. apply Hsame. by right.
Qed.

Lemma filter_hit_delete (old : node -> bool) (e : gmap string node)
    (x : string) (names : list string) :
  x ∉ names ->
  filter (fun y => hit old (delete x e) y) names
  = filter (fun y => hit old e y) names.
Proof.
  intros Hx. apply filter_hit_ext. intros y Hy.
  rewrite lookup_delete_ne; [reflexivity |].
  intros ->. contradiction.
Qed.

(** One loop of a sweep whose body acts on the targets as stated. *)
Lemma sweep_loop (body : string -> Z -> M Z) (old : node -> bool)
    (report : string -> list pyval) (p : fspath) (dry : bool) :
  (forall x cnt w tn e,
      fs_lookup p (fs w) = Some (Dir tn e) ->
      body x cnt w
      = if hit old e x
        then (Ok (cnt + 1),
              mk_world (if dry then fs w
                        else fs_alter_dir (delete x) p (fs w))
                       (stdout w ++ [report x]) (clock w))
        else (Ok cnt, w)) ->
  forall names, NoDup names ->
  forall w cnt tn e,
    fs_lookup p (fs w) = Some (Dir tn e) ->
    let hits := filter (fun x => hit old e x) names in
    for_each names body cnt w
    = (Ok (cnt + Z.of_nat (length hits)),
       mk_world (if dry then fs w
                 else fs_alter_dir (unlink_all hits) p (fs w))
                (stdout w ++ (report <$> hits)) (clock w)).
Proof.
  intros Hbody names. induction names as [| x names IH];
    intros Hnd w cnt tn e Hp; cbn zeta.
  - cbn. unfold ret. rewrite Z.add_0_r, app_nil_r. destruct w as [f o c].
    cbn in *. f_equal. f_equal.
    destruct dry; [reflexivity |].
    symmetry. by eapply fs_alter_dir_id.
  - apply NoDup_cons in Hnd as [Hx Hnd].
    cbn [for_each]. unfold bind at 1. rewrite (Hbody x cnt w tn e Hp).
    rewrite filter_cons. destruct (hit old e x) eqn:Hhit.
    + rewrite decide_True by exact I.
      set (w1 := mk_world _ _ _).
      destruct dry.
      * rewrite (IH Hnd w1 (cnt + 1) tn e Hp). cbn zeta. cbn.
        rewrite <- app_assoc. cbn. do 2 f_equal. lia.
      * assert (Hp1 : fs_lookup p (fs w1) = Some (Dir tn (delete x e))).
        { cbn. by apply fs_lookup_alter_dir. }
        rewrite (IH Hnd w1 (cnt + 1) tn (delete x e) Hp1). cbn zeta.
        rewrite (filter_hit_delete old e x names Hx).
        cbn. rewrite <- app_assoc, fs_alter_dir_compose. cbn.
        do 2 f_equal. lia.
    + rewrite decide_False by (intros []).
      by rewrite (IH Hnd w cnt tn e Hp).
Qed.

(** *** What a listing holds *)

Lemma scan_names_NoDup (P : string * node -> Prop)
    `{forall x, Decision (P x)} (e : gmap string node) :
  NoDup ((filter P (scandir e)).*1).
Proof.
  assert (Hsub : (filter P (scandir e)).*1 `sublist_of` (map_to_list e).*1)
    by apply fmap_sublist, sublist_filter.
  exact (sublist_NoDup _ _ (NoDup_fst_map_to_list e) Hsub).
Qed.

Lemma elem_of_scan_names (P : string * node -> Prop)
    `{forall x, Decision (P x)} (e : gmap string node) (k : string) :
  k ∈ (filter P (scandir e)).*1 <-> exists v, e !! k = Some v /\ P (k, v).
Proof.
  rewrite list_elem_of_fmap. split.
  - intros ([k' v] & -> & Hin). apply list_elem_of_filter in Hin as [HP Hin].
    apply elem_of_map_to_list in Hin. eauto.
  - intros (v & Hk & HP). exists (k, v). split; [reflexivity |].
    apply list_elem_of_filter. split; [exact HP |].
    by apply elem_of_map_to_list.
Qed.

(** The hits of a loop over a listing that misses no target are the
    targets: as many, and unlinking them leaves the other entries. *)
Lemma length_hits (old : node -> bool) (e : gmap string node)
    (names : list string) :
  NoDup names ->
  (forall k v, e !! k = Some v -> old v = true -> k ∈ names) ->
  length (filter (fun x => hit old e x) names)
  = size (filter (fun kv : string * node => old kv.2) e).
Proof.
  intros Hnd Hall. rewrite <- length_map_to_list.
  rewrite <- (length_fmap fst (map_to_list _)).
  apply Permutation_length, NoDup_Permutation.
  - by apply NoDup_filter.
  - apply NoDup_fst_map_to_list.
  - intros k. rewrite list_elem_of_filter, list_elem_of_fmap. unfold hit. split.
    + intros [Hhit Hin]. destruct (e !! k) as [v |] eqn:Hk; [| destruct Hhit].
      exists (k, v). split; [reflexivity |].
      apply elem_of_map_to_list, map_lookup_filter_Some. by split.
    + intros ([k' v] & -> & Hin).
      apply elem_of_map_to_list, map_lookup_filter_Some in Hin as [Hk Hold].
      cbn in *. rewrite Hk. split; [exact Hold |].
      apply (Hall k' v Hk). by apply Is_true_true.
Qed.

Lemma unlink_all_hits (old : node -> bool) (e : gmap string node)
    (names : list string) :
  (forall k v, e !! k = Some v -> old v = true -> k ∈ names) ->
  unlink_all (filter (fun x => hit old e x) names) e
  = filter (fun kv : string * node => negb (old kv.2)) e.
Proof.
  intros Hall. apply map_eq. intros k.
  rewrite lookup_unlink_all, map_lookup_filter.
  destruct (e !! k) as [v |] eqn:Hk; cbn.
  - destruct (old v) eqn:Hold.
    + rewrite decide_True.
      * rewrite option_guard_False; [reflexivity | cbn; tauto].
      * apply list_elem_of_filter. unfold hit. rewrite Hk, Hold.
        split; [exact I | by eapply Hall].
    + rewrite decide_False.
      * rewrite option_guard_True; [reflexivity | exact I].
      * rewrite list_elem_of_filter. unfold hit. rewrite Hk, Hold. cbn. tauto.
  - by destruct (decide _).
Qed.

(** The listing of the non-directories misses no old file, and the listing
    of the directories no old directory. *)
Lemma file_hits (t : Q) (e : gmap string node) :
  let hits := filter (fun x => hit (old_file t) e x) (scan_nondirs e) in
  Z.of_nat (length hits) = count_targets old_file t e
  /\ unlink_all hits e = keep old_file t e.
Proof.
  assert (Hall : forall k v, e !! k = Some v -> old_file t v = true ->
                             k ∈ scan_nondirs e).
  { intros k v Hk Hold. apply elem_of_scan_names. exists v.
    split; [exact Hk |]. cbn. unfold old_file in Hold.
    destruct v; try discriminate; exact I. }
  split.
  - unfold count_targets, targets. f_equal.
    apply length_hits; [apply scan_names_NoDup | exact Hall].
  - unfold keep. by apply unlink_all_hits.
Qed.

Lemma dir_hits (t : Q) (e : gmap string node) :
  let hits := filter (fun x => hit (old_dir t) e x) (scan_dirs e) in
  Z.of_nat (length hits) = count_targets old_dir t e
  /\ unlink_all hits e = keep old_dir t e.
Proof.
  assert (Hall : forall k v, e !! k = Some v -> old_dir t v = true ->
                             k ∈ scan_dirs e).
  { intros k v Hk Hold. apply elem_of_scan_names. exists v.
    split; [exact Hk |]. cbn. unfold old_dir in Hold.
    destruct v; try discriminate; exact I. }
  split.
  - unfold count_targets, targets. f_equal.
    apply length_hits; [apply scan_names_NoDup | exact Hall].
  - unfold keep. by apply unlink_all_hits.
Qed.

(** *** The two sweeps, run *)

Section Sweeps.
Context `{Platform}.

(** The lines of a sweep of files over the entries [e] of [p]. *)
Lemma rm_files_in_run (p : fspath) (days : Z) (dry : bool) (w : world)
    (tn : Q) (e : gmap string node) (cut : datetime) :
  fs_lookup p (fs w) = Some (Dir tn e) ->
  get_time_before days w = (Ok cut, w) ->
  let old := old_file (timestamp cut) in
  rm_files_in p days dry w
  = (Ok (count_targets old_file (timestamp cut) e),
     mk_world (if dry then fs w
               else fs_alter_dir (keep old_file (timestamp cut)) p (fs w))
              (stdout w
               ++ ((if dry then would_remove p else removing_file p)
                   <$> filter (fun x => hit old e x) (scan_nondirs e)))
              (clock w)).
Proof.
  intros Hp Hcut old. unfold rm_files_in.
  unfold bind at 1. rewrite Hcut.
  unfold bind at 1, get_files_by_path, bind at 1, next, bind at 1.
  unfold os_walk_first, os_path_abspath. rewrite Hp. unfold ret at 1 2.
  unfold bind at 1.
  erewrite (sweep_loop _ old (if dry then would_remove p else removing_file p)
              p dry); [| | apply scan_names_NoDup | exact Hp].
  - cbn zeta. unfold ret.
    destruct (file_hits (timestamp cut) e) as [Hcount Hkeep]. f_equal.
    + f_equal. rewrite Z.add_0_l. exact Hcount.
    + f_equal. destruct dry; [reflexivity |].
      eapply fs_alter_dir_ext; [exact Hp | exact Hkeep].
  - clear. intros x cnt w tn e Hp.
    pose proof (fs_lookup_child _ x _ _ _ Hp) as Hx.
    cbv [rm_files_in_body bind os_path_isfile fs_isfile is_older
           os_path_getctime print os_remove ret hit].
    cbn [fs stdout clock]. rewrite Hx. unfold old, old_file.
    destruct (e !! x) as [[c | c | c e'] |]; cbn; try reflexivity.
    rewrite Hx. cbn.
    destruct (Qltb c (timestamp cut)); cbn; [| reflexivity].
    destruct dry; cbn; [reflexivity |].
    rewrite Hx. by rewrite fs_delete_child.
Qed.

(** The same for a sweep of directories. *)
Lemma rm_folders_in_run (p : fspath) (days : Z) (dry : bool) (w : world)
    (tn : Q) (e : gmap string node) (cut : datetime) :
  fs_lookup p (fs w) = Some (Dir tn e) ->
  get_time_before days w = (Ok cut, w) ->
  let old := old_dir (timestamp cut) in
  rm_folders_in p days dry w
  = (Ok (count_targets old_dir (timestamp cut) e),
     mk_world (if dry then fs w
               else fs_alter_dir (keep old_dir (timestamp cut)) p (fs w))
              (stdout w
               ++ ((if dry then would_remove p else removing_directory p)
                   <$> filter (fun x => hit old e x) (scan_dirs e)))
              (clock w)).
Proof.
  intros Hp Hcut old. unfold rm_folders_in.
  unfold bind at 1. rewrite Hcut.
  unfold bind at 1, get_subdirs_by_path, bind at 1, next, bind at 1.
  unfold os_walk_first, os_path_abspath. rewrite Hp. unfold ret at 1 2.
  unfold bind at 1.
  erewrite (sweep_loop _ old
              (if dry then would_remove p else removing_directory p) p dry);
    [| | apply scan_names_NoDup | exact Hp].
  - cbn zeta. unfold ret.
    destruct (dir_hits (timestamp cut) e) as [Hcount Hkeep]. f_equal.
    + f_equal. rewrite Z.add_0_l. exact Hcount.
    + f_equal. destruct dry; [reflexivity |].
      eapply fs_alter_dir_ext; [exact Hp | exact Hkeep].
  - clear. intros x cnt w tn e Hp.
    pose proof (fs_lookup_child _ x _ _ _ Hp) as Hx.
    cbv [rm_folders_in_body bind os_path_isdir fs_isdir is_older
           os_path_getctime print shutil_rmtree ret hit].
    cbn [fs stdout clock]. rewrite Hx. unfold old, old_dir.
    destruct (e !! x) as [[c | c | c e'] |]; cbn; try reflexivity.
    rewrite Hx. cbn.
    destruct (Qltb c (timestamp cut)); cbn; [| reflexivity].
    destruct dry; cbn; [reflexivity |].
    rewrite Hx. by rewrite fs_delete_child.
Qed.

(** A sweep stops where its cutoff cannot be computed, or at a target that
    is no directory, before it touches anything. *)
Lemma rm_files_in_no_cutoff (p : fspath) (days : Z) (dry : bool) (w : world)
    (ex : exn) :
  get_time_before days w = (Raise ex, w) ->
  rm_files_in p days dry w = (Raise ex, w).
Proof. intros Hcut. unfold rm_files_in, bind at 1. by rewrite Hcut. Qed.

Lemma rm_folders_in_no_cutoff (p : fspath) (days : Z) (dry : bool) (w : world)
    (ex : exn) :
  get_time_before days w = (Raise ex, w) ->
  rm_folders_in p days dry w = (Raise ex, w).
Proof. intros Hcut. unfold rm_folders_in, bind at 1. by rewrite Hcut. Qed.

Lemma listers_not_a_directory (p : fspath) (w : world) :
  fs_isdir p (fs w) = false ->
  get_files_by_path p w = (Raise StopIteration, w)
  /\ get_subdirs_by_path p w = (Raise StopIteration, w).
Proof.
  unfold fs_isdir. intros Hp.
  unfold get_files_by_path, get_subdirs_by_path, bind, next, bind.
  unfold os_walk_first, os_path_abspath.
  destruct (fs_lookup p (fs w)) as [[c | c | c e] |]; try discriminate;
    split; reflexivity.
Qed.


End Sweeps.

(** ** What the reference definitions mean *)


Lemma old_dir_spec (t : Q) (n : node) :
  old_dir t n = true <-> is_dir_node n = true /\ (node_ctime n < t)%Q.
Proof. unfold old_dir. by rewrite andb_true_iff, Qltb_lt. Qed.

Lemma lookup_targets (old : Q -> node -> bool) (t : Q)
    (e : gmap string node) (x : string) (n : node) :
  targets old t e !! x = Some n <-> e !! x = Some n /\ old t n = true.
Proof.
  unfold targets. rewrite map_lookup_filter_Some. cbn.
  by rewrite Is_true_true.
Qed.

Lemma lookup_keep (old : Q -> node -> bool) (t : Q)
    (e : gmap string node) (x : string) (n : node) :
  keep old t e !! x = Some n <-> e !! x = Some n /\ old t n = false.
Proof.
  unfold keep. rewrite map_lookup_filter_Some. cbn.
  by rewrite Is_true_true, negb_true_iff.
Qed.

Lemma lookup_keep_hit (old : Q -> node -> bool) (t : Q)
    (e : gmap string node) (x : string) :
  keep old t e !! x = if hit (old t) e x then None else e !! x.
Proof.
  unfold hit. destruct (e !! x) as [n |] eqn:Hx.
  - destruct (old t n) eqn:Hold.
    + apply eq_None_not_Some. intros [n' Hn'].
      apply lookup_keep in Hn' as [Hn' Hf]. congruence.
    + apply lookup_keep. by rewrite Hx.
  - apply eq_None_not_Some. intros [n' Hn'].
    apply lookup_keep in Hn' as [Hn' _]. congruence.
Qed.


(** ** Every run of a sweep *)

Section Runs.
Context `{Platform}.

(** A sweep either stops with an exception before it has touched anything,
    the same one with and without [dryrun], or it runs over a directory
    with a cutoff. *)
Lemma rm_files_in_cases (p : fspath) (days : Z) (w : world) :
  (exists ex, forall dry, rm_files_in p days dry w = (Raise ex, w))
  \/ (exists tn e cut, fs_lookup p (fs w) = Some (Dir tn e)
                       /\ get_time_before days w = (Ok cut, w)).
Proof.
  pose proof (get_time_before_world days w) as Hw.
  destruct (get_time_before days w) as [[cut | ex] w0] eqn:Hcut;
    cbn in Hw; subst w0.
  - destruct (fs_lookup p (fs w)) as [[c | c | c e] |] eqn:Hp.
    4: { left. exists StopIteration. intros dry.
         unfold rm_files_in, bind at 1. rewrite Hcut. unfold bind at 1.
         destruct (listers_not_a_directory p w) as [-> _]; [| reflexivity].
         unfold fs_isdir. by rewrite Hp. }
    3: { right. eauto. }
    all: left; exists StopIteration; intros dry;
      unfold rm_files_in, bind at 1; rewrite Hcut; unfold bind at 1;
      destruct (listers_not_a_directory p w) as [-> _];
      [unfold fs_isdir; by rewrite Hp | reflexivity].
  - left. exists ex. intros dry. by apply rm_files_in_no_cutoff.
Qed.

Lemma rm_folders_in_cases (p : fspath) (days : Z) (w : world) :
  (exists ex, forall dry, rm_folders_in p days dry w = (Raise ex, w))
  \/ (exists tn e cut, fs_lookup p (fs w) = Some (Dir tn e)
                       /\ get_time_before days w = (Ok cut, w)).
Proof.
  pose proof (get_time_before_world days w) as Hw.
  destruct (get_time_before days w) as [[cut | ex] w0] eqn:Hcut;
    cbn in Hw; subst w0.
  - destruct (fs_lookup p (fs w)) as [[c | c | c e] |] eqn:Hp.
    4: { left. exists StopIteration. intros dry.
         unfold rm_folders_in, bind at 1. rewrite Hcut. unfold bind at 1.
         destruct (listers_not_a_directory p w) as [_ ->]; [| reflexivity].
         unfold fs_isdir. by rewrite Hp. }
    3: { right. eauto. }
    all: left; exists StopIteration; intros dry;
      unfold rm_folders_in, bind at 1; rewrite Hcut; unfold bind at 1;
      destruct (listers_not_a_directory p w) as [_ ->];
      [unfold fs_isdir; by rewrite Hp | reflexivity].
  - left. exists ex. intros dry. by apply rm_folders_in_no_cutoff.
Qed.

End Runs.

(** ** Count correctness *)

(** ** Dry runs *)

Lemma report_lines_differ (p : fspath) (x y : string) :
  would_remove p x <> removing_file p y
  /\ would_remove p x <> removing_directory p y.
Proof. split; discriminate. Qed.

(** ** The age test *)

(** An entry of a swept directory afterwards: gone if it was a target,
    else as it was. *)
Lemma child_after_sweep (old : Q -> node -> bool) (t : Q) (p : fspath)
    (x : string) (root : node) (tn : Q) (e : gmap string node) :
  fs_lookup p root = Some (Dir tn e) ->
  fs_lookup (os_path_join p x) (fs_alter_dir (keep old t) p root)
  = if hit (old t) e x then None else e !! x.
Proof.
  intros Hp.
  rewrite (fs_lookup_child p x _ tn (keep old t e)).
  - apply lookup_keep_hit.
  - by apply fs_lookup_alter_dir.
Qed.

(** ** The cutoff, for every number of days *)

(** C4, refuted as stated: a million days before the sample clock there is
    no date that [datetime] can hold, and [get_time_before] raises. *)
Lemma cutoff_out_of_range_raises :
  get_time_before 1000000 sample_world = (Raise OverflowError, sample_world).
Proof. vm_compute. reflexivity. Qed.

(** C4, amended. With the clock at a date of the years 1000 to 9999:
    whenever the day that lies [days] days before today is a date of the
    years 1 to 9999, [get_time_before days] returns 23:59:59 of that day,
    without a sub-second part, and leaves the world alone; for every other
    number of days it raises [OverflowError]. When both [days] and
    [days + 1] are in that range, the two cutoffs are exactly 24 hours
    apart. *)
Theorem cutoff_is_end_of_day_minus_days (w : world) (days : Z) :
  valid_datetime (clock w) -> 1000 <= year (clock w) ->
  (cutoff_in_range (clock w) days ->
     get_time_before days w = (Ok (cutoff_of (clock w) days), w)
     /\ toordinal (cutoff_of (clock w) days) = toordinal (clock w) - days
     /\ hour (cutoff_of (clock w) days) = 23
     /\ minute (cutoff_of (clock w) days) = 59
     /\ second (cutoff_of (clock w) days) = 59
     /\ microsecond (cutoff_of (clock w) days) = 0)
  /\ (~ cutoff_in_range (clock w) days ->
      get_time_before days w = (Raise OverflowError, w))
  /\ (cutoff_in_range (clock w) days -> cutoff_in_range (clock w) (days + 1) ->
      datetime_sub (cutoff_of (clock w) days) (cutoff_of (clock w) (days + 1))
      = new_timedelta 0 (24 * 3600) 0
      /\ new_timedelta 0 (24 * 3600) 0 = Ok (mk_timedelta 1 0 0)).
Proof.
  intros Hvalid H1000. unfold cutoff_in_range.
  pose proof (get_time_before_spec days w Hvalid H1000) as Hrun.
  split; [| split].
  - intros [Hlo Hhi].
    assert (Hc : (0 <? toordinal (clock w) - days)
                 && (toordinal (clock w) - days <=? _MAXORDINAL) = true).
    { apply andb_true_iff. split; [by apply Z.ltb_lt | by apply Z.leb_le]. }
    rewrite Hc in Hrun. split; [exact Hrun |].
    split; [by apply toordinal_cutoff_of |].
    unfold cutoff_of. destruct (_ord2ymd _) as [[y m] d]. cbn. tauto.
  - intros Hout.
    assert (Hc : (0 <? toordinal (clock w) - days)
                 && (toordinal (clock w) - days <=? _MAXORDINAL) = false).
    { apply not_true_iff_false. rewrite andb_true_iff, Z.ltb_lt, Z.leb_le.
      exact Hout. }
    by rewrite Hc in Hrun.
  - intros [Hlo _] [Hlo' _]. split; [| reflexivity].
    unfold datetime_sub.
    rewrite !toordinal_cutoff_of by assumption.
    replace (toordinal (clock w) - days - (toordinal (clock w) - (days + 1)))
      with 1 by lia.
    unfold cutoff_of.
    destruct (_ord2ymd (toordinal (clock w) - days)) as [[y m] d].
    destruct (_ord2ymd (toordinal (clock w) - (days + 1))) as [[y' m'] d'].
    reflexivity.
Qed.

(** Ten days before the sample clock (2024-03-15): the end of 2024-03-05,
    and the cutoff for eleven days lies one day, no seconds, before it. *)
Lemma cutoff_on_sample :
  get_time_before 10 sample_world
  = (Ok (mk_datetime 2024 3 5 23 59 59 0), sample_world)
  /\ datetime_sub (cutoff_of sample_clock 10) (cutoff_of sample_clock 11)
     = Ok (mk_timedelta 1 0 0).
Proof.
  pose proof (cutoff_is_end_of_day_minus_days sample_world 10) as Hsample.
  destruct Hsample as (Hin & _ & Hnext).
  - vm_compute. repeat split; discriminate.
  - vm_compute. discriminate.
  - destruct Hin as (Hrun & _).
    { vm_compute. split; [reflexivity | discriminate]. }
    destruct Hnext as (Hsub & Hday).
    { vm_compute. split; [reflexivity | discriminate]. }
    { vm_compute. split; [reflexivity | discriminate]. }
    split; [exact Hrun |]. rewrite <- Hday. exact Hsub.
Defined.

(** ** Kind isolation *)

(** C5. Every run of [rm_files_in] leaves every directory of the file
    system a directory, and every entry of the swept directory that is no
    regular file exactly as it was, with all that is below it. Every run
    of [rm_folders_in] leaves every entry of the swept directory that is
    no directory exactly as it was; a non-directory elsewhere can only
    disappear together with a directory entry that the sweep removed.
    In whatever state the loop finds the file system, a candidate that
    fails the check [os.path.isfile], respectively [os.path.isdir], is
    passed over: the counter and the world stay as they are. Over a whole
    run, such a candidate of [rm_files_in] is no target, is still there
    afterwards, and none of the lines printed is about it. *)
Theorem kind_isolation `{Platform} (p : fspath) (days : Z) (dry : bool)
    (w : world) :
  let files_run := rm_files_in p days dry w in
  let folders_run := rm_folders_in p days dry w in
  (forall q t e0, fs_lookup q (fs w) = Some (Dir t e0) ->
     exists e1, fs_lookup q (fs files_run.2) = Some (Dir t e1))
  /\ (forall x n, fs_lookup (os_path_join p x) (fs w) = Some n ->
        is_file_node n = false ->
        fs_lookup (os_path_join p x) (fs files_run.2) = Some n)
  /\ (forall x n, fs_lookup (os_path_join p x) (fs w) = Some n ->
        is_dir_node n = false ->
        fs_lookup (os_path_join p x) (fs folders_run.2) = Some n)
  /\ (forall q n, fs_lookup q (fs w) = Some n -> is_dir_node n = false ->
        (forall x r, q = p ++ x :: r ->
                     fs_lookup (os_path_join p x) (fs folders_run.2) <> None) ->
        fs_lookup q (fs folders_run.2) = Some n)
  /\ (forall rm_time x cnt w',
        (fs_isfile (os_path_join p x) (fs w') = false ->
         rm_files_in_body p rm_time dry x cnt w' = (Ok cnt, w'))
        /\ (fs_isdir (os_path_join p x) (fs w') = false ->
            rm_folders_in_body p rm_time dry x cnt w' = (Ok cnt, w')))
  /\ (forall tn e cut x,
        fs_lookup p (fs w) = Some (Dir tn e) ->
        get_time_before days w = (Ok cut, w) ->
        x ∈ scan_nondirs e ->
        fs_isfile (os_path_join p x) (fs w) = false ->
        targets old_file (timestamp cut) e !! x = None
        /\ fs_lookup (os_path_join p x) (fs files_run.2) = e !! x
        /\ forall line,
             line ∈ drop (length (stdout w)) (stdout files_run.2) ->
             line <> would_remove p x /\ line <> removing_file p x).
Proof.
  cbv zeta.
  destruct (rm_files_in_cases p days w)
    as [[exf Hexf] | (tn & e & cut & Hp & Hcut)].
  { (* no directory to sweep, or no cutoff: nothing happens at all *)
    assert (Hex : exists ex, forall dry, rm_folders_in p days dry w = (Raise ex, w)).
    { destruct (rm_folders_in_cases p days w)
        as [Hex | (tn & e & cut & Hp & Hcut)]; [exact Hex |].
      pose proof (Hexf dry) as Hbad.
      rewrite (rm_files_in_run p days dry w tn e cut Hp Hcut) in Hbad.
      discriminate Hbad. }
    destruct Hex as [exd Hexd]. rewrite Hexf, Hexd. cbn.
    split; [eauto |]. split; [auto |]. split; [auto |]. split; [auto |].
    split.
    - intros rm_time x cnt w'. split; intros Hno.
      + cbv [rm_files_in_body bind os_path_isfile]. by rewrite Hno.
      + cbv [rm_folders_in_body bind os_path_isdir]. by rewrite Hno.
    - intros tn e cut x Hp Hcut.
      pose proof (Hexf dry) as Hbad.
      rewrite (rm_files_in_run p days dry w tn e cut Hp Hcut) in Hbad.
      discriminate Hbad. }
  rewrite (rm_files_in_run p days dry w tn e cut Hp Hcut).
  rewrite (rm_folders_in_run p days dry w tn e cut Hp Hcut).
  cbn [fst snd fs stdout].
  set (t := timestamp cut).
  assert (Hchild : forall x, fs_lookup (os_path_join p x) (fs w) = e !! x)
    by (intros x; by apply (fs_lookup_child p x _ tn e)).
  assert (Hfiles_child : forall x n, e !! x = Some n -> is_file_node n = false ->
            fs_lookup (os_path_join p x)
              (if dry then fs w else fs_alter_dir (keep old_file t) p (fs w))
            = Some n).
  { intros x n Hx Hkind. destruct dry; [by rewrite Hchild |].
    rewrite (child_after_sweep old_file t p x (fs w) tn e Hp).
    unfold hit, old_file. by rewrite Hx, Hkind. }
  assert (Hfolders_child : forall x,
            fs_lookup (os_path_join p x)
              (if dry then fs w else fs_alter_dir (keep old_dir t) p (fs w))
            = if dry then e !! x
              else if hit (old_dir t) e x then None else e !! x).
  { intros x. destruct dry; [by rewrite Hchild |].
    by apply (child_after_sweep old_dir t p x (fs w) tn e). }
  split; [| split; [| split; [| split; [| split]]]].
  - intros q tq e0 Hq. destruct dry; [eauto |].
    eapply fs_alter_dir_keeps_dirs; [| exact Hq].
    intros e' x v Hx Hdir. apply lookup_keep. split; [exact Hx |].
    unfold old_file. by destruct v.
  - intros x n Hx. rewrite Hchild in Hx. by apply Hfiles_child.
  - intros x n Hx Hkind. rewrite Hchild in Hx. rewrite Hfolders_child.
    unfold hit, old_dir. rewrite Hx, Hkind. by destruct dry.
  - intros q n Hq Hkind Hbelow. destruct dry; [exact Hq |].
    apply fs_alter_dir_frame; [exact Hq | exact Hkind |].
    intros t' e' x r Hp' ->. rewrite Hp in Hp'. injection Hp' as <- <-.
    specialize (Hbelow x r eq_refl). rewrite Hfolders_child in Hbelow.
    rewrite lookup_keep_hit. by destruct (hit (old_dir t) e x).
  - intros rm_time x cnt w'. split; intros Hno.
    + cbv [rm_files_in_body bind os_path_isfile]. by rewrite Hno.
    + cbv [rm_folders_in_body bind os_path_isdir]. by rewrite Hno.
  - intros tn' e' cut' x Hp' Hcut' Hlisted Hno.
    rewrite Hp in Hp'. injection Hp' as <- <-.
    rewrite Hcut in Hcut'. injection Hcut' as <-.
    unfold fs_isfile in Hno. rewrite Hchild in Hno.
    assert (Hnohit : hit (old_file t) e x = false).
    { unfold hit, old_file. destruct (e !! x) as [n |]; [| reflexivity].
      by rewrite Hno. }
    split; [| split].
    + apply eq_None_not_Some. intros [n Hn].
      apply lookup_targets in Hn as [Hx Hold].
      unfold hit in Hnohit. rewrite Hx in Hnohit. fold t in Hold. congruence.
    + destruct dry; [by rewrite Hchild |].
      rewrite (child_after_sweep old_file t p x (fs w) tn e Hp).
      by rewrite Hnohit.
    + intros line Hline. rewrite drop_app_length in Hline.
      apply list_elem_of_fmap in Hline as (y & -> & Hy).
      apply list_elem_of_filter in Hy as [Hy _].
      assert (Hne : y <> x).
      { intros ->. rewrite Hnohit in Hy. destruct Hy. }
      unfold would_remove, removing_file, os_path_join.
      destruct dry; split; try discriminate;
        intros Heq; injection Heq as Heq;
        apply app_inv_head in Heq; congruence.
Qed.

(** ** A target that is no directory *)

(** The option loop only computes. *)
Lemma parse_args_world `{Platform} (args : list string) (w : world) :
  (parse_args args w).2 = w.
Proof.
  unfold parse_args. generalize defaults.
  induction args as [| arg args IH]; intros l; [reflexivity |].
  cbn [for_each]. unfold bind, lift.
  destruct (parse_arg arg l) as [l' | ex]; [apply IH | reflexivity].
Qed.

Lemma main_bad_option `{Platform} (argv : list string) (w : world) (ex : exn) :
  (parse_args (drop 1 argv) w).1 = Raise ex ->
  __main__ argv w = (Raise ex, w).
Proof.
  intros Hparse. unfold __main__, bind at 1.
  pose proof (parse_args_world (drop 1 argv) w) as Hw.
  destruct (parse_args (drop 1 argv) w) as [r w0]. cbn in *. by subst.
Qed.

(** [__main__] on a target that is no directory: two lines, an exception,
    and nothing else. *)
Lemma main_invalid_target `{Platform} (argv : list string) (w : world)
    (l : locals) :
  (parse_args (drop 1 argv) w).1 = Ok l ->
  fs_isdir (resolve (path l)) (fs w) = false ->
  __main__ argv w
  = (Raise (NotADirectoryError
              (dquote +:+ path l +:+ dquote +:+ " is not a directory")),
     mk_world (fs w)
              (stdout w ++ [[PStr "Starting cleanup"];
                            [PStr "Cleanup for base"; PStr (path l)]])
              (clock w)).
Proof.
  intros Hparse Hno. unfold __main__, bind at 1.
  pose proof (parse_args_world (drop 1 argv) w) as Hw.
  destruct (parse_args (drop 1 argv) w) as [r w0]. cbn in Hparse, Hw. subst.
  cbv [bind print os_path_isdir raise]. cbn [fs stdout clock].
  rewrite Hno. cbn. by rewrite <- app_assoc.
Qed.




(** ** The check of the target in [__main__] *)

(** [__main__] on a target that is a directory, with the clock at a date of
    the years 1000 to 9999 and the cutoffs of the sweeps asked for in
    range: both sweeps run and the run ends normally. *)
Lemma main_valid_target `{Platform} (argv : list string) (w : world)
    (l : locals) (tn : Q) (e : gmap string node) :
  (parse_args (drop 1 argv) w).1 = Ok l ->
  fs_lookup (resolve (path l)) (fs w) = Some (Dir tn e) ->
  valid_datetime (clock w) -> 1000 <= year (clock w) ->
  (rm_files l = true -> cutoff_in_range (clock w) (rm_files_after l)) ->
  (rm_folders l = true -> cutoff_in_range (clock w) (rm_folders_after l)) ->
  (__main__ argv w).1 = Ok tt.
Proof.
  intros Hparse Hp Hvalid H1000 Hfiles Hfolders.
  assert (Hcut : forall days w0, clock w0 = clock w ->
            cutoff_in_range (clock w) days ->
            get_time_before days w0 = (Ok (cutoff_of (clock w) days), w0)).
  { intros days w0 Hclock [Hlo Hhi].
    rewrite get_time_before_spec by (by rewrite Hclock). rewrite Hclock.
    assert (Hc : (0 <? toordinal (clock w) - days)
                 && (toordinal (clock w) - days <=? _MAXORDINAL) = true).
    { apply andb_true_iff. split; [by apply Z.ltb_lt | by apply Z.leb_le]. }
    by rewrite Hc. }
  assert (Hfiles_run : forall w0, clock w0 = clock w ->
            fs_lookup (resolve (path l)) (fs w0) = Some (Dir tn e) ->
            exists w1 tn1 e1,
              (if rm_files l
               then run print [PStr "Cleaning files..."] in
                    let* fi_cnt :=
                      rm_files_in (resolve (path l)) (rm_files_after l)
                                  (dryrun l) in
                    print [PStr "Removed"; PInt fi_cnt; PStr "files"]
               else print [PStr "Skipping file cleanup"]) w0 = (Ok tt, w1)
              /\ clock w1 = clock w
              /\ fs_lookup (resolve (path l)) (fs w1) = Some (Dir tn1 e1)).
  { intros w0 Hclock Hp0. destruct (rm_files l) eqn:Hon.
    - unfold bind at 1, print at 1. unfold bind at 1.
      erewrite rm_files_in_run;
        [| exact Hp0 | apply Hcut; [exact Hclock | by apply Hfiles]].
      unfold print. cbn [fs stdout clock].
      destruct (dryrun l); do 3 eexists;
        (split; [reflexivity |]); (split; [exact Hclock |]); cbn [fs].
      + exact Hp0.
      + by apply fs_lookup_alter_dir.
    - unfold print. do 3 eexists. split; [reflexivity |]. cbn. eauto. }
  unfold __main__, bind at 1.
  pose proof (parse_args_world (drop 1 argv) w) as Hw.
  destruct (parse_args (drop 1 argv) w) as [r w0]. cbn in Hparse, Hw. subst.
  unfold bind at 1, print at 1. unfold bind at 1, print at 1.
  unfold bind at 1, os_path_isdir at 1, fs_isdir. cbn [fs stdout clock].
  rewrite Hp. cbn [is_dir_node negb].
  unfold bind at 1.
  edestruct Hfiles_run as (w1 & tn1 & e1 & -> & Hclock1 & Hp1);
    [| exact Hp |]; [reflexivity |].
  unfold bind at 1.
  destruct (rm_folders l) eqn:Hon.
  - unfold bind at 1, print at 1. unfold bind at 1.
    erewrite rm_folders_in_run;
      [| exact Hp1 | apply Hcut; [exact Hclock1 | by apply Hfolders]].
    reflexivity.
  - reflexivity.
Qed.

(** C7. [__main__] checks once that the target is a directory, after the
    options are read and before either sweep. When the target is none, the
    run ends with [NotADirectoryError] after the two opening lines. Every
    run on a target that is no directory (one whose options do not even
    parse included) ends with an exception, has not started a sweep and
    has left the file system as it was. A target that is a directory
    passes the check and is not checked again: with the cutoffs in range
    the run ends normally. *)
Theorem invalid_target_is_fatal_before_any_sweep `{Platform}
    (argv : list string) (w : world) :
  let parsed := (parse_args (drop 1 argv) w).1 in
  let after := (__main__ argv w).2 in
  (forall l, parsed = Ok l ->
     fs_isdir (resolve (path l)) (fs w) = false ->
     (__main__ argv w).1
     = Raise (NotADirectoryError
                (dquote +:+ path l +:+ dquote +:+ " is not a directory"))
     /\ stdout after = stdout w ++ [[PStr "Starting cleanup"];
                                    [PStr "Cleanup for base"; PStr (path l)]])
  /\ ((forall l, parsed = Ok l -> fs_isdir (resolve (path l)) (fs w) = false) ->
      (exists ex, (__main__ argv w).1 = Raise ex)
      /\ fs after = fs w
      /\ ([PStr "Cleaning files..."] ∉ drop (length (stdout w)) (stdout after))
      /\ ([PStr "Cleaning folders..."]
          ∉ drop (length (stdout w)) (stdout after)))
  /\ (forall l tn e, parsed = Ok l ->
        fs_lookup (resolve (path l)) (fs w) = Some (Dir tn e) ->
        valid_datetime (clock w) -> 1000 <= year (clock w) ->
        (rm_files l = true -> cutoff_in_range (clock w) (rm_files_after l)) ->
        (rm_folders l = true ->
         cutoff_in_range (clock w) (rm_folders_after l)) ->
        (__main__ argv w).1 = Ok tt).
Proof.
  cbv zeta. split; [| split].
  - intros l Hparse Hno.
    by rewrite (main_invalid_target argv w l Hparse Hno).
  - intros Hinvalid.
    destruct (parse_args (drop 1 argv) w).1 as [l | ex] eqn:Hparse.
    + rewrite (main_invalid_target argv w l Hparse (Hinvalid l eq_refl)).
      cbn [fst snd fs stdout]. rewrite drop_app_length.
      split; [eauto |]. split; [reflexivity |].
      split; intros Hin;
        (apply elem_of_cons in Hin as [Hin | Hin]; [discriminate |]);
        (apply elem_of_cons in Hin as [Hin | Hin]; [discriminate |]);
        by apply elem_of_nil in Hin.
    + rewrite (main_bad_option argv w ex Hparse). cbn [fst snd].
      rewrite drop_all.
      split; [eauto |]. split; [reflexivity |].
      split; apply not_elem_of_nil.
  - intros l tn e. apply main_valid_target.
Qed.

(** On the sample: both sweeps asked for, a target that does not exist. *)
Lemma invalid_target_on_sample :
  (@__main__ utc_host ["cleanup.py"; "--folders"; "/tmp/rootx"]
     sample_world).1
  = Raise (NotADirectoryError
             (dquote +:+ "/tmp/rootx" +:+ dquote +:+ " is not a directory"))
  /\ fs (snd (@__main__ utc_host ["cleanup.py"; "--folders"; "/tmp/rootx"]
               sample_world)) = sample_fs.
Proof.
  pose proof (@invalid_target_is_fatal_before_any_sweep utc_host
                ["cleanup.py"; "--folders"; "/tmp/rootx"] sample_world)
    as Hsample.
  cbv zeta in Hsample. destruct Hsample as (Hraise & Hnothing & _).
  destruct (Hraise (mk_locals "/tmp/rootx" true 30 true 10 false))
    as [Hex _].
  - vm_compute. reflexivity.
  - vm_compute. reflexivity.
  - destruct Hnothing as (_ & Hfs & _).
    + intros l Hl. vm_compute in Hl. injection Hl as <-.
      vm_compute. reflexivity.
    + split; [exact Hex | exact Hfs].
Defined.

(** ** Running a sweep again *)




(** ** What lies below the entries *)










(** ** Arguments that begin with a dash *)

(** C10, refuted as stated: an option whose number is none raises. *)
Lemma malformed_after_value_raises :
  str_prefix 1 "--files_after=abc" = "-"
  /\ @parse_arg utc_host "--files_after=abc" defaults = Raise ValueError
  /\ (@parse_args utc_host ["--files_after=abc"] sample_world).1
     = Raise ValueError.
Proof. vm_compute. repeat split. Qed.

(** C10, amended. An argument that begins with a dash, the bare double
    dash and unknown long options included, is never taken as the path.
    It raises nothing but the [ValueError] of [int], and that only as
    [--files_after=V] or [--folders_after=V] with a [V] that is no
    integer. Unless it is a long option with a recognized name it is
    passed over and every variable stays as it is. After any list of such
    arguments the path is still the default. *)
Theorem dash_arguments_are_never_the_path `{Platform} (l : locals) :
  (forall arg, str_prefix 1 arg = "-" ->
     (forall l', parse_arg arg l = Ok l' -> path l' = path l)
     /\ (str_prefix 2 arg <> "--" \/ item (opt_of arg) 0 ∉ recognized ->
         parse_arg arg l = Ok l)
     /\ (forall ex, parse_arg arg l = Raise ex ->
           ex = ValueError
           /\ str_prefix 2 arg = "--"
           /\ (1 < length (opt_of arg))%nat
           /\ (item (opt_of arg) 0 = "files_after"
               \/ item (opt_of arg) 0 = "folders_after")
           /\ py_int (item (opt_of arg) 1) = None))
  /\ (forall args w l',
        Forall (fun arg => str_prefix 1 arg = "-") args ->
        (parse_args args w).1 = Ok l' -> path l' = "/tmp/").
Proof.
  assert (Hone : forall l0 arg, str_prefix 1 arg = "-" ->
            (forall l', parse_arg arg l0 = Ok l' -> path l' = path l0)
            /\ (str_prefix 2 arg <> "--" \/ item (opt_of arg) 0 ∉ recognized ->
                parse_arg arg l0 = Ok l0)
            /\ (forall ex, parse_arg arg l0 = Raise ex ->
                  ex = ValueError
                  /\ str_prefix 2 arg = "--"
                  /\ (1 < length (opt_of arg))%nat
                  /\ (item (opt_of arg) 0 = "files_after"
                      \/ item (opt_of arg) 0 = "folders_after")
                  /\ py_int (item (opt_of arg) 1) = None)).
  { clear l. intros l arg Hdash. unfold parse_arg, int. fold (opt_of arg).
    rewrite Hdash. cbn [String.eqb Ascii.eqb Bool.eqb].
    destruct (String.eqb arg "--") eqn:Hbare; [option_passed_over |].
    destruct (String.eqb (str_prefix 2 arg) "--") eqn:Hlong;
      [| option_passed_over].
    apply String.eqb_eq in Hlong.
    destruct (1 <? length (opt_of arg))%nat eqn:Hvalue.
    - (* with value *)
      apply Nat.ltb_lt in Hvalue.
      destruct (String.eqb (item (opt_of arg) 0) "files") eqn:E1;
        [option_taken E1 |].
      destruct (String.eqb (item (opt_of arg) 0) "files_after") eqn:E2.
      { destruct (py_int (item (opt_of arg) 1)) as [v |] eqn:Hint;
          [option_taken E2 |].
        apply String.eqb_eq in E2. cbn [result_bind].
        split; [discriminate |]. split.
        - intros [Hno | Hno]; [contradiction |].
          exfalso. apply Hno. rewrite E2. unfold recognized.
          rewrite !elem_of_cons. tauto.
        - intros ex [= <-]. tauto. }
      destruct (String.eqb (item (opt_of arg) 0) "folders") eqn:E3;
        [option_taken E3 |].
      destruct (String.eqb (item (opt_of arg) 0) "folders_after") eqn:E4.
      { destruct (py_int (item (opt_of arg) 1)) as [v |] eqn:Hint;
          [option_taken E4 |].
        apply String.eqb_eq in E4. cbn [result_bind].
        split; [discriminate |]. split.
        - intros [Hno | Hno]; [contradiction |].
          exfalso. apply Hno. rewrite E4. unfold recognized.
          rewrite !elem_of_cons. tauto.
        - intros ex [= <-]. tauto. }
      destruct (String.eqb (item (opt_of arg) 0) "dryrun") eqn:E5;
        [option_taken E5 | option_passed_over].
    - (* without value *)
      destruct (String.eqb (item (opt_of arg) 0) "files") eqn:E1;
        [option_taken E1 |].
      destruct (String.eqb (item (opt_of arg) 0) "folders") eqn:E3;
        [option_taken E3 |].
      destruct (String.eqb (item (opt_of arg) 0) "dryrun") eqn:E5;
        [option_taken E5 | option_passed_over]. }
  split; [exact (Hone l) |].
  intros args w l' Hall. unfold parse_args.
  change "/tmp/" with (path defaults). generalize defaults.
  induction Hall as [| arg args Hdash Hall IH]; intros l0 Hrun.
  - cbn in Hrun. by injection Hrun as <-.
  - cbn [for_each] in Hrun. unfold bind, lift in Hrun.
    destruct (parse_arg arg l0) as [l1 | ex] eqn:Hstep; [| discriminate].
    destruct (Hone l0 arg Hdash) as (Hpath & _).
    rewrite <- (Hpath l1 Hstep). by apply IH.
Qed.

(** ** The scenarios of the specification, run *)

(** Files after 30 days and directories after 10: a.txt and old_dir go,
    one of each is counted, and the rest stays. *)
Example main_on_sample :
  let res := @__main__ utc_host
               ["cleanup.py"; "--folders=Yes"; "--files_after=30"; "/tmp/root"]
               sample_world in
  res.1 = Ok tt
  /\ stdout res.2
     = [[PStr "Starting cleanup"];
        [PStr "Cleanup for base"; PStr "/tmp/root"];
        [PStr "Cleaning files..."];
        [PStr "Removing file"; PPath ["tmp"; "root"; "a.txt"]; PStr "..."];
        [PStr "Removed"; PInt 1; PStr "files"];
        [PStr "Cleaning folders..."];
        [PStr "Removing directory"; PPath ["tmp"; "root"; "old_dir"];
         PStr "..."];
        [PStr "Removed"; PInt 1; PStr "folders"];
        [PStr "Finished cleanup"]]
  /\ fs_lookup ["tmp"; "root"; "a.txt"] (fs res.2) = None
  /\ fs_lookup ["tmp"; "root"; "old_dir"] (fs res.2) = None
  /\ fs_lookup ["tmp"; "root"; "b.txt"] (fs res.2) = Some (File (days_ago 5))
  /\ fs_lookup ["tmp"; "root"; "pipe"] (fs res.2) = Some (Other (days_ago 100)).
Proof. vm_compute. repeat split. Qed.

(** The same with [--dryrun]: the same counts, and the world keeps its
    file system. *)
Example main_dry_run_on_sample :
  let res := @__main__ utc_host
               ["cleanup.py"; "--dryrun"; "--folders"; "/tmp/root"]
               sample_world in
  res.1 = Ok tt
  /\ stdout res.2
     = [[PStr "Starting cleanup"];
        [PStr "Cleanup for base"; PStr "/tmp/root"];
        [PStr "Cleaning files..."];
        [PStr "Would remove"; PPath ["tmp"; "root"; "a.txt"]];
        [PStr "Removed"; PInt 1; PStr "files"];
        [PStr "Cleaning folders..."];
        [PStr "Would remove"; PPath ["tmp"; "root"; "old_dir"]];
        [PStr "Removed"; PInt 1; PStr "folders"];
        [PStr "Finished cleanup"]]
  /\ fs res.2 = sample_fs.
Proof. vm_compute. repeat split. Qed.

(** The sweep of files run twice, ten days back: two, then none. *)
Example second_run_on_sample :
  let first := @rm_files_in utc_host ["tmp"; "root"] 10 false sample_world in
  let second := @rm_files_in utc_host ["tmp"; "root"] 10 false first.2 in
  first.1 = Ok 2 /\ second.1 = Ok 0 /\ second.2 = first.2.
Proof. vm_compute. repeat split. Qed.

(** Options read from the command line: the last plain argument is the
    path, and what begins with a dash never is. *)
Example options_on_sample :
  (@parse_args utc_host
     ["--files=No"; "--folders"; "--folders_after=7"; "-x"; "--";
      "--unknown=value"; "/tmp/root"; "--dryrun=YES"] sample_world).1
  = Ok (mk_locals "/tmp/root" false 30 true 7 true)
  /\ (@parse_args utc_host ["-x"; "--"; "--unknown=value"; "--path=/etc"]
        sample_world).1
     = Ok defaults.
Proof. vm_compute. repeat split. Qed.

(** * More of the script *)

(** ** What a sweep leaves behind *)

(** The entries split into those a sweep is after and those it keeps. *)
Lemma size_keep_targets (old : Q -> node -> bool) (t : Q)
    (e : gmap string node) :
  (size (keep old t e) + size (targets old t e))%nat = size e.
Proof.
  assert (Hkeep : keep old t e
                  = filter (fun kv => ~ Is_true (old t kv.2)) e).
  { unfold keep. apply map_filter_ext. intros k v _. cbn.
    destruct (old t v); cbn; tauto. }
  rewrite Hkeep. unfold targets.
  rewrite Nat.add_comm, <- map_size_disj_union
    by apply map_disjoint_filter_complement.
  by rewrite map_filter_union_complement.
Qed.

(** X3. After a sweep that removed for real, the target is still a
    directory; its entries are entries it had before, unchanged; and the
    entries left plus the count returned are the entries there were. The
    count lies between zero and the number of entries. *)
Theorem removed_plus_left_is_what_was_there `{Platform} (p : fspath)
    (days : Z) (w : world) (tn : Q) (e : gmap string node) :
  fs_lookup p (fs w) = Some (Dir tn e) ->
  (forall n w',
     rm_files_in p days false w = (Ok n, w') ->
     exists tn' e',
       fs_lookup p (fs w') = Some (Dir tn' e')
       /\ e' ⊆ e
       /\ Z.of_nat (size e') + n = Z.of_nat (size e)
       /\ 0 <= n <= Z.of_nat (size e))
  /\ (forall n w',
        rm_folders_in p days false w = (Ok n, w') ->
        exists tn' e',
          fs_lookup p (fs w') = Some (Dir tn' e')
          /\ e' ⊆ e
          /\ Z.of_nat (size e') + n = Z.of_nat (size e)
          /\ 0 <= n <= Z.of_nat (size e)).
Proof.
  intros Hp. split; intros n w' Hrun.
  - destruct (rm_files_in_cases p days w)
      as [[ex Hex] | (tn0 & e0 & cut & Hp0 & Hcut)].
    { rewrite Hex in Hrun. discriminate. }
    rewrite Hp in Hp0. injection Hp0 as <- <-.
    rewrite (rm_files_in_run p days false w tn e cut Hp Hcut) in Hrun.
    injection Hrun as <- <-. cbn [fs].
    exists tn, (keep old_file (timestamp cut) e).
    pose proof (size_keep_targets old_file (timestamp cut) e) as Hsize.
    split; [by apply fs_lookup_alter_dir |].
    split; [apply map_filter_subseteq |].
    unfold count_targets. lia.
  - destruct (rm_folders_in_cases p days w)
      as [[ex Hex] | (tn0 & e0 & cut & Hp0 & Hcut)].
    { rewrite Hex in Hrun. discriminate. }
    rewrite Hp in Hp0. injection Hp0 as <- <-.
    rewrite (rm_folders_in_run p days false w tn e cut Hp Hcut) in Hrun.
    injection Hrun as <- <-. cbn [fs].
    exists tn, (keep old_dir (timestamp cut) e).
    pose proof (size_keep_targets old_dir (timestamp cut) e) as Hsize.
    split; [by apply fs_lookup_alter_dir |].
    split; [apply map_filter_subseteq |].
    unfold count_targets. lia.
Qed.

(** On the sample: seven entries, two old files, five entries left. *)
Lemma removed_plus_left_on_sample :
  exists tn' e',
    fs_lookup ["tmp"; "root"]
      (fs (snd (@rm_files_in utc_host ["tmp"; "root"] 10 false sample_world)))
    = Some (Dir tn' e')
    /\ Z.of_nat (size e') + 2 = Z.of_nat (size sample_root).
Proof.
  destruct (@removed_plus_left_is_what_was_there utc_host ["tmp"; "root"] 10
              sample_world (days_ago 1) sample_root) as [Hfiles _].
  - vm_compute. reflexivity.
  - destruct (Hfiles 2
                (snd (@rm_files_in utc_host ["tmp"; "root"] 10 false
                        sample_world)))
      as (tn' & e' & Hp & _ & Hsize & _).
    + vm_compute. reflexivity.
    + exists tn', e'. split; [exact Hp | exact Hsize].
Defined.

(** ** What the listers return *)



(** ** The cutoff, computed again *)


(** * More of [__main__] *)

(** ** What a whole run keeps *)

(** A property of the file system that holds at the start and that each
    sweep asked for preserves holds when [__main__] stops, however it
    stops. *)
Lemma main_fs_invariant `{Platform} (R : node -> Prop) (argv : list string)
    (w : world) :
  R (fs w) ->
  (forall l w0, (parse_args (drop 1 argv) w).1 = Ok l -> rm_files l = true ->
     R (fs w0) ->
     R (fs (rm_files_in (resolve (path l)) (rm_files_after l) (dryrun l)
                        w0).2)) ->
  (forall l w0, (parse_args (drop 1 argv) w).1 = Ok l -> rm_folders l = true ->
     R (fs w0) ->
     R (fs (rm_folders_in (resolve (path l)) (rm_folders_after l) (dryrun l)
                          w0).2)) ->
  R (fs (__main__ argv w).2).
Proof.
  intros HR Hfiles Hfolders. unfold __main__, bind at 1.
  pose proof (parse_args_world (drop 1 argv) w) as Hw.
  destruct (parse_args (drop 1 argv) w) as [[l | ex] w0]; cbn in Hw; subst w0;
    [| exact HR].
  specialize (Hfiles l). specialize (Hfolders l). cbn [fst] in Hfiles, Hfolders.
  unfold bind at 1, print at 1. unfold bind at 1, print at 1.
  unfold bind at 1, os_path_isdir at 1. cbn [fs stdout clock].
  destruct (fs_isdir (resolve (path l)) (fs w)); cbn [negb]; [| exact HR].
  unfold bind at 1.
  match goal with
  | |- context [(if rm_files l then ?a else ?b) ?w1] =>
      assert (Hone : R (fs ((if rm_files l then a else b) w1).2))
  end.
  { destruct (rm_files l); [| exact HR].
    unfold bind at 1, print at 1. unfold bind at 1.
    match goal with
    | |- context [rm_files_in ?p ?d ?b ?w1] =>
        pose proof (Hfiles w1 eq_refl eq_refl HR) as Hnext;
        destruct (rm_files_in p d b w1) as [[n | ex] w2]
    end; exact Hnext. }
  match goal with
  | |- context [(if rm_files l then ?a else ?b) ?w1] =>
      destruct ((if rm_files l then a else b) w1) as [[[] | ex] w2]
  end; cbn [snd] in Hone; [| exact Hone].
  unfold bind at 1.
  match goal with
  | |- context [(if rm_folders l then ?a else ?b) ?w1] =>
      assert (Htwo : R (fs ((if rm_folders l then a else b) w1).2))
  end.
  { destruct (rm_folders l); [| exact Hone].
    unfold bind at 1, print at 1. unfold bind at 1.
    match goal with
    | |- context [rm_folders_in ?p ?d ?b ?w1] =>
        pose proof (Hfolders w1 eq_refl eq_refl Hone) as Hnext;
        destruct (rm_folders_in p d b w1) as [[n | ex] w3]
    end; exact Hnext. }
  match goal with
  | |- context [(if rm_folders l then ?a else ?b) ?w1] =>
      destruct ((if rm_folders l then a else b) w1) as [[[] | ex] w3]
  end; cbn [snd] in Htwo; exact Htwo.
Qed.

(** A sweep that is a dry run leaves the file system as it finds it, also
    when it raises. *)
Lemma dry_sweeps_keep_fs `{Platform} (p : fspath) (days : Z) (w : world) :
  fs (rm_files_in p days true w).2 = fs w
  /\ fs (rm_folders_in p days true w).2 = fs w.
Proof.
  split.
  - destruct (rm_files_in_cases p days w)
      as [[ex Hex] | (tn & e & cut & Hp & Hcut)].
    + by rewrite Hex.
    + by rewrite (rm_files_in_run p days true w tn e cut Hp Hcut).
  - destruct (rm_folders_in_cases p days w)
      as [[ex Hex] | (tn & e & cut & Hp & Hcut)].
    + by rewrite Hex.
    + by rewrite (rm_folders_in_run p days true w tn e cut Hp Hcut).
Qed.

(** ** The option loop *)

Lemma options_raised `{Platform} (args : list string) (ex : exn) :
  foldl (fun r arg => result_bind r (parse_arg arg)) (Raise ex) args
  = Raise ex.
Proof. induction args as [| arg args IH]; [reflexivity | exact IH]. Qed.

(** The loop threads nothing but its variables. *)
Lemma parse_args_options `{Platform} (args : list string) (w : world) :
  parse_args args w = (options_of args, w).
Proof.
  unfold parse_args, options_of. generalize defaults.
  induction args as [| arg args IH]; intros l; [reflexivity |].
  cbn [for_each foldl result_bind]. unfold bind, lift.
  destruct (parse_arg arg l) as [l' | ex]; [apply IH |].
  by rewrite options_raised.
Qed.

Lemma options_of_snoc `{Platform} (args : list string) (arg : string) :
  options_of (args ++ [arg]) = result_bind (options_of args) (parse_arg arg).
Proof. unfold options_of. by rewrite foldl_app. Qed.

(** Two dashes in front is one dash in front. *)
Lemma long_is_dashed (arg : string) :
  str_prefix 2 arg = "--" -> str_prefix 1 arg = "-".
Proof.
  destruct arg as [| c [| c' s]]; cbn; intros Heq; try discriminate.
  by injection Heq as -> _.
Qed.

(** One turn of the loop on an argument without a dash in front: it becomes
    the path, and nothing else changes. *)
Lemma parse_arg_positional `{Platform} (arg : string) (l : locals) :
  positional arg = true ->
  parse_arg arg l
  = Ok (mk_locals arg (rm_files l) (rm_files_after l) (rm_folders l)
                  (rm_folders_after l) (dryrun l)).
Proof.
  unfold positional. intros Hpos. apply negb_true_iff in Hpos.
  unfold parse_arg.
  assert (Hnot : String.eqb (str_prefix 2 arg) "--" = false).
  { apply String.eqb_neq. intros Hlong. apply long_is_dashed in Hlong.
    apply String.eqb_neq in Hpos. contradiction. }
  assert (Hbare : String.eqb arg "--" = false).
  { apply String.eqb_neq. intros ->. discriminate. }
  rewrite Hbare, Hnot. cbn [result_bind]. by rewrite Hpos.
Qed.

(** One turn of the loop on an argument with a dash in front: the path
    stays. *)
Lemma parse_arg_dashed `{Platform} (arg : string) (l l' : locals) :
  positional arg = false -> parse_arg arg l = Ok l' -> path l' = path l.
Proof.
  unfold positional. intros Hpos. apply negb_false_iff in Hpos.
  unfold parse_arg. rewrite Hpos.
  destruct (String.eqb arg "--"); [by intros [= <-] |].
  destruct (String.eqb (str_prefix 2 arg) "--");
    [| cbn [result_bind]; by intros [= <-]].
  repeat match goal with
         | |- context [if ?b then _ else _] => destruct b
         | |- context [result_bind (int ?s) _] => destruct (int s)
         end;
    cbn [result_bind]; intros Heq; by (discriminate || injection Heq as <-).
Qed.

(** ** A dry run of the whole program *)

Lemma main_dry `{Platform} (argv : list string) (w : world) :
  (forall l, (parse_args (drop 1 argv) w).1 = Ok l -> dryrun l = true) ->
  fs (__main__ argv w).2 = fs w.
Proof.
  intros Hdry. apply (main_fs_invariant (fun n => n = fs w)); [reflexivity | |].
  - intros l w0 Hl _ <-. rewrite (Hdry l Hl). apply dry_sweeps_keep_fs.
  - intros l w0 Hl _ <-. rewrite (Hdry l Hl). apply dry_sweeps_keep_fs.
Qed.

(** X8. A run of the program whose options leave [dryrun] set removes
    nothing, however it ends: the file system after the run is the one
    before. The option [--dryrun] given last always has that effect,
    whatever the arguments before it. *)
Theorem dry_run_of_the_program_removes_nothing `{Platform} (prog : string)
    (args : list string) (w : world) :
  (forall l, (parse_args args w).1 = Ok l -> dryrun l = true ->
     fs (__main__ (prog :: args) w).2 = fs w)
  /\ fs (__main__ (prog :: args ++ ["--dryrun"]) w).2 = fs w
  /\ fs (__main__ (prog :: args ++ ["--dryrun=yes"]) w).2 = fs w.
Proof.
  split; [| split].
  - intros l Hl Hdry. apply main_dry. rewrite skipn_cons, drop_0. intros l0 Hl0.
    rewrite Hl in Hl0. by injection Hl0 as <-.
  - apply main_dry. rewrite skipn_cons, drop_0. intros l.
    rewrite parse_args_options, options_of_snoc. cbn [fst].
    destruct (options_of args) as [l0 | ex]; [| discriminate].
    cbn. by intros [= <-].
  - apply main_dry. rewrite skipn_cons, drop_0. intros l.
    rewrite parse_args_options, options_of_snoc. cbn [fst].
    destruct (options_of args) as [l0 | ex]; [| discriminate].
    cbn. by intros [= <-].
Qed.

(** ** A sweep that is switched off *)

(** A sweep of files leaves every directory of the file system a
    directory. *)
Lemma rm_files_in_keeps_dirs `{Platform} (p : fspath) (days : Z)
    (dry : bool) (w : world) (q : fspath) :
  fs_isdir q (fs w) = true ->
  fs_isdir q (fs (rm_files_in p days dry w).2) = true.
Proof.
  unfold fs_isdir at 1. intros Hq.
  destruct (fs_lookup q (fs w)) as [[c | c | t e0] |] eqn:Hlook;
    try discriminate.
  assert (Hstays : exists e1,
            fs_lookup q (fs (rm_files_in p days dry w).2)
            = Some (Dir t e1)).
  { destruct (rm_files_in_cases p days w)
      as [[ex Hex] | (tn & e & cut & Hp & Hcut)]; [rewrite Hex; eauto |].
    rewrite (rm_files_in_run p days dry w tn e cut Hp Hcut). cbn [snd fs].
    destruct dry; [eauto |].
    eapply fs_alter_dir_keeps_dirs; [| exact Hlook].
    intros e' x v Hv Hkind. apply lookup_keep. split; [exact Hv |].
    unfold old_file. destruct v; try discriminate. reflexivity. }
  destruct Hstays as [e1 He1]. unfold fs_isdir. by rewrite He1.
Qed.

(** X9. A sweep that the options leave switched off removes nothing,
    however the run ends. With [rm_folders] off, as it is by default,
    every path that names a directory before the run of [__main__] names
    a directory after it. With both sweeps off the file system is left as
    it was. *)
Theorem a_sweep_switched_off_removes_nothing `{Platform}
    (argv : list string) (w : world) (l : locals) :
  (parse_args (drop 1 argv) w).1 = Ok l ->
  let after := fs (__main__ argv w).2 in
  (rm_folders l = false ->
   forall q, fs_isdir q (fs w) = true -> fs_isdir q after = true)
  /\ (rm_files l = false -> rm_folders l = false -> after = fs w).
Proof.
  intros Hl after. subst after. split.
  - intros Hoff q Hq.
    apply (main_fs_invariant (fun n => fs_isdir q n = true)).
    + exact Hq.
    + intros l0 w0 _ _ Hq0. by apply rm_files_in_keeps_dirs.
    + intros l0 w0 Hl0 Hon. rewrite Hl in Hl0. injection Hl0 as <-.
      congruence.
  - intros Hfiles Hfolders.
    apply (main_fs_invariant (fun n => n = fs w)); [reflexivity | |].
    + intros l0 w0 Hl0 Hon. rewrite Hl in Hl0. injection Hl0 as <-.
      congruence.
    + intros l0 w0 Hl0 Hon. rewrite Hl in Hl0. injection Hl0 as <-.
      congruence.
Qed.

(** On the sample with the defaults: the directory old_dir, fifteen days
    old, is still there after the run. *)
Lemma default_run_keeps_directories_on_sample :
  fs_isdir ["tmp"; "root"; "old_dir"]
           (fs (@__main__ utc_host ["cleanup.py"; "/tmp/root"]
                          sample_world).2) = true.
Proof.
  destruct (@a_sweep_switched_off_removes_nothing utc_host
              ["cleanup.py"; "/tmp/root"] sample_world
              (mk_locals "/tmp/root" true 30 false 10 false))
    as (Hdirs & _).
  - vm_compute. reflexivity.
  - apply Hdirs; vm_compute; reflexivity.
Defined.

(** ** The run, step by step *)






(** ** The arguments *)

(** Whether a turn of the option loop raises does not depend on the values
    the variables have, and what it raises is [ValueError]. *)
Lemma parse_arg_raises_anyhow `{Platform} (arg : string) (l l' : locals)
    (ex : exn) :
  parse_arg arg l = Raise ex ->
  ex = ValueError /\ parse_arg arg l' = Raise ValueError.
Proof.
  unfold parse_arg, int.
  repeat (cbn [result_bind];
          match goal with
          | |- context [if ?b then _ else _] => destruct b
          | |- context [match py_int ?s with _ => _ end] =>
              destruct (py_int s)
          end);
    cbn [result_bind]; intros Heq;
    first [discriminate | by injection Heq as <-].
Qed.

Lemma options_of_malformed `{Platform} (args : list string) (arg : string)
    (ex : exn) :
  arg ∈ args -> parse_arg arg defaults = Raise ex ->
  options_of args = Raise ValueError.
Proof.
  intros Hin Hbad. unfold options_of.
  assert (Hany : forall r,
            (forall ex', r = Raise ex' -> ex' = ValueError) ->
            foldl (fun r arg => result_bind r (parse_arg arg)) r args
            = Raise ValueError).
  { induction args as [| a args IH]; intros r Hr;
      [by apply elem_of_nil in Hin |].
    cbn [foldl]. apply elem_of_cons in Hin as [<- | Hin].
    - destruct r as [l | ex']; cbn [result_bind].
      + destruct (parse_arg_raises_anyhow arg defaults l ex Hbad) as [_ ->].
        apply options_raised.
      + rewrite (Hr ex' eq_refl). apply options_raised.
    - apply IH; [exact Hin |]. intros ex'.
      destruct r as [l | ex0]; cbn [result_bind].
      + intros Hstep.
        by destruct (parse_arg_raises_anyhow a l l ex' Hstep) as [-> _].
      + intros [= <-]. by apply Hr. }
  apply Hany. discriminate.
Qed.

(** X12. An argument on which the option loop raises, wherever it stands
    among the arguments, ends the run of [__main__] with [ValueError]
    before anything is printed or touched: the world is left as it was.
    Such arguments are the options [--files_after=] and [--folders_after=]
    with a value that [int] does not take; whether one raises does not
    depend on the arguments before it. *)
Theorem malformed_number_ends_the_run_at_once `{Platform} (prog : string)
    (args : list string) (w : world) (arg : string) (ex : exn) :
  arg ∈ args -> parse_arg arg defaults = Raise ex ->
  __main__ (prog :: args) w = (Raise ValueError, w)
  /\ forall l, parse_arg arg l = Raise ValueError.
Proof.
  intros Hin Hbad. split.
  - apply main_bad_option. rewrite skipn_cons, drop_0.
    rewrite parse_args_options. cbn [fst].
    by apply (options_of_malformed args arg ex).
  - intros l. by destruct (parse_arg_raises_anyhow arg defaults l ex Hbad).
Qed.

(** On the sample: a number that is none, after the target. *)
Lemma malformed_number_on_sample :
  @__main__ utc_host ["cleanup.py"; "/tmp/root"; "--folders_after=soon"]
            sample_world
  = (Raise ValueError, sample_world).
Proof.
  apply (@malformed_number_ends_the_run_at_once utc_host "cleanup.py"
           ["/tmp/root"; "--folders_after=soon"] sample_world
           "--folders_after=soon" ValueError).
  - rewrite !elem_of_cons. tauto.
  - vm_compute. reflexivity.
Defined.

Lemma options_of_snoc_ok `{Platform} (args : list string) (arg : string)
    (l : locals) :
  options_of (args ++ [arg]) = Ok l ->
  exists l0, options_of args = Ok l0 /\ parse_arg arg l0 = Ok l.
Proof.
  rewrite options_of_snoc. destruct (options_of args) as [l0 | ex];
    cbn [result_bind]; [eauto | discriminate].
Qed.

(** X13. The target of the run is the last argument without a dash in
    front, and the default [/tmp/] when there is none; the arguments with
    a dash in front, wherever they stand, do not change it. Arguments
    without a dash never make the option loop raise, and they leave the
    other variables at their defaults. *)
Theorem last_plain_argument_is_the_target `{Platform} (args : list string)
    (w : world) :
  (forall l, (parse_args args w).1 = Ok l ->
     path l = List.last (List.filter positional args) "/tmp/")
  /\ (Forall (fun arg => positional arg = true) args ->
      (parse_args args w).1
      = Ok (mk_locals (List.last args "/tmp/") true 30 false 10 false)).
Proof.
  rewrite parse_args_options. cbn [fst]. split.
  - induction args as [| arg args IH] using rev_ind; intros l Hl.
    + by injection Hl as <-.
    + apply options_of_snoc_ok in Hl as (l0 & Hl0 & Hstep).
      rewrite List.filter_app. cbn [List.filter].
      destruct (positional arg) eqn:Hpos.
      * rewrite last_last.
        rewrite (parse_arg_positional arg l0 Hpos) in Hstep.
        by injection Hstep as <-.
      * rewrite app_nil_r, <- (IH l0 Hl0).
        by apply (parse_arg_dashed arg l0 l).
  - induction args as [| arg args IH] using rev_ind; intros Hall;
      [reflexivity |].
    apply Forall_app in Hall as [Hall Hpos].
    apply Forall_cons in Hpos as [Hpos _].
    rewrite options_of_snoc, (IH Hall). cbn [result_bind].
    rewrite (parse_arg_positional _ _ Hpos), last_last. reflexivity.
Qed.

(** On the sample: two plain arguments among options. *)
Lemma last_plain_argument_on_sample :
  path <$> (match (@parse_args utc_host
                     ["/var/tmp"; "--dryrun"; "/tmp/root"; "-v"]
                     sample_world).1 with
            | Ok l => Some l
            | Raise _ => None
            end) = Some "/tmp/root".
Proof.
  destruct (@last_plain_argument_is_the_target utc_host
              ["/var/tmp"; "--dryrun"; "/tmp/root"; "-v"] sample_world)
    as [Hlast _].
  destruct (@parse_args utc_host ["/var/tmp"; "--dryrun"; "/tmp/root"; "-v"]
              sample_world).1 as [l | ex] eqn:Hrun.
  - cbn. by rewrite (Hlast l eq_refl).
  - vm_compute in Hrun. discriminate.
Defined.

(** A split string has a first piece. *)
Lemma str_split_cons (sep : ascii) (s : string) :
  exists h t, str_split sep s = h :: t.
Proof.
  induction s as [| c s IH]; cbn; [eauto |].
  destruct (Ascii.eqb c sep); [eauto |].
  destruct IH as (h & t & ->). eauto.
Qed.

(** X14. The options as the loop reads them. The value of an option is
    the text between the first equals sign and the second, if any. For
    [--files=], [--folders=] and [--dryrun=] the switch is set when the
    value, in lower case, is the word yes, and is cleared by every other
    value; for [--files_after=] and [--folders_after=] the value is
    handed to [int], which may raise. Without a value, [--files],
    [--folders] and [--dryrun] set their switch, and [--files_after] and
    [--folders_after] change nothing. The path stays in all of these. *)
Theorem options_as_read `{Platform} (v : string) (l : locals) :
  let value := item (str_split "="%char v) 0 in
  let yes := String.eqb (str_lower value) "yes" in
  parse_arg ("--files=" +:+ v) l
  = Ok (mk_locals (path l) yes (rm_files_after l) (rm_folders l)
                  (rm_folders_after l) (dryrun l))
  /\ parse_arg ("--folders=" +:+ v) l
     = Ok (mk_locals (path l) (rm_files l) (rm_files_after l) yes
                     (rm_folders_after l) (dryrun l))
  /\ parse_arg ("--dryrun=" +:+ v) l
     = Ok (mk_locals (path l) (rm_files l) (rm_files_after l) (rm_folders l)
                     (rm_folders_after l) yes)
  /\ parse_arg ("--files_after=" +:+ v) l
     = match py_int value with
       | Some n => Ok (mk_locals (path l) (rm_files l) n (rm_folders l)
                                 (rm_folders_after l) (dryrun l))
       | None => Raise ValueError
       end
  /\ parse_arg ("--folders_after=" +:+ v) l
     = match py_int value with
       | Some n => Ok (mk_locals (path l) (rm_files l) (rm_files_after l)
                                 (rm_folders l) n (dryrun l))
       | None => Raise ValueError
       end
  /\ parse_arg "--files" l
     = Ok (mk_locals (path l) true (rm_files_after l) (rm_folders l)
                     (rm_folders_after l) (dryrun l))
  /\ parse_arg "--folders" l
     = Ok (mk_locals (path l) (rm_files l) (rm_files_after l) true
                     (rm_folders_after l) (dryrun l))
  /\ parse_arg "--dryrun" l
     = Ok (mk_locals (path l) (rm_files l) (rm_files_after l) (rm_folders l)
                     (rm_folders_after l) true)
  /\ parse_arg "--files_after" l = Ok l
  /\ parse_arg "--folders_after" l = Ok l.
Proof.
  cbv zeta. destruct (str_split_cons "="%char v) as (h & t & Hsplit).
  rewrite Hsplit. unfold parse_arg, int.
  repeat match goal with
         | |- context [?a +:+ v] =>
             let s := eval cbv in (a +:+ v) in change (a +:+ v) with s
         end.
  repeat split; cbn; rewrite ?Hsplit; cbn; try reflexivity;
    by destruct (py_int h).
Qed.

(** ** The cutoff and the time of day *)

(** X15. The cutoff depends on the date of the clock only, not on the time
    of day: two calls of [get_time_before] on the same day, with the same
    number of days, return the same (a cutoff or an exception). *)
Theorem cutoff_ignores_the_time_of_day (days : Z) (w w' : world) :
  valid_datetime (clock w) -> valid_datetime (clock w') ->
  1000 <= year (clock w) ->
  year (clock w') = year (clock w) -> month (clock w') = month (clock w) ->
  day (clock w') = day (clock w) ->
  (get_time_before days w').1 = (get_time_before days w).1.
Proof.
  intros Hvalid Hvalid' H1000 Hy Hm Hd.
  rewrite !get_time_before_spec by (assumption || lia). cbn [fst].
  assert (Hord : toordinal (clock w') = toordinal (clock w))
    by (unfold toordinal; by rewrite Hy, Hm, Hd).
  unfold cutoff_of. by rewrite Hord.
Qed.

(** On the sample: at half past ten and one second before midnight. *)
Lemma cutoff_late_in_the_day_on_sample :
  (get_time_before 10
     (mk_world sample_fs [] (mk_datetime 2024 3 15 23 59 59 999999))).1
  = (get_time_before 10 sample_world).1.
Proof.
  apply cutoff_ignores_the_time_of_day; vm_compute; try reflexivity;
    try discriminate; repeat split; discriminate.
Defined.

(** * The script over a file system with links: properties *)

(** In this section the names of the script's functions, of the library
    calls and of the state are those of the module [Posix]. *)
Section PosixFacts.
Import Posix.

(** ** Resolving paths *)

Lemma locate_eq (fuel : nat) (root : lnode) (here : fspath) (cur : lnode)
    (rest : fspath) :
  locate fuel root here cur rest
  = match cur with
    | Symlink target =>
        match fuel with
        | O => None
        | S fuel' => locate fuel' root [] root (target ++ rest)
        end
    | Leaf _ =>
        match rest with
        | [] => Some (here, cur)
        | _ :: _ => None
        end
    | Folder _ entries =>
        match rest with
        | [] => Some (here, cur)
        | x :: rest' =>
            match entries !! x with
            | Some child => locate fuel root (here ++ [x]) child rest'
            | None => None
            end
        end
    end.
Proof. destruct fuel, rest; reflexivity. Qed.

(** A path that leads through directories only resolves to itself. *)
Lemma locate_descend (fuel : nat) (root : lnode) (rest : fspath) :
  forall (here : fspath) (cur n : lnode),
    descend rest cur = Some n -> (forall target, n <> Symlink target) ->
    locate fuel root here cur rest = Some (here ++ rest, n).
Proof.
  induction rest as [| x rest IH]; intros here cur n Hn Hplain.
  - cbn in Hn. injection Hn as ->. rewrite locate_eq, app_nil_r.
    destruct n; try reflexivity. by destruct (Hplain target).
  - cbn in Hn. destruct cur as [i | t e | target]; try discriminate.
    rewrite locate_eq. destruct (e !! x) as [child |]; [| discriminate].
    rewrite (IH (here ++ [x]) child n Hn Hplain).
    by rewrite <- app_assoc.
Qed.

(** What a resolution ends at does not depend on the real path so far. *)
Lemma locate_here (fuel : nat) (root : lnode) (rest : fspath) :
  forall (here here' : fspath) (cur : lnode),
    snd <$> locate fuel root here cur rest
    = snd <$> locate fuel root here' cur rest.
Proof.
  induction rest as [| x rest IH]; intros here here' cur;
    rewrite (locate_eq fuel root here), (locate_eq fuel root here');
    destruct cur as [i | t e | target]; try reflexivity.
  destruct (e !! x) as [child |]; [apply IH | reflexivity].
Qed.

(** Below a directory that the path reaches through directories, the
    resolution goes on from the entry. *)
Lemma locate_child (fuel : nat) (root : lnode) (p : fspath) (x : string) :
  forall (here : fspath) (cur : lnode) (t : Q) (e : gmap string lnode),
    descend p cur = Some (Folder t e) ->
    locate fuel root here cur (p ++ [x])
    = match e !! x with
      | Some n => locate fuel root (here ++ p ++ [x]) n []
      | None => None
      end.
Proof.
  induction p as [| y p IH]; intros here cur t e Hp.
  - cbn in Hp. injection Hp as ->. by rewrite locate_eq.
  - cbn in Hp. destruct cur as [i | t0 e0 | target]; try discriminate.
    cbn [app]. rewrite locate_eq.
    destruct (e0 !! y) as [child |]; [| discriminate].
    rewrite (IH (here ++ [y]) child t e Hp).
    by rewrite <- app_assoc.
Qed.

Lemma entry_stat_plain (s : state) (n : lnode) :
  (forall target, n <> Symlink target) -> entry_stat s n = status_of s n.
Proof.
  intros Hplain. unfold entry_stat. rewrite locate_eq.
  destruct n; try reflexivity. by destruct (Hplain target).
Qed.

(** [stat] of an entry of a directory given by its real path. *)
Lemma os_stat_child (p : fspath) (x : string) (s : state) (t : Q)
    (e : gmap string lnode) :
  descend p (tree s) = Some (Folder t e) ->
  os_stat (os_path_join p x) s
  = match e !! x with
    | Some n => entry_stat s n
    | None => None
    end.
Proof.
  intros Hp. unfold os_stat, os_path_join, entry_stat.
  rewrite (locate_child _ _ p x [] (tree s) t e Hp).
  destruct (e !! x) as [n |]; [| reflexivity].
  pose proof (locate_here _MAXSYMLINKS (tree s) [] ([] ++ p ++ [x]) [] n)
    as Hsame.
  destruct (locate _ _ ([] ++ p ++ [x]) n []) as [[c1 n1] |],
           (locate _ _ [] n []) as [[c2 n2] |]; cbn in Hsame;
    try discriminate; [| reflexivity].
  by injection Hsame as ->.
Qed.

Lemma locate_real (p : fspath) (s : state) (t : Q) (e : gmap string lnode) :
  descend p (tree s) = Some (Folder t e) ->
  locate _MAXSYMLINKS (tree s) [] (tree s) p = Some (p, Folder t e).
Proof.
  intros Hp. by rewrite (locate_descend _ _ p [] (tree s) (Folder t e) Hp).
Qed.

Lemma split_last_snoc (p : fspath) (x : string) :
  split_last (p ++ [x]) = Some (p, x).
Proof.
  induction p as [| y p IH]; [reflexivity |].
  cbn [app split_last]. by rewrite IH.
Qed.

(** ** Changing a directory *)

Lemma descend_app (p q : fspath) (n : lnode) :
  descend (p ++ q) n
  = match descend p n with
    | Some m => descend q m
    | None => None
    end.
Proof.
  revert n. induction p as [| x p IH]; intros n; [reflexivity |].
  cbn. destruct n as [i | t e | target]; try reflexivity.
  destruct (e !! x) as [child |]; [apply IH | reflexivity].
Qed.

Lemma descend_tree_alter f (c : fspath) :
  forall (n : lnode) (t : Q) (e : gmap string lnode),
    descend c n = Some (Folder t e) ->
    descend c (tree_alter f c n) = Some (f t e).
Proof.
  induction c as [| x c IH]; intros n t e Hc.
  - cbn in Hc. by injection Hc as ->.
  - cbn in Hc. destruct n as [i | t0 e0 | target]; try discriminate.
    destruct (e0 !! x) as [child |] eqn:Hx; [| discriminate].
    cbn. rewrite lookup_alter_eq, Hx. cbn. by apply IH.
Qed.

(** The name [x] taken out of the directory at [p]. *)
Lemma descend_unlink_at (p : fspath) (x : string) (stamp : Q) (n : lnode)
    (t : Q) (e : gmap string lnode) :
  descend p n = Some (Folder t e) ->
  descend p (unlink_at p x stamp n) = Some (Folder stamp (delete x e)).
Proof. intros Hp. unfold unlink_at. by rewrite (descend_tree_alter _ p n t e). Qed.

(** A change at [c] is not seen from a path that does not pass [c]. *)
Lemma descend_tree_alter_apart f (c : fspath) :
  forall (q : fspath) (n : lnode),
    (forall r, q <> c ++ r) -> (forall r, c <> q ++ r) ->
    descend q (tree_alter f c n) = descend q n.
Proof.
  induction c as [| x c IH]; intros q n Hq Hc.
  - by destruct (Hq q).
  - destruct q as [| y q]; [by destruct (Hc (x :: c)) |].
    destruct n as [i | t e | target]; try reflexivity.
    cbn. destruct (decide (y = x)) as [-> | Hne].
    + rewrite lookup_alter_eq. destruct (e !! x) as [child |]; [| reflexivity].
      cbn. apply IH.
      * intros r ->. by apply (Hq r).
      * intros r ->. by apply (Hc r).
    + by rewrite lookup_alter_ne.
Qed.

(** Seen from above [c], a change at [c] that leaves a directory there
    leaves every directory on the way a directory with its time. *)
Lemma descend_tree_alter_above f (c : fspath) :
  (forall t e, exists t' e', f t e = Folder t' e') ->
  forall (q r : fspath) (n : lnode) (t : Q) (e : gmap string lnode),
    c = q ++ r -> r <> [] ->
    descend q n = Some (Folder t e) ->
    exists e', descend q (tree_alter f c n) = Some (Folder t e').
Proof.
  intros Hf q. revert c. induction q as [| y q IH];
    intros c r n t e -> Hr Hq.
  - cbn in Hq. injection Hq as ->. destruct r as [| x r]; [done |].
    cbn. eauto.
  - cbn in Hq. destruct n as [i | t0 e0 | target]; try discriminate.
    destruct (e0 !! y) as [child |] eqn:Hy; [| discriminate].
    cbn. rewrite lookup_alter_eq, Hy. cbn.
    by apply (IH (q ++ r) r child t e).
Qed.

(** ** The library calls on an entry of a directory *)

Lemma os_remove_child `{Host} (p : fspath) (x : string) (s : state) (t : Q)
    (e : gmap string lnode) :
  descend p (tree s) = Some (Folder t e) ->
  os_remove (os_path_join p x) s
  = match e !! x with
    | None => (Raise FileNotFoundError, s)
    | Some (Folder _ _) => (Raise IsADirectoryError, s)
    | Some child =>
        (Ok tt, mk_state (unlink_at p x (now s) (tree s))
                         (touch_all (now s) (leaves child) (inodes s))
                         (stdout s) (clock s) (now s))
    end.
Proof.
  intros Hp. unfold os_remove, os_path_join.
  by rewrite split_last_snoc, (locate_real p s t e Hp).
Qed.

Lemma shutil_rmtree_child `{Host} (p : fspath) (x : string) (s : state)
    (t : Q) (e : gmap string lnode) :
  descend p (tree s) = Some (Folder t e) ->
  shutil_rmtree (os_path_join p x) s
  = match e !! x with
    | None => (Raise FileNotFoundError, s)
    | Some (Symlink _) => (Raise OSError, s)
    | Some (Leaf _) => (Raise (NotADirectoryError "Not a directory"), s)
    | Some (Folder t' below) =>
        (Ok tt, mk_state (unlink_at p x (now s) (tree s))
                         (touch_all (now s) (leaves (Folder t' below))
                                    (inodes s))
                         (stdout s) (clock s) (now s))
    end.
Proof.
  intros Hp. unfold shutil_rmtree, os_path_join.
  by rewrite split_last_snoc, (locate_real p s t e Hp).
Qed.

(** The cutoff is computed from the clock alone, and leaves the state. *)
Lemma get_time_before_state `{Host} (days : Z) (s : state) :
  exists r, get_time_before days s = (r, s)
            /\ forall s', clock s' = clock s ->
                          get_time_before days s' = (r, s').
Proof.
  unfold get_time_before, bind, lift, datetime_now.
  destruct (strptime_end_of_day (year (clock s)) (month (clock s))
              (day (clock s))) as [rm_dt | ex] eqn:Hday.
  - destruct (new_timedelta (days * -1) 0 0) as [delta | ex] eqn:Hdelta.
    + eexists. split; [reflexivity |]. intros s' ->.
      by rewrite Hday.
    + eexists. split; [reflexivity |]. intros s' ->.
      by rewrite Hday.
  - eexists. split; [reflexivity |]. intros s' ->. by rewrite Hday.
Qed.

Lemma cutoff_again `{Host} (days : Z) (s s' : state)
    (r : result datetime) :
  get_time_before days s = (r, s) -> clock s' = clock s ->
  get_time_before days s' = (r, s').
Proof.
  intros Hrun Hclock.
  destruct (get_time_before_state days s) as (r0 & Hr0 & Hany).
  rewrite Hrun in Hr0. injection Hr0 as ->. by apply Hany.
Qed.

(** What [stat] shows of a directory entry that is a target. *)
Lemma due_spec (ft : filetype) (ts : Q) (s : state) (n : lnode) :
  due ft ts s n = true
  <-> exists t, entry_stat s n = Some (ft, t) /\ (t < ts)%Q.
Proof.
  unfold due. destruct (entry_stat s n) as [[ft' t] |].
  - rewrite andb_true_iff, Qltb_lt. split.
    + intros [Hft Hlt]. exists t. split; [| exact Hlt].
      by destruct ft', ft.
    + intros (t' & [= -> ->] & Hlt). split; [by destruct ft | exact Hlt].
  - split; [discriminate | by intros (t & Hbad & _)].
Qed.

(** ** One turn of a loop *)

(** One turn of the loop of [rm_files_in] on a name of a directory given
    by its real path, with a cutoff that has a timestamp and a path that
    can be printed. *)
Lemma rm_files_in_body_turn `{Host} (p : fspath) (cut : datetime)
    (dry : bool) (x : string) (cnt : Z) (s : state) (t : Q)
    (e : gmap string lnode) :
  descend p (tree s) = Some (Folder t e) ->
  convertible cut = true ->
  (is_target S_IFREG (timestamp cut) s e x = true ->
   forallb printable (os_path_join p x) = true) ->
  rm_files_in_body p cut dry x cnt s
  = if is_target S_IFREG (timestamp cut) s e x
    then (Ok (cnt + 1),
          mk_state (if dry then tree s else unlink_at p x (now s) (tree s))
                   (if dry then inodes s
                    else touch_all (now s)
                           (match e !! x with
                            | Some n => leaves n
                            | None => []
                            end) (inodes s))
                   (stdout s ++ [if dry then would_remove p x
                                 else removing_file p x])
                   (clock s) (now s))
    else (Ok cnt, s).
Proof.
  intros Hp Hconv Hprint. unfold is_target, due in Hprint.
  unfold rm_files_in_body, is_target, due.
  unfold bind at 1, os_path_isfile at 1.
  rewrite (os_stat_child p x s t e Hp).
  destruct (e !! x) as [n |] eqn:Hx; [| reflexivity].
  destruct (entry_stat s n) as [[ft tx] |] eqn:Hstat; [| reflexivity].
  destruct ft; try reflexivity. cbn [negb filetype_eqb andb].
  unfold bind at 1, is_older, bind at 1, os_path_getctime at 1.
  rewrite (os_stat_child p x s t e Hp), Hx, Hstat.
  unfold bind at 1, datetime_timestamp. rewrite Hconv.
  unfold ret.
  destruct (Qltb tx (timestamp cut)); cbv beta iota delta [negb];
    [| reflexivity].
  specialize (Hprint eq_refl).
  assert (Hargs : forall a b, forallb printable_val
                    [PStr a; PPath (os_path_join p x); PStr b] = true).
  { intros a b. cbn. by rewrite Hprint. }
  assert (Hargs2 : forall a, forallb printable_val
                     [PStr a; PPath (os_path_join p x)] = true).
  { intros a. cbn. by rewrite Hprint. }
  destruct dry; unfold bind, print.
  - by rewrite Hargs2.
  - rewrite Hargs. cbv beta iota.
    rewrite (os_remove_child p x _ t e) by exact Hp.
    rewrite Hx. cbn [tree inodes stdout clock now].
    destruct n as [i | t0 e0 | target]; try reflexivity.
    unfold entry_stat in Hstat. rewrite locate_eq in Hstat. discriminate.
Qed.

(** One turn of the loop of [rm_folders_in], on a name that is no
    symbolic link when the sweep is no dry run. *)
Lemma rm_folders_in_body_turn `{Host} (p : fspath) (cut : datetime)
    (dry : bool) (x : string) (cnt : Z) (s : state) (t : Q)
    (e : gmap string lnode) :
  descend p (tree s) = Some (Folder t e) ->
  convertible cut = true ->
  (is_target S_IFDIR (timestamp cut) s e x = true ->
   forallb printable (os_path_join p x) = true
   /\ (dry = false -> forall target, e !! x <> Some (Symlink target))) ->
  rm_folders_in_body p cut dry x cnt s
  = if is_target S_IFDIR (timestamp cut) s e x
    then (Ok (cnt + 1),
          mk_state (if dry then tree s else unlink_at p x (now s) (tree s))
                   (if dry then inodes s
                    else touch_all (now s)
                           (match e !! x with
                            | Some n => leaves n
                            | None => []
                            end) (inodes s))
                   (stdout s ++ [if dry then would_remove p x
                                 else removing_directory p x])
                   (clock s) (now s))
    else (Ok cnt, s).
Proof.
  intros Hp Hconv Hok. unfold is_target, due in Hok.
  unfold rm_folders_in_body, is_target, due.
  unfold bind at 1, os_path_isdir at 1.
  rewrite (os_stat_child p x s t e Hp).
  destruct (e !! x) as [n |] eqn:Hx; [| reflexivity].
  destruct (entry_stat s n) as [[ft tx] |] eqn:Hstat; [| reflexivity].
  destruct ft; try reflexivity. cbn [negb filetype_eqb andb].
  unfold bind at 1, is_older, bind at 1, os_path_getctime at 1.
  rewrite (os_stat_child p x s t e Hp), Hx, Hstat.
  unfold bind at 1, datetime_timestamp. rewrite Hconv.
  unfold ret.
  destruct (Qltb tx (timestamp cut)); cbv beta iota delta [negb];
    [| reflexivity].
  destruct (Hok eq_refl) as [Hprint Hlink].
  assert (Hargs : forall a b, forallb printable_val
                    [PStr a; PPath (os_path_join p x); PStr b] = true).
  { intros a b. cbn. by rewrite Hprint. }
  assert (Hargs2 : forall a, forallb printable_val
                     [PStr a; PPath (os_path_join p x)] = true).
  { intros a. cbn. by rewrite Hprint. }
  destruct dry; unfold bind, print.
  - by rewrite Hargs2.
  - rewrite Hargs. cbv beta iota.
    rewrite (shutil_rmtree_child p x _ t e) by exact Hp.
    rewrite Hx. cbn [tree inodes stdout clock now].
    destruct n as [i | t0 e0 | target]; try reflexivity.
    + unfold entry_stat in Hstat. rewrite locate_eq in Hstat.
      unfold status_of in Hstat.
      destruct (inodes s !! i) as [ino |]; [| discriminate].
      by destruct (ikind ino).
    + by destruct (Hlink eq_refl target).
Qed.

(** ** The loops *)

Lemma filter_names_ext (P Q : string -> bool) (names : list string) :
  (forall y, y ∈ names -> P y = Q y) ->
  filter (fun y => P y) names = filter (fun y => Q y) names.
Proof.
  induction names as [| y names IH]; intros Hsame; [reflexivity |].
  rewrite !filter_cons, (Hsame y) by (by left).
  rewrite IH; [reflexivity |]. intros z Hz. apply Hsame. by right.
Qed.

Lemma plain_delete (e : gmap string lnode) (x : string) :
  plain e -> plain (delete x e).
Proof.
  intros [Hlinks Htwins]. split.
  - intros y target Hy. apply lookup_delete_Some in Hy as [_ Hy].
    by apply (Hlinks y target).
  - intros y z i Hy Hz. apply lookup_delete_Some in Hy as [_ Hy].
    apply lookup_delete_Some in Hz as [_ Hz]. by apply (Htwins y z i).
Qed.

Lemma names_printable_delete `{Host} (p : fspath) (e : gmap string lnode)
    (x : string) :
  names_printable p e -> names_printable p (delete x e).
Proof.
  intros [Hp He]. split; [exact Hp |]. intros y n Hy.
  apply lookup_delete_Some in Hy as [_ Hy]. by apply (He y n).
Qed.

Lemma printable_child `{Host} (p : fspath) (e : gmap string lnode)
    (x : string) (n : lnode) :
  names_printable p e -> e !! x = Some n ->
  forallb printable (os_path_join p x) = true.
Proof.
  intros [Hp He] Hx. unfold os_path_join. rewrite forallb_app, Hp. cbn.
  by rewrite (He x n Hx).
Qed.

(** A loop whose turns remove the targets one by one: it returns their
    number, leaves the other entries, and reports each target once. *)
Lemma removing_loop (ft : filetype) (ts : Q) (body : string -> Z -> M Z)
    (report : string -> list pyval) (p : fspath)
    (Inv : gmap string lnode -> Prop) :
  (forall e x, Inv e -> Inv (delete x e)) ->
  (forall x cnt s t e,
      descend p (tree s) = Some (Folder t e) -> Inv e ->
      is_target ft ts s e x = true ->
      exists s1,
        body x cnt s = (Ok (cnt + 1), s1)
        /\ descend p (tree s1) = Some (Folder (now s) (delete x e))
        /\ stdout s1 = stdout s ++ [report x]
        /\ clock s1 = clock s /\ now s1 = now s
        /\ (forall y, y <> x ->
              is_target ft ts s1 (delete x e) y = is_target ft ts s e y)) ->
  (forall x cnt s t e,
      descend p (tree s) = Some (Folder t e) -> Inv e ->
      is_target ft ts s e x = false -> body x cnt s = (Ok cnt, s)) ->
  forall names, NoDup names ->
  forall s cnt t e,
    descend p (tree s) = Some (Folder t e) -> Inv e ->
    let hits := filter (fun x => is_target ft ts s e x) names in
    exists s' t' e',
      for_each names body cnt s = (Ok (cnt + Z.of_nat (length hits)), s')
      /\ descend p (tree s') = Some (Folder t' e')
      /\ (forall y, e' !! y = if decide (y ∈ hits) then None else e !! y)
      /\ stdout s' = stdout s ++ (report <$> hits)
      /\ clock s' = clock s /\ now s' = now s
      /\ (forall y, y ∉ hits ->
            is_target ft ts s' e' y = is_target ft ts s e y)
      /\ (hits = [] -> s' = s).
Proof.
  intros Hdel Hhit Hmiss names.
  induction names as [| x names IH]; intros Hnd s cnt t e Hp Hinv; cbn zeta.
  - exists s, t, e. cbn. unfold ret. rewrite Z.add_0_r, app_nil_r.
    repeat split; try reflexivity; exact Hp.
  - apply NoDup_cons in Hnd as [Hx Hnd].
    cbn [for_each]. unfold bind at 1. rewrite filter_cons.
    destruct (is_target ft ts s e x) eqn:Htarget.
    + rewrite decide_True by exact I.
      destruct (Hhit x cnt s t e Hp Hinv Htarget)
        as (s1 & -> & Hp1 & Hout1 & Hclock1 & Hnow1 & Hsame1).
      destruct (IH Hnd s1 (cnt + 1) (now s) (delete x e) Hp1
                  (Hdel e x Hinv))
        as (s' & t' & e' & Hrun & Hp' & He' & Hout & Hclock & Hnow
            & Hsame & _).
      cbn zeta in *.
      assert (Hhits : filter (fun y => is_target ft ts s1 (delete x e) y)
                             names
                      = filter (fun y => is_target ft ts s e y) names).
      { apply filter_names_ext. intros y Hy. apply Hsame1.
        intros ->. contradiction. }
      rewrite Hhits in *.
      set (hits := filter (fun y => is_target ft ts s e y) names) in *.
      exists s', t', e'. rewrite Hrun.
      split; [do 2 f_equal; cbn [length]; lia |].
      split; [exact Hp' |]. split.
      { intros y. rewrite He'. destruct (decide (y = x)) as [-> | Hne].
        - rewrite lookup_delete_eq.
          destruct (decide (x ∈ x :: hits)) as [_ | Hno];
            [by destruct (decide (x ∈ hits)) |].
          exfalso. apply Hno. by left.
        - rewrite lookup_delete_ne by done.
          destruct (decide (y ∈ hits)) as [Hin | Hout'].
          + rewrite decide_True; [reflexivity | by right].
          + rewrite decide_False; [reflexivity |].
            rewrite elem_of_cons. tauto. }
      split; [rewrite Hout, Hout1, <- app_assoc; reflexivity |].
      split; [congruence |]. split; [congruence |]. split.
      { intros y Hy. rewrite not_elem_of_cons in Hy. destruct Hy as [Hne Hy].
        rewrite (Hsame y Hy). by apply Hsame1. }
      discriminate.
    + rewrite decide_False by (intros []).
      rewrite (Hmiss x cnt s t e Hp Hinv Htarget).
      exact (IH Hnd s cnt t e Hp Hinv).
Qed.

(** A loop in which no name is a target does nothing. *)
Lemma idle_loop (ft : filetype) (ts : Q) (body : string -> Z -> M Z)
    (s : state) (e : gmap string lnode) :
  (forall x cnt, is_target ft ts s e x = false -> body x cnt s = (Ok cnt, s)) ->
  forall names cnt,
    (forall x, x ∈ names -> is_target ft ts s e x = false) ->
    for_each names body cnt s = (Ok cnt, s).
Proof.
  intros Hmiss names. induction names as [| x names IH]; intros cnt Hnone;
    [reflexivity |].
  cbn [for_each]. unfold bind at 1.
  rewrite (Hmiss x cnt) by (apply Hnone; by left).
  apply IH. intros y Hy. apply Hnone. by right.
Qed.

(** A dry loop: the state changes in what is printed only. *)
Lemma dry_loop (ft : filetype) (ts : Q) (body : string -> Z -> M Z)
    (report : string -> list pyval) (tr : lnode)
    (tbl : gmap positive inode) (c : datetime) (nw : Q)
    (e : gmap string lnode) :
  (forall x cnt out,
      body x cnt (mk_state tr tbl out c nw)
      = if is_target ft ts (mk_state tr tbl [] c nw) e x
        then (Ok (cnt + 1), mk_state tr tbl (out ++ [report x]) c nw)
        else (Ok cnt, mk_state tr tbl out c nw)) ->
  forall names cnt out,
    let hits := filter (fun x => is_target ft ts (mk_state tr tbl [] c nw) e x)
                       names in
    for_each names body cnt (mk_state tr tbl out c nw)
    = (Ok (cnt + Z.of_nat (length hits)),
       mk_state tr tbl (out ++ (report <$> hits)) c nw).
Proof.
  intros Hbody names. induction names as [| x names IH]; intros cnt out;
    cbn zeta.
  - cbn. unfold ret. by rewrite Z.add_0_r, app_nil_r.
  - cbn [for_each]. unfold bind at 1. rewrite Hbody, filter_cons.
    destruct (is_target ft ts _ e x).
    + rewrite decide_True by exact I. rewrite IH. cbn.
      rewrite <- app_assoc. do 2 f_equal. lia.
    + rewrite decide_False by (intros []). by rewrite IH.
Qed.

(** What is a target does not depend on what has been printed. *)
Lemma is_target_stdout (ft : filetype) (ts : Q) (s : state)
    (out : list (list pyval)) (e : gmap string lnode) (x : string) :
  is_target ft ts (mk_state (tree s) (inodes s) out (clock s) (now s)) e x
  = is_target ft ts s e x.
Proof. reflexivity. Qed.

(** *** The listings *)

Lemma scan_NoDup (P : string * lnode -> Prop) `{forall x, Decision (P x)}
    (e : gmap string lnode) :
  NoDup ((filter P (map_to_list e)).*1).
Proof.
  assert (Hsub : (filter P (map_to_list e)).*1 `sublist_of` (map_to_list e).*1)
    by apply fmap_sublist, sublist_filter.
  exact (sublist_NoDup _ _ (NoDup_fst_map_to_list e) Hsub).
Qed.

Lemma elem_of_scan (P : string * lnode -> Prop) `{forall x, Decision (P x)}
    (e : gmap string lnode) (k : string) :
  k ∈ (filter P (map_to_list e)).*1 <-> exists v, e !! k = Some v /\ P (k, v).
Proof.
  rewrite list_elem_of_fmap. split.
  - intros ([k' v] & -> & Hin). apply list_elem_of_filter in Hin as [HP Hin].
    apply elem_of_map_to_list in Hin. eauto.
  - intros (v & Hk & HP). exists (k, v). split; [reflexivity |].
    apply list_elem_of_filter. split; [exact HP |].
    by apply elem_of_map_to_list.
Qed.

Lemma listers_real `{Host} (p : fspath) (s : state) (t : Q)
    (e : gmap string lnode) :
  descend p (tree s) = Some (Folder t e) ->
  get_files_by_path p s = (Ok (scan_nondirs s e), s)
  /\ get_subdirs_by_path p s = (Ok (scan_dirs s e), s).
Proof.
  intros Hp. unfold get_files_by_path, get_subdirs_by_path, bind, next, bind,
    os_walk_first, os_path_abspath.
  by rewrite (locate_real p s t e Hp).
Qed.

(** A listing misses no target of its kind. *)
Lemma targets_listed (s : state) (e : gmap string lnode) (ts : Q)
    (x : string) :
  (is_target S_IFREG ts s e x = true -> x ∈ scan_nondirs s e)
  /\ (is_target S_IFDIR ts s e x = true -> x ∈ scan_dirs s e).
Proof.
  unfold is_target, scan_nondirs, scan_dirs.
  destruct (e !! x) as [n |] eqn:Hx; [| split; discriminate].
  split; intros Hdue; apply due_spec in Hdue as (t & Hstat & _);
    apply elem_of_scan; exists n; (split; [exact Hx |]); cbn;
    unfold entry_is_dir; by rewrite Hstat.
Qed.

(** The targets among the names of a listing that misses none are the
    targets: as many, and the same names. *)
Lemma hits_are_targets (ft : filetype) (ts : Q) (s : state)
    (e : gmap string lnode) (names : list string) :
  NoDup names ->
  (forall x, is_target ft ts s e x = true -> x ∈ names) ->
  let hits := filter (fun x => is_target ft ts s e x) names in
  hits ≡ₚ (map_to_list (targets ft ts s e)).*1
  /\ Z.of_nat (length hits) = count_targets ft ts s e
  /\ forall x, x ∈ hits <-> is_target ft ts s e x = true.
Proof.
  intros Hnd Hall hits.
  assert (Hmem : forall x, x ∈ hits <-> is_target ft ts s e x = true).
  { intros x. unfold hits. rewrite list_elem_of_filter. split.
    - intros [Ht _]. by apply Is_true_true.
    - intros Ht. split; [by apply Is_true_true | by apply Hall]. }
  assert (Hperm : hits ≡ₚ (map_to_list (targets ft ts s e)).*1).
  { apply NoDup_Permutation.
    - by apply NoDup_filter.
    - apply NoDup_fst_map_to_list.
    - intros x. rewrite Hmem, list_elem_of_fmap. unfold is_target, targets.
      split.
      + destruct (e !! x) as [n |] eqn:Hx; [| discriminate].
        intros Hdue. exists (x, n). split; [reflexivity |].
        apply elem_of_map_to_list, map_lookup_filter_Some.
        split; [exact Hx | by apply Is_true_true].
      + intros ([x' n] & -> & Hin).
        apply elem_of_map_to_list, map_lookup_filter_Some in Hin
          as [Hx Hdue]. cbn in *. rewrite Hx. by apply Is_true_true. }
  split; [exact Hperm |]. split; [| exact Hmem].
  unfold count_targets. rewrite (Permutation_length Hperm).
  by rewrite length_fmap, length_map_to_list.
Qed.

(** The entries that are no targets, as a map. *)
Lemma lookup_remains (ft : filetype) (ts : Q) (s : state)
    (e : gmap string lnode) (x : string) :
  remains ft ts s e !! x
  = if is_target ft ts s e x then None else e !! x.
Proof.
  unfold remains, is_target. apply option_eq. intros n.
  rewrite map_lookup_filter_Some. cbn.
  destruct (e !! x) as [m |] eqn:Hx.
  - destruct (due ft ts s m) eqn:Hdue.
    + split; [| discriminate]. intros [[= <-] Hno].
      rewrite Hdue in Hno. by destruct Hno.
    + split; [tauto |]. intros [= <-]. split; [reflexivity |].
      by rewrite Hdue.
  - split; [tauto | discriminate].
Qed.

(** *** The loops of the two sweeps *)

(** Among entries that are no links, a directory is a target whatever the
    inodes are. *)
Lemma due_dir_plain (ts : Q) (s s' : state) (n : lnode) :
  (forall target, n <> Symlink target) ->
  due S_IFDIR ts s' n = due S_IFDIR ts s n.
Proof.
  intros Hplain. unfold due. rewrite !entry_stat_plain by exact Hplain.
  destruct n as [i | t e | target]; [| reflexivity | by destruct (Hplain target)].
  unfold status_of.
  destruct (inodes s' !! i) as [ino' |], (inodes s !! i) as [ino |];
    try destruct (ikind ino'); try destruct (ikind ino); reflexivity.
Qed.

(** A target of the sweep of files that is no link is a name of an inode,
    a target of the sweep of directories that is no link is a directory. *)
Lemma target_shape (ts : Q) (s : state) (n : lnode) :
  (forall target, n <> Symlink target) ->
  (due S_IFREG ts s n = true -> exists i, n = Leaf i)
  /\ (due S_IFDIR ts s n = true -> exists t e, n = Folder t e).
Proof.
  intros Hplain. unfold due. rewrite entry_stat_plain by exact Hplain.
  destruct n as [i | t e | target]; cbn.
  - split; [eauto |]. destruct (inodes s !! i) as [ino |]; [| discriminate].
    by destruct (ikind ino).
  - split; [discriminate | eauto].
  - by destruct (Hplain target).
Qed.

(** The loop of [rm_files_in] over names without repeats, in a plain
    directory, when it removes. *)
Lemma files_loop `{Host} (p : fspath) (cut : datetime) (names : list string)
    (s : state) (cnt : Z) (t : Q) (e : gmap string lnode) :
  NoDup names ->
  descend p (tree s) = Some (Folder t e) ->
  plain e -> names_printable p e -> convertible cut = true ->
  let ts := timestamp cut in
  let hits := filter (fun x => is_target S_IFREG ts s e x) names in
  exists s' t' e',
    for_each names (rm_files_in_body p cut false) cnt s
    = (Ok (cnt + Z.of_nat (length hits)), s')
    /\ descend p (tree s') = Some (Folder t' e')
    /\ (forall y, e' !! y = if decide (y ∈ hits) then None else e !! y)
    /\ stdout s' = stdout s ++ (removing_file p <$> hits)
    /\ clock s' = clock s /\ now s' = now s
    /\ (forall y, y ∉ hits ->
          is_target S_IFREG ts s' e' y = is_target S_IFREG ts s e y)
    /\ (hits = [] -> s' = s).
Proof.
  intros Hnd Hp Hplain Hnames Hconv ts hits.
  refine (removing_loop S_IFREG ts (rm_files_in_body p cut false)
            (removing_file p) p
            (fun e => plain e /\ names_printable p e) _ _ _
            names Hnd s cnt t e Hp (conj Hplain Hnames)).
  - intros e0 x [Hpl Hpr]. split;
      [by apply plain_delete | by apply names_printable_delete].
  - clear dependent s. clear dependent e. intros x cnt0 s t0 e Hp [Hpl Hpr]
      Htarget.
    assert (Hx : exists n, e !! x = Some n /\ due S_IFREG ts s n = true).
    { unfold is_target in Htarget. destruct (e !! x) as [n |]; [eauto |].
      discriminate. }
    destruct Hx as (n & Hx & Hdue).
    assert (Hnolink : forall target, n <> Symlink target).
    { intros target ->. by apply (proj1 Hpl x target). }
    destruct (proj1 (target_shape ts s n Hnolink) Hdue) as [i ->].
    rewrite (rm_files_in_body_turn p cut false x cnt0 s t0 e Hp Hconv)
      by (intros _; by apply (printable_child p e x (Leaf i))).
    fold ts. rewrite Htarget, Hx. eexists. split; [reflexivity |].
    cbn [tree inodes stdout clock now].
    split; [by apply (descend_unlink_at p x _ _ t0 e) |].
    do 3 (split; [reflexivity |]).
    intros y Hne. unfold is_target. rewrite lookup_delete_ne by done.
    destruct (e !! y) as [m |] eqn:Hy; [| reflexivity].
    assert (Hm : forall target, m <> Symlink target).
    { intros target ->. by apply (proj1 Hpl y target). }
    unfold due. rewrite !entry_stat_plain by exact Hm.
    destruct m as [j | tm em | target]; [| reflexivity | reflexivity].
    unfold status_of. cbn [inodes leaves touch_all foldr]. unfold touch.
    rewrite lookup_alter_ne; [reflexivity |].
    intros Heq. apply Hne. apply (proj2 Hpl y x i); [| exact Hx].
    by rewrite Heq.
  - clear dependent s. clear dependent e. intros x cnt0 s t0 e Hp [Hpl Hpr]
      Htarget.
    rewrite (rm_files_in_body_turn p cut false x cnt0 s t0 e Hp Hconv)
      by (fold ts; by rewrite Htarget).
    fold ts. by rewrite Htarget.
Qed.

(** The loop of [rm_folders_in] over names without repeats, in a
    directory without symbolic links, when it removes. *)
Lemma folders_loop `{Host} (p : fspath) (cut : datetime)
    (names : list string) (s : state) (cnt : Z) (t : Q)
    (e : gmap string lnode) :
  NoDup names ->
  descend p (tree s) = Some (Folder t e) ->
  (forall x target, e !! x <> Some (Symlink target)) ->
  names_printable p e -> convertible cut = true ->
  let ts := timestamp cut in
  let hits := filter (fun x => is_target S_IFDIR ts s e x) names in
  exists s' t' e',
    for_each names (rm_folders_in_body p cut false) cnt s
    = (Ok (cnt + Z.of_nat (length hits)), s')
    /\ descend p (tree s') = Some (Folder t' e')
    /\ (forall y, e' !! y = if decide (y ∈ hits) then None else e !! y)
    /\ stdout s' = stdout s ++ (removing_directory p <$> hits)
    /\ clock s' = clock s /\ now s' = now s
    /\ (forall y, y ∉ hits ->
          is_target S_IFDIR ts s' e' y = is_target S_IFDIR ts s e y)
    /\ (hits = [] -> s' = s).
Proof.
  intros Hnd Hp Hplain Hnames Hconv ts hits.
  refine (removing_loop S_IFDIR ts (rm_folders_in_body p cut false)
            (removing_directory p) p
            (fun e => (forall x target, e !! x <> Some (Symlink target))
                      /\ names_printable p e) _ _ _
            names Hnd s cnt t e Hp (conj Hplain Hnames)).
  - intros e0 x [Hpl Hpr]. split; [| by apply names_printable_delete].
    intros y target Hy. apply lookup_delete_Some in Hy as [_ Hy].
    by apply (Hpl y target).
  - clear dependent s. clear dependent e. intros x cnt0 s t0 e Hp [Hpl Hpr]
      Htarget.
    assert (Hx : exists n, e !! x = Some n /\ due S_IFDIR ts s n = true).
    { unfold is_target in Htarget. destruct (e !! x) as [n |]; [eauto |].
      discriminate. }
    destruct Hx as (n & Hx & Hdue).
    rewrite (rm_folders_in_body_turn p cut false x cnt0 s t0 e Hp Hconv)
      by (intros _; split;
          [by apply (printable_child p e x n) | intros _; by apply Hpl]).
    fold ts. rewrite Htarget, Hx. eexists. split; [reflexivity |].
    cbn [tree inodes stdout clock now].
    split; [by apply (descend_unlink_at p x _ _ t0 e) |].
    do 3 (split; [reflexivity |]).
    intros y Hne. unfold is_target. rewrite lookup_delete_ne by done.
    destruct (e !! y) as [m |] eqn:Hy; [| reflexivity].
    apply due_dir_plain. intros target ->. by apply (Hpl y target).
  - clear dependent s. clear dependent e. intros x cnt0 s t0 e Hp [Hpl Hpr]
      Htarget.
    rewrite (rm_folders_in_body_turn p cut false x cnt0 s t0 e Hp Hconv)
      by (fold ts; by rewrite Htarget).
    fold ts. by rewrite Htarget.
Qed.

(** ** The sweeps *)

(** The entries left by a loop that removed the targets among names that
    miss none are the entries that are no targets. *)
Lemma left_is_remains (ft : filetype) (ts : Q) (s : state)
    (e e' : gmap string lnode) (hits : list string) :
  (forall x, x ∈ hits <-> is_target ft ts s e x = true) ->
  (forall y, e' !! y = if decide (y ∈ hits) then None else e !! y) ->
  e' = remains ft ts s e.
Proof.
  intros Hmem He'. apply map_eq. intros y.
  rewrite He', lookup_remains.
  destruct (decide (y ∈ hits)) as [Hin | Hout].
  - apply Hmem in Hin. by rewrite Hin.
  - destruct (is_target ft ts s e y) eqn:Hy; [| reflexivity].
    exfalso. apply Hout. by apply Hmem.
Qed.

(** A sweep of files that removes, in a plain directory given by its real
    path. *)
Lemma rm_files_in_real `{Host} (p : fspath) (days : Z) (s : state) (t : Q)
    (e : gmap string lnode) (cut : datetime) :
  descend p (tree s) = Some (Folder t e) ->
  plain e -> names_printable p e ->
  get_time_before days s = (Ok cut, s) -> convertible cut = true ->
  let ts := timestamp cut in
  let hits := filter (fun x => is_target S_IFREG ts s e x)
                     (scan_nondirs s e) in
  exists s' t',
    rm_files_in p days false s = (Ok (count_targets S_IFREG ts s e), s')
    /\ descend p (tree s') = Some (Folder t' (remains S_IFREG ts s e))
    /\ stdout s' = stdout s ++ (removing_file p <$> hits)
    /\ clock s' = clock s /\ now s' = now s
    /\ (forall y, is_target S_IFREG ts s' (remains S_IFREG ts s e) y = false)
    /\ (count_targets S_IFREG ts s e = 0 -> s' = s).
Proof.
  intros Hp Hplain Hnames Hcut Hconv ts hits.
  destruct (hits_are_targets S_IFREG ts s e (scan_nondirs s e))
    as (Hperm & Hcount & Hmem).
  { apply scan_NoDup. }
  { intros x Hx. by apply (targets_listed s e ts x). }
  fold hits in Hperm, Hcount, Hmem.
  destruct (files_loop p cut (scan_nondirs s e) s 0 t e)
    as (s' & t' & e' & Hrun & Hp' & He' & Hout & Hclock & Hnow & Hsame
        & Hnone); try assumption; [apply scan_NoDup |].
  fold ts in Hrun, He', Hout, Hsame, Hnone. fold hits in Hrun, He', Hout,
    Hsame, Hnone.
  pose proof (left_is_remains S_IFREG ts s e e' hits Hmem He') as ->.
  exists s', t'.
  unfold rm_files_in, bind at 1. rewrite Hcut.
  unfold bind at 1. rewrite (proj1 (listers_real p s t e Hp)).
  unfold bind at 1. rewrite Hrun. unfold ret. rewrite Z.add_0_l, Hcount.
  split; [reflexivity |]. split; [exact Hp' |]. split; [exact Hout |].
  split; [exact Hclock |]. split; [exact Hnow |]. split.
  - intros y. destruct (decide (y ∈ hits)) as [Hin | Hno].
    + unfold is_target. rewrite lookup_remains.
      apply Hmem in Hin. by rewrite Hin.
    + rewrite (Hsame y Hno).
      destruct (is_target S_IFREG ts s e y) eqn:Hy; [| reflexivity].
      exfalso. apply Hno. by apply Hmem.
  - intros Hzero. apply Hnone. rewrite <- Hcount in Hzero.
    destruct hits; [reflexivity | discriminate].
Qed.

(** A sweep of directories that removes, in a directory without symbolic
    links given by its real path. *)
Lemma rm_folders_in_real `{Host} (p : fspath) (days : Z) (s : state) (t : Q)
    (e : gmap string lnode) (cut : datetime) :
  descend p (tree s) = Some (Folder t e) ->
  (forall x target, e !! x <> Some (Symlink target)) ->
  names_printable p e ->
  get_time_before days s = (Ok cut, s) -> convertible cut = true ->
  let ts := timestamp cut in
  let hits := filter (fun x => is_target S_IFDIR ts s e x)
                     (scan_dirs s e) in
  exists s' t',
    rm_folders_in p days false s = (Ok (count_targets S_IFDIR ts s e), s')
    /\ descend p (tree s') = Some (Folder t' (remains S_IFDIR ts s e))
    /\ stdout s' = stdout s ++ (removing_directory p <$> hits)
    /\ clock s' = clock s /\ now s' = now s
    /\ (forall y, is_target S_IFDIR ts s' (remains S_IFDIR ts s e) y = false)
    /\ (count_targets S_IFDIR ts s e = 0 -> s' = s).
Proof.
  intros Hp Hplain Hnames Hcut Hconv ts hits.
  destruct (hits_are_targets S_IFDIR ts s e (scan_dirs s e))
    as (Hperm & Hcount & Hmem).
  { apply scan_NoDup. }
  { intros x Hx. by apply (targets_listed s e ts x). }
  fold hits in Hperm, Hcount, Hmem.
  destruct (folders_loop p cut (scan_dirs s e) s 0 t e)
    as (s' & t' & e' & Hrun & Hp' & He' & Hout & Hclock & Hnow & Hsame
        & Hnone); try assumption; [apply scan_NoDup |].
  fold ts in Hrun, He', Hout, Hsame, Hnone. fold hits in Hrun, He', Hout,
    Hsame, Hnone.
  pose proof (left_is_remains S_IFDIR ts s e e' hits Hmem He') as ->.
  exists s', t'.
  unfold rm_folders_in, bind at 1. rewrite Hcut.
  unfold bind at 1. rewrite (proj2 (listers_real p s t e Hp)).
  unfold bind at 1. rewrite Hrun. unfold ret. rewrite Z.add_0_l, Hcount.
  split; [reflexivity |]. split; [exact Hp' |]. split; [exact Hout |].
  split; [exact Hclock |]. split; [exact Hnow |]. split.
  - intros y. destruct (decide (y ∈ hits)) as [Hin | Hno].
    + unfold is_target. rewrite lookup_remains.
      apply Hmem in Hin. by rewrite Hin.
    + rewrite (Hsame y Hno).
      destruct (is_target S_IFDIR ts s e y) eqn:Hy; [| reflexivity].
      exfalso. apply Hno. by apply Hmem.
  - intros Hzero. apply Hnone. rewrite <- Hcount in Hzero.
    destruct hits; [reflexivity | discriminate].
Qed.

(** The dry sweeps, in any directory given by its real path: links and
    shared inodes do not matter when nothing is removed. *)
Lemma rm_files_in_dry `{Host} (p : fspath) (days : Z) (s : state) (t : Q)
    (e : gmap string lnode) (cut : datetime) :
  descend p (tree s) = Some (Folder t e) ->
  get_time_before days s = (Ok cut, s) -> convertible cut = true ->
  let ts := timestamp cut in
  (forall x, is_target S_IFREG ts s e x = true ->
             forallb printable (os_path_join p x) = true) ->
  let hits := filter (fun x => is_target S_IFREG ts s e x)
                     (scan_nondirs s e) in
  rm_files_in p days true s
  = (Ok (count_targets S_IFREG ts s e),
     mk_state (tree s) (inodes s) (stdout s ++ (would_remove p <$> hits))
              (clock s) (now s)).
Proof.
  intros Hp Hcut Hconv ts Hprint hits.
  destruct (hits_are_targets S_IFREG ts s e (scan_nondirs s e))
    as (Hperm & Hcount & Hmem).
  { apply scan_NoDup. }
  { intros x Hx. by apply (targets_listed s e ts x). }
  fold hits in Hperm, Hcount, Hmem.
  unfold rm_files_in, bind at 1. rewrite Hcut.
  unfold bind at 1. rewrite (proj1 (listers_real p s t e Hp)).
  unfold bind at 1. destruct s as [tr tbl out c nw]. cbn [tree] in Hp.
  rewrite (dry_loop S_IFREG ts (rm_files_in_body p cut true)
             (would_remove p) tr tbl c nw e).
  - unfold ret. cbn [tree inodes stdout clock now].
    rewrite Z.add_0_l, <- Hcount. reflexivity.
  - intros x cnt out0.
    rewrite (rm_files_in_body_turn p cut true x cnt (mk_state tr tbl out0 c nw) t e
               Hp Hconv)
      by (intros Hx; by apply Hprint).
    reflexivity.
Qed.

Lemma rm_folders_in_dry `{Host} (p : fspath) (days : Z) (s : state) (t : Q)
    (e : gmap string lnode) (cut : datetime) :
  descend p (tree s) = Some (Folder t e) ->
  get_time_before days s = (Ok cut, s) -> convertible cut = true ->
  let ts := timestamp cut in
  (forall x, is_target S_IFDIR ts s e x = true ->
             forallb printable (os_path_join p x) = true) ->
  let hits := filter (fun x => is_target S_IFDIR ts s e x)
                     (scan_dirs s e) in
  rm_folders_in p days true s
  = (Ok (count_targets S_IFDIR ts s e),
     mk_state (tree s) (inodes s) (stdout s ++ (would_remove p <$> hits))
              (clock s) (now s)).
Proof.
  intros Hp Hcut Hconv ts Hprint hits.
  destruct (hits_are_targets S_IFDIR ts s e (scan_dirs s e))
    as (Hperm & Hcount & Hmem).
  { apply scan_NoDup. }
  { intros x Hx. by apply (targets_listed s e ts x). }
  fold hits in Hperm, Hcount, Hmem.
  unfold rm_folders_in, bind at 1. rewrite Hcut.
  unfold bind at 1. rewrite (proj2 (listers_real p s t e Hp)).
  unfold bind at 1. destruct s as [tr tbl out c nw]. cbn [tree] in Hp.
  rewrite (dry_loop S_IFDIR ts (rm_folders_in_body p cut true)
             (would_remove p) tr tbl c nw e).
  - unfold ret. cbn [tree inodes stdout clock now].
    rewrite Z.add_0_l, <- Hcount. reflexivity.
  - intros x cnt out0.
    rewrite (rm_folders_in_body_turn p cut true x cnt (mk_state tr tbl out0 c nw) t e
               Hp Hconv)
      by (intros Hx; split; [by apply Hprint | discriminate]).
    reflexivity.
Qed.

(** ** What every run keeps *)

Lemma keeps_bind {A B} (I : state -> Prop) (c : M A) (k : A -> M B) :
  keeps I c -> (forall a, keeps I (k a)) -> keeps I (bind c k).
Proof.
  intros Hc Hk s HI. unfold bind. specialize (Hc s HI).
  destruct (c s) as [[a | ex] s1]; cbn in *; [by apply Hk | exact Hc].
Qed.

Lemma keeps_same {A} (I : state -> Prop) (c : M A) :
  (forall s, (c s).2 = s) -> keeps I c.
Proof. intros Hsame s HI. by rewrite Hsame. Qed.

Lemma keeps_for_each {A S} (I : state -> Prop) (body : A -> S -> M S) :
  (forall x a, keeps I (body x a)) ->
  forall xs a, keeps I (for_each xs body a).
Proof.
  intros Hbody xs. induction xs as [| x xs IH]; intros a.
  - by apply keeps_same.
  - cbn [for_each]. apply keeps_bind; [apply Hbody | apply IH].
Qed.

Lemma keeps_print `{Host} (I : state -> Prop) (args : list pyval) :
  silent I -> keeps I (print args).
Proof.
  intros Hsilent s HI. unfold print.
  destruct (forallb printable_val args); cbn; by apply Hsilent.
Qed.

Lemma keeps_get_time_before `{Host} (I : state -> Prop) (days : Z) :
  keeps I (get_time_before days).
Proof.
  apply keeps_same. intros s.
  destruct (get_time_before_state days s) as (r & -> & _). reflexivity.
Qed.

Lemma keeps_listers (I : state -> Prop) (p : fspath) :
  keeps I (get_files_by_path p) /\ keeps I (get_subdirs_by_path p).
Proof.
  split; apply keeps_same; intros s;
    unfold get_files_by_path, get_subdirs_by_path, bind, next, bind,
      os_walk_first, os_path_abspath;
    destruct (locate _ _ _ _ _) as [[c [i | t e | target]] |]; reflexivity.
Qed.

Lemma keeps_is_older `{Host} (I : state -> Prop) (q : fspath)
    (cut : datetime) :
  keeps I (is_older q cut).
Proof.
  apply keeps_same. intros s.
  unfold is_older, bind, os_path_getctime, datetime_timestamp.
  destruct (os_stat q s) as [[ft t] |]; [| reflexivity].
  destruct (convertible cut); reflexivity.
Qed.

Lemma keeps_rm_files_in `{Host} (I : state -> Prop) (p : fspath) (days : Z)
    (dry : bool) :
  silent I ->
  (dry = false -> forall x, keeps I (os_remove (os_path_join p x))) ->
  keeps I (rm_files_in p days dry).
Proof.
  intros Hsilent Hrm. unfold rm_files_in.
  apply keeps_bind; [apply keeps_get_time_before |]. intros cut.
  apply keeps_bind; [apply keeps_listers |]. intros files.
  apply keeps_bind; [| intros cnt; by apply keeps_same].
  apply keeps_for_each. intros x cnt. unfold rm_files_in_body.
  apply keeps_bind; [by apply keeps_same |]. intros isfile.
  destruct isfile; cbn [negb]; [| by apply keeps_same].
  apply keeps_bind; [apply keeps_is_older |]. intros older.
  destruct older; cbn [negb]; [| by apply keeps_same].
  apply keeps_bind; [| intros; by apply keeps_same].
  destruct dry; cbn [negb]; [by apply keeps_print |].
  apply keeps_bind; [by apply keeps_print | intros; by apply Hrm].
Qed.

Lemma keeps_rm_folders_in `{Host} (I : state -> Prop) (p : fspath)
    (days : Z) (dry : bool) :
  silent I ->
  (dry = false -> forall x, keeps I (shutil_rmtree (os_path_join p x))) ->
  keeps I (rm_folders_in p days dry).
Proof.
  intros Hsilent Hrm. unfold rm_folders_in.
  apply keeps_bind; [apply keeps_get_time_before |]. intros cut.
  apply keeps_bind; [apply keeps_listers |]. intros dirs.
  apply keeps_bind; [| intros cnt; by apply keeps_same].
  apply keeps_for_each. intros x cnt. unfold rm_folders_in_body.
  apply keeps_bind; [by apply keeps_same |]. intros isdir.
  destruct isdir; cbn [negb]; [| by apply keeps_same].
  apply keeps_bind; [apply keeps_is_older |]. intros older.
  destruct older; cbn [negb]; [| by apply keeps_same].
  apply keeps_bind; [| intros; by apply keeps_same].
  destruct dry; cbn [negb]; [by apply keeps_print |].
  apply keeps_bind; [by apply keeps_print | intros; by apply Hrm].
Qed.

(** A dry sweep changes nothing but what is printed, however it ends. *)
Lemma dry_sweeps_same_files `{Host} (p : fspath) (days : Z) (s : state) :
  same_files s (rm_files_in p days true s).2
  /\ same_files s (rm_folders_in p days true s).2.
Proof.
  assert (Hsilent : silent (same_files s)).
  { intros s1 out (Ht & Hi & Hc & Hn). by repeat split. }
  split.
  - apply (keeps_rm_files_in (same_files s)); [exact Hsilent | discriminate |].
    by repeat split.
  - apply (keeps_rm_folders_in (same_files s));
      [exact Hsilent | discriminate |].
    by repeat split.
Qed.

(** *** The conditions as tests *)

Lemma plainb_plain (e : gmap string lnode) : plainb e = true -> plain e.
Proof.
  unfold plainb. rewrite List.forallb_forall. intros Hall. split.
  - intros x target Hx.
    apply elem_of_map_to_list, list_elem_of_In in Hx.
    specialize (Hall _ Hx). discriminate.
  - intros x y i Hx Hy.
    apply elem_of_map_to_list, list_elem_of_In in Hx.
    apply elem_of_map_to_list, list_elem_of_In in Hy.
    specialize (Hall _ Hx). cbn in Hall.
    rewrite List.forallb_forall in Hall. specialize (Hall _ Hy).
    cbn in Hall. rewrite Pos.eqb_refl in Hall. cbn in Hall.
    by apply String.eqb_eq.
Qed.

Lemma names_printableb_printable `{Host} (p : fspath)
    (e : gmap string lnode) :
  names_printableb p e = true -> names_printable p e.
Proof.
  unfold names_printableb. rewrite andb_true_iff.
  intros [Hp He]. split; [exact Hp |]. intros x n Hx.
  rewrite List.forallb_forall in He.
  apply elem_of_map_to_list, list_elem_of_In in Hx. exact (He _ Hx).
Qed.

(** An entry of the directory after a sweep. *)
Lemma descend_child (p : fspath) (x : string) (root : lnode) (t : Q)
    (e : gmap string lnode) :
  descend p root = Some (Folder t e) ->
  descend (os_path_join p x) root = e !! x.
Proof.
  intros Hp. unfold os_path_join. rewrite descend_app, Hp. cbn.
  by destruct (e !! x).
Qed.

(** ** The claims, where the file system has links *)

(** C1, refuted as stated: with an old symbolic link to a directory among
    the entries the sweep of directories raises [OSError] and returns no
    count; with a second name for the inode of a.txt the sweep of files
    returns 1 although two of the entries are regular files changed before
    the cutoff; and 738959 days back from the sample clock the cutoff is
    the first day of the year 1, which has no timestamp, and the sweep of
    files raises [ValueError]. *)
Lemma count_fails_with_links_and_at_the_range_end :
  (@rm_folders_in utc_posix_host ["tmp"; "root"] 10 false dirlink_state).1
  = Raise OSError
  /\ (@rm_files_in utc_posix_host ["tmp"; "root"] 30 false twin_state).1
     = Ok 1
  /\ count_targets S_IFREG
       (utc_timestamp (mk_datetime 2024 2 14 23 59 59 0)) twin_state
       twin_root = 2
  /\ (get_time_before 30 twin_state).1
     = Ok (mk_datetime 2024 2 14 23 59 59 0)
  /\ (get_time_before 738959 plain_state).1
     = Ok (mk_datetime 1 1 1 23 59 59 0)
  /\ (@rm_files_in utc_posix_host ["tmp"; "root"] 738959 false
        plain_state).1
     = Raise ValueError.
Proof. repeat split; vm_compute; reflexivity. Qed.

(** C1, amended. Over a directory given by its real path, in which no
    entry is a symbolic link and no two entries are names of the same
    inode, with a cutoff that was computed and has a timestamp and with
    names that can be printed: a sweep that removes returns the number of
    entries of its kind (names of regular files for the sweep of files,
    directories for the sweep of directories) whose status-change time is
    strictly before the cutoff. *)
Theorem removed_count_in_a_plain_directory `{Host} (p : fspath) (days : Z)
    (s : state) (t : Q) (e : gmap string lnode) (cut : datetime) :
  descend p (tree s) = Some (Folder t e) ->
  plain e -> names_printable p e ->
  get_time_before days s = (Ok cut, s) -> convertible cut = true ->
  let ts := timestamp cut in
  (rm_files_in p days false s).1 = Ok (count_targets S_IFREG ts s e)
  /\ (rm_folders_in p days false s).1 = Ok (count_targets S_IFDIR ts s e)
  /\ (forall x n,
        targets S_IFREG ts s e !! x = Some n
        <-> e !! x = Some n
            /\ exists i ino, n = Leaf i /\ inodes s !! i = Some ino
                             /\ ikind ino = Regular
                             /\ (ictime ino < ts)%Q)
  /\ (forall x n,
        targets S_IFDIR ts s e !! x = Some n
        <-> e !! x = Some n
            /\ exists tx ex, n = Folder tx ex /\ (tx < ts)%Q).
Proof.
  intros Hp Hplain Hnames Hcut Hconv ts.
  destruct (rm_files_in_real p days s t e cut Hp Hplain Hnames Hcut Hconv)
    as (s1 & t1 & -> & _).
  destruct (rm_folders_in_real p days s t e cut Hp (proj1 Hplain) Hnames
              Hcut Hconv) as (s2 & t2 & -> & _).
  split; [reflexivity |]. split; [reflexivity |].
  assert (Hnolink : forall x n, e !! x = Some n ->
            forall target, n <> Symlink target).
  { intros x n Hx target ->. by apply (proj1 Hplain x target). }
  split; intros x n; unfold targets; rewrite map_lookup_filter_Some; cbn;
    (split; intros [Hx Hdue]; (split; [exact Hx |])).
  - apply Is_true_true, due_spec in Hdue as (tx & Hstat & Hlt).
    rewrite entry_stat_plain in Hstat by (by apply (Hnolink x)).
    destruct n as [i | t0 e0 | target]; cbn in Hstat; try discriminate.
    destruct (inodes s !! i) as [ino |] eqn:Hi; [| discriminate].
    exists i, ino. destruct (ikind ino) eqn:Hk; [| discriminate].
    injection Hstat as <-. by repeat split.
  - destruct Hdue as (i & ino & -> & Hi & Hk & Hlt).
    apply Is_true_true, due_spec. exists (ictime ino).
    split; [| exact Hlt]. rewrite entry_stat_plain by discriminate.
    cbn. by rewrite Hi, Hk.
  - apply Is_true_true, due_spec in Hdue as (tx & Hstat & Hlt).
    rewrite entry_stat_plain in Hstat by (by apply (Hnolink x)).
    destruct n as [i | t0 e0 | target]; cbn in Hstat; try discriminate.
    + destruct (inodes s !! i) as [ino |]; [| discriminate].
      by destruct (ikind ino).
    + injection Hstat as <-. eauto.
  - destruct Hdue as (tx & ex & -> & Hlt).
    apply Is_true_true, due_spec. exists tx. split; [| exact Hlt].
    by rewrite entry_stat_plain by discriminate.
Qed.

(** On the plain sample, ten days back: one file and one directory. *)
Lemma removed_count_on_the_plain_sample :
  (@rm_files_in utc_posix_host ["tmp"; "root"] 10 false plain_state).1
  = Ok 1
  /\ (@rm_folders_in utc_posix_host ["tmp"; "root"] 10 false plain_state).1
     = Ok 1.
Proof.
  destruct (@removed_count_in_a_plain_directory utc_posix_host
              ["tmp"; "root"] 10 plain_state (days_ago 1) plain_root
              (mk_datetime 2024 3 5 23 59 59 0))
    as (Hfiles & Hfolders & _).
  - vm_compute. reflexivity.
  - apply plainb_plain. vm_compute. reflexivity.
  - apply names_printableb_printable. vm_compute. reflexivity.
  - vm_compute. reflexivity.
  - vm_compute. reflexivity.
  - rewrite Hfiles, Hfolders. split; vm_compute; reflexivity.
Defined.

(** C2, refuted as stated: with an old symbolic link to a directory the
    dry sweep of directories counts 2 where the sweep that removes raises
    [OSError]; with a second name for the inode of a.txt the dry sweep of
    files counts 2 where the sweep that removes returns 1. *)
Lemma dry_run_differs_with_links :
  (@rm_folders_in utc_posix_host ["tmp"; "root"] 10 true dirlink_state).1
  = Ok 2
  /\ (@rm_folders_in utc_posix_host ["tmp"; "root"] 10 false
        dirlink_state).1
     = Raise OSError
  /\ (@rm_files_in utc_posix_host ["tmp"; "root"] 30 true twin_state).1
     = Ok 2
  /\ (@rm_files_in utc_posix_host ["tmp"; "root"] 30 false twin_state).1
     = Ok 1.
Proof. repeat split; vm_compute; reflexivity. Qed.

(** C2, amended. A sweep with [dryrun] set removes nothing, in every
    state and however it ends: the directory tree and the inodes, hence
    names, kinds and times, are what they were. Over a plain directory
    given by its real path, with a cutoff that has a timestamp and names
    that can be printed, it returns what the sweep that removes returns
    and reports the same entries, each with a line Would remove where the
    other prints a line Removing; the two kinds of line are never equal. *)
Theorem dry_run_removes_nothing_and_counts_alike `{Host} (p : fspath)
    (days : Z) (s : state) :
  let dry_files := rm_files_in p days true s in
  let real_files := rm_files_in p days false s in
  let dry_folders := rm_folders_in p days true s in
  let real_folders := rm_folders_in p days false s in
  (same_files s dry_files.2 /\ same_files s dry_folders.2)
  /\ (forall t e cut,
        descend p (tree s) = Some (Folder t e) ->
        plain e -> names_printable p e ->
        get_time_before days s = (Ok cut, s) -> convertible cut = true ->
        (dry_files.1 = real_files.1 /\ dry_folders.1 = real_folders.1)
        /\ (exists names,
              stdout dry_files.2 = stdout s ++ (would_remove p <$> names)
              /\ stdout real_files.2
                 = stdout s ++ (removing_file p <$> names)
              /\ dry_files.1 = Ok (Z.of_nat (length names)))
        /\ (exists names,
              stdout dry_folders.2 = stdout s ++ (would_remove p <$> names)
              /\ stdout real_folders.2
                 = stdout s ++ (removing_directory p <$> names)
              /\ dry_folders.1 = Ok (Z.of_nat (length names))))
  /\ (forall x y, would_remove p x <> removing_file p y
                  /\ would_remove p x <> removing_directory p y).
Proof.
  cbv zeta. split; [apply dry_sweeps_same_files |].
  split; [| apply report_lines_differ].
  intros t e cut Hp Hplain Hnames Hcut Hconv.
  assert (Hprint : forall ft x,
            is_target ft (timestamp cut) s e x = true ->
            forallb printable (os_path_join p x) = true).
  { intros ft x Hx. unfold is_target in Hx.
    destruct (e !! x) as [n |] eqn:Hn; [| discriminate].
    by apply (printable_child p e x n). }
  rewrite (rm_files_in_dry p days s t e cut Hp Hcut Hconv (Hprint S_IFREG)).
  rewrite (rm_folders_in_dry p days s t e cut Hp Hcut Hconv
             (Hprint S_IFDIR)).
  destruct (rm_files_in_real p days s t e cut Hp Hplain Hnames Hcut Hconv)
    as (s1 & t1 & -> & _ & Hout1 & _).
  destruct (rm_folders_in_real p days s t e cut Hp (proj1 Hplain) Hnames
              Hcut Hconv) as (s2 & t2 & -> & _ & Hout2 & _).
  cbn [fst snd stdout].
  destruct (hits_are_targets S_IFREG (timestamp cut) s e (scan_nondirs s e))
    as (_ & Hcount1 & _).
  { apply scan_NoDup. }
  { intros x Hx. by apply (targets_listed s e (timestamp cut) x). }
  destruct (hits_are_targets S_IFDIR (timestamp cut) s e (scan_dirs s e))
    as (_ & Hcount2 & _).
  { apply scan_NoDup. }
  { intros x Hx. by apply (targets_listed s e (timestamp cut) x). }
  split; [by split |]. split.
  - eexists. split; [reflexivity |]. split; [exact Hout1 |].
    by rewrite Hcount1.
  - eexists. split; [reflexivity |]. split; [exact Hout2 |].
    by rewrite Hcount2.
Qed.

(** On the plain sample, ten days back. *)
Lemma dry_run_on_the_plain_sample :
  tree (@rm_files_in utc_posix_host ["tmp"; "root"] 10 true plain_state).2
  = tree plain_state
  /\ (@rm_files_in utc_posix_host ["tmp"; "root"] 10 true plain_state).1
     = (@rm_files_in utc_posix_host ["tmp"; "root"] 10 false plain_state).1.
Proof.
  destruct (@dry_run_removes_nothing_and_counts_alike utc_posix_host
              ["tmp"; "root"] 10 plain_state)
    as ([(Htree & _) _] & Hplain & _).
  split; [exact Htree |].
  destruct (Hplain (days_ago 1) plain_root (mk_datetime 2024 3 5 23 59 59 0))
    as ([Hsame _] & _).
  - vm_compute. reflexivity.
  - apply plainb_plain. vm_compute. reflexivity.
  - apply names_printableb_printable. vm_compute. reflexivity.
  - vm_compute. reflexivity.
  - vm_compute. reflexivity.
  - exact Hsame.
Defined.




(** ** More of the sweeps, where the file system has links *)

Lemma no_targets (ft : filetype) (ts : Q) (s : state)
    (e : gmap string lnode) :
  targets ft ts s e = ∅ -> forall x, is_target ft ts s e x = false.
Proof.
  intros Hnone x. unfold is_target.
  destruct (e !! x) as [n |] eqn:Hx; [| reflexivity].
  destruct (due ft ts s n) eqn:Hdue; [| reflexivity].
  assert (Hin : targets ft ts s e !! x = Some n).
  { apply map_lookup_filter_Some. split; [exact Hx |].
    cbn. by rewrite Hdue. }
  rewrite Hnone in Hin. discriminate.
Qed.

(** X5. Over a directory given by its real path in which no entry is a
    target of the sweep (and over an empty one in any case), the sweep
    returns 0, prints nothing and changes nothing, dry run or not,
    whatever links the directory holds. *)
Theorem no_target_no_change `{Host} (p : fspath) (days : Z) (dry : bool)
    (s : state) (t : Q) (e : gmap string lnode) (cut : datetime) :
  descend p (tree s) = Some (Folder t e) ->
  get_time_before days s = (Ok cut, s) ->
  let ts := timestamp cut in
  (convertible cut = true -> targets S_IFREG ts s e = ∅ ->
   rm_files_in p days dry s = (Ok 0, s))
  /\ (convertible cut = true -> targets S_IFDIR ts s e = ∅ ->
      rm_folders_in p days dry s = (Ok 0, s))
  /\ (e = ∅ ->
      rm_files_in p days dry s = (Ok 0, s)
      /\ rm_folders_in p days dry s = (Ok 0, s)).
Proof.
  intros Hp Hcut ts.
  destruct (listers_real p s t e Hp) as [Hfiles Hdirs].
  split; [| split].
  - intros Hconv Hnone. unfold rm_files_in, bind at 1. rewrite Hcut.
    unfold bind at 1. rewrite Hfiles. unfold bind at 1.
    rewrite (idle_loop S_IFREG ts (rm_files_in_body p cut dry) s e);
      [reflexivity | | intros x _; by apply no_targets].
    intros x cnt Hx.
    rewrite (rm_files_in_body_turn p cut dry x cnt s t e Hp Hconv)
      by (fold ts; by rewrite Hx).
    fold ts. by rewrite Hx.
  - intros Hconv Hnone. unfold rm_folders_in, bind at 1. rewrite Hcut.
    unfold bind at 1. rewrite Hdirs. unfold bind at 1.
    rewrite (idle_loop S_IFDIR ts (rm_folders_in_body p cut dry) s e);
      [reflexivity | | intros x _; by apply no_targets].
    intros x cnt Hx.
    rewrite (rm_folders_in_body_turn p cut dry x cnt s t e Hp Hconv)
      by (fold ts; by rewrite Hx).
    fold ts. by rewrite Hx.
  - intros ->. split.
    + unfold rm_files_in, bind at 1. rewrite Hcut.
      unfold bind at 1. rewrite Hfiles.
      unfold scan_nondirs. by rewrite map_to_list_empty.
    + unfold rm_folders_in, bind at 1. rewrite Hcut.
      unfold bind at 1. rewrite Hdirs.
      unfold scan_dirs. by rewrite map_to_list_empty.
Qed.

(** On the plain sample, fifty days back: no file is that old. *)
Lemma no_target_on_the_plain_sample :
  @rm_files_in utc_posix_host ["tmp"; "root"] 50 false plain_state
  = (Ok 0, plain_state).
Proof.
  destruct (@no_target_no_change utc_posix_host ["tmp"; "root"] 50 false
              plain_state (days_ago 1) plain_root
              (mk_datetime 2024 1 25 23 59 59 0)) as (Hfiles & _).
  - vm_compute. reflexivity.
  - vm_compute. reflexivity.
  - apply Hfiles; vm_compute; reflexivity.
Defined.

(** X7. Over a plain directory the outcome of a loop of a sweep does not
    depend on the order of the names: over any rearrangement of the
    listing it returns the number of targets, leaves the entries that are
    no targets, and reports every target once. *)
Theorem order_of_the_listing_does_not_matter `{Host} (p : fspath)
    (cut : datetime) (s : state) (t : Q) (e : gmap string lnode)
    (files dirs : list string) :
  descend p (tree s) = Some (Folder t e) ->
  plain e -> names_printable p e -> convertible cut = true ->
  files ≡ₚ scan_nondirs s e ->
  dirs ≡ₚ scan_dirs s e ->
  let ts := timestamp cut in
  (exists s' t' reported,
     for_each files (rm_files_in_body p cut false) 0 s
     = (Ok (count_targets S_IFREG ts s e), s')
     /\ descend p (tree s') = Some (Folder t' (remains S_IFREG ts s e))
     /\ stdout s' = stdout s ++ (removing_file p <$> reported)
     /\ reported ≡ₚ (map_to_list (targets S_IFREG ts s e)).*1)
  /\ (exists s' t' reported,
        for_each dirs (rm_folders_in_body p cut false) 0 s
        = (Ok (count_targets S_IFDIR ts s e), s')
        /\ descend p (tree s') = Some (Folder t' (remains S_IFDIR ts s e))
        /\ stdout s' = stdout s ++ (removing_directory p <$> reported)
        /\ reported ≡ₚ (map_to_list (targets S_IFDIR ts s e)).*1).
Proof.
  intros Hp Hplain Hnames Hconv Hfiles Hdirs ts. split.
  - assert (Hnd : NoDup files).
    { rewrite Hfiles. apply scan_NoDup. }
    destruct (hits_are_targets S_IFREG ts s e files Hnd)
      as (Hperm & Hcount & Hmem).
    { intros x Hx. rewrite Hfiles. by apply (targets_listed s e ts x). }
    destruct (files_loop p cut files s 0 t e Hnd Hp Hplain Hnames Hconv)
      as (s' & t' & e' & Hrun & Hp' & He' & Hout & _).
    fold ts in Hrun, He', Hout.
    pose proof (left_is_remains S_IFREG ts s e e' _ Hmem He') as ->.
    exists s', t'. eexists. rewrite Hrun, Z.add_0_l, Hcount.
    split; [reflexivity |]. split; [exact Hp' |]. split; [exact Hout |].
    exact Hperm.
  - assert (Hnd : NoDup dirs).
    { rewrite Hdirs. apply scan_NoDup. }
    destruct (hits_are_targets S_IFDIR ts s e dirs Hnd)
      as (Hperm & Hcount & Hmem).
    { intros x Hx. rewrite Hdirs. by apply (targets_listed s e ts x). }
    destruct (folders_loop p cut dirs s 0 t e Hnd Hp (proj1 Hplain) Hnames
                Hconv)
      as (s' & t' & e' & Hrun & Hp' & He' & Hout & _).
    fold ts in Hrun, He', Hout.
    pose proof (left_is_remains S_IFDIR ts s e e' _ Hmem He') as ->.
    exists s', t'. eexists. rewrite Hrun, Z.add_0_l, Hcount.
    split; [reflexivity |]. split; [exact Hp' |]. split; [exact Hout |].
    exact Hperm.
Qed.

(** On the plain sample: the listing of the files backwards. *)
Lemma reversed_listing_on_the_plain_sample :
  (@for_each _ _ (reverse (scan_nondirs plain_state plain_root))
     (@rm_files_in_body utc_posix_host ["tmp"; "root"]
        (mk_datetime 2024 3 5 23 59 59 0) false) 0 plain_state).1
  = Ok 1.
Proof.
  destruct (@order_of_the_listing_does_not_matter utc_posix_host
              ["tmp"; "root"] (mk_datetime 2024 3 5 23 59 59 0) plain_state
              (days_ago 1) plain_root
              (reverse (scan_nondirs plain_state plain_root))
              (scan_dirs plain_state plain_root))
    as ((s' & t' & reported & Hrun & _) & _).
  - vm_compute. reflexivity.
  - apply plainb_plain. vm_compute. reflexivity.
  - apply names_printableb_printable. vm_compute. reflexivity.
  - vm_compute. reflexivity.
  - apply reverse_Permutation.
  - reflexivity.
  - rewrite Hrun. cbn [fst]. vm_compute. reflexivity.
Defined.

Lemma due_mono (ft : filetype) (ts1 ts2 : Q) (s : state) (n : lnode) :
  (ts2 <= ts1)%Q -> due ft ts2 s n = true -> due ft ts1 s n = true.
Proof.
  intros Hle Hdue. apply due_spec in Hdue as (tx & Hstat & Hlt).
  apply due_spec. exists tx. split; [exact Hstat |].
  by apply (Qlt_le_trans _ ts2).
Qed.

Lemma targets_shrink (ft : filetype) (ts1 ts2 : Q) (s : state)
    (e : gmap string lnode) :
  (ts2 <= ts1)%Q ->
  count_targets ft ts2 s e <= count_targets ft ts1 s e
  /\ remains ft ts1 s e ⊆ remains ft ts2 s e.
Proof.
  intros Hle. split.
  - unfold count_targets. apply inj_le, map_subseteq_size.
    apply map_subseteq_spec. intros x n Hx.
    apply map_lookup_filter_Some in Hx as [Hx Hdue].
    apply map_lookup_filter_Some. split; [exact Hx |]. cbn in *.
    apply Is_true_true. apply Is_true_true in Hdue.
    by apply (due_mono ft ts1 ts2).
  - apply map_subseteq_spec. intros x n Hx.
    apply map_lookup_filter_Some in Hx as [Hx Hdue].
    apply map_lookup_filter_Some. split; [exact Hx |]. cbn in *.
    destruct (due ft ts2 s n) eqn:H2; [| exact I].
    rewrite (due_mono ft ts1 ts2 s n Hle H2) in Hdue. by destruct Hdue.
Qed.

(** X6. Over a plain directory, a cutoff that is not later removes no
    more: of two sweeps that remove, started in the same state, the one
    with the earlier cutoff returns a count that is not greater and
    leaves every entry that the other leaves. *)
Theorem earlier_cutoff_removes_no_more_when_plain `{Host} (p : fspath)
    (days1 days2 : Z) (s : state) (t : Q) (e : gmap string lnode)
    (cut1 cut2 : datetime) :
  descend p (tree s) = Some (Folder t e) ->
  plain e -> names_printable p e ->
  get_time_before days1 s = (Ok cut1, s) -> convertible cut1 = true ->
  get_time_before days2 s = (Ok cut2, s) -> convertible cut2 = true ->
  (timestamp cut2 <= timestamp cut1)%Q ->
  (exists n1 n2,
     (rm_files_in p days1 false s).1 = Ok n1
     /\ (rm_files_in p days2 false s).1 = Ok n2 /\ n2 <= n1)
  /\ (exists n1 n2,
        (rm_folders_in p days1 false s).1 = Ok n1
        /\ (rm_folders_in p days2 false s).1 = Ok n2 /\ n2 <= n1)
  /\ (forall x n,
        descend (os_path_join p x) (tree (rm_files_in p days1 false s).2)
        = Some n ->
        descend (os_path_join p x) (tree (rm_files_in p days2 false s).2)
        = Some n)
  /\ (forall x n,
        descend (os_path_join p x) (tree (rm_folders_in p days1 false s).2)
        = Some n ->
        descend (os_path_join p x) (tree (rm_folders_in p days2 false s).2)
        = Some n).
Proof.
  intros Hp Hplain Hnames Hcut1 Hconv1 Hcut2 Hconv2 Hle.
  destruct (rm_files_in_real p days1 s t e cut1 Hp Hplain Hnames Hcut1 Hconv1)
    as (sf1 & tf1 & -> & Hpf1 & _).
  destruct (rm_files_in_real p days2 s t e cut2 Hp Hplain Hnames Hcut2 Hconv2)
    as (sf2 & tf2 & -> & Hpf2 & _).
  destruct (rm_folders_in_real p days1 s t e cut1 Hp (proj1 Hplain) Hnames
              Hcut1 Hconv1) as (sd1 & td1 & -> & Hpd1 & _).
  destruct (rm_folders_in_real p days2 s t e cut2 Hp (proj1 Hplain) Hnames
              Hcut2 Hconv2) as (sd2 & td2 & -> & Hpd2 & _).
  cbn [fst snd].
  destruct (targets_shrink S_IFREG _ _ s e Hle) as [Hcf Hrf].
  destruct (targets_shrink S_IFDIR _ _ s e Hle) as [Hcd Hrd].
  split; [do 2 eexists; by repeat split |].
  split; [do 2 eexists; by repeat split |].
  split; intros x n.
  - rewrite (descend_child p x _ _ _ Hpf1), (descend_child p x _ _ _ Hpf2).
    intros Hx. exact (lookup_weaken _ _ _ _ Hx Hrf).
  - rewrite (descend_child p x _ _ _ Hpd1), (descend_child p x _ _ _ Hpd2).
    intros Hx. exact (lookup_weaken _ _ _ _ Hx Hrd).
Qed.

(** On the plain sample: thirty days back against ten. *)
Lemma earlier_cutoff_on_the_plain_sample :
  exists n1 n2,
    (@rm_folders_in utc_posix_host ["tmp"; "root"] 10 false plain_state).1
    = Ok n1
    /\ (@rm_folders_in utc_posix_host ["tmp"; "root"] 30 false
          plain_state).1 = Ok n2
    /\ n2 <= n1.
Proof.
  destruct (@earlier_cutoff_removes_no_more_when_plain utc_posix_host
              ["tmp"; "root"] 10 30 plain_state (days_ago 1) plain_root
              (mk_datetime 2024 3 5 23 59 59 0)
              (mk_datetime 2024 2 14 23 59 59 0)) as (_ & Hfolders & _).
  - vm_compute. reflexivity.
  - apply plainb_plain. vm_compute. reflexivity.
  - apply names_printableb_printable. vm_compute. reflexivity.
  - vm_compute. reflexivity.
  - vm_compute. reflexivity.
  - vm_compute. reflexivity.
  - vm_compute. reflexivity.
  - vm_compute. discriminate.
  - exact Hfolders.
Defined.

(** *** Outside the target *)

Lemma touch_all_kind (stamp : Q) (inos : list positive)
    (table : gmap positive inode) (i : positive) :
  ikind <$> touch_all stamp inos table !! i = ikind <$> table !! i.
Proof.
  induction inos as [| j inos IH]; [reflexivity |].
  cbn [touch_all foldr]. unfold touch at 1.
  destruct (decide (j = i)) as [-> | Hne].
  - rewrite lookup_alter_eq. fold (touch_all stamp inos table).
    rewrite <- IH. by destruct (touch_all stamp inos table !! i).
  - rewrite lookup_alter_ne by done. exact IH.
Qed.

(** A property of the tree that taking a name out of the directory at [p]
    keeps is kept by both removals below [p]. *)
Lemma keeps_removal `{Host} (P : lnode -> Prop) (p : fspath) :
  (forall root t e x stamp,
      descend p root = Some (Folder t e) -> P root ->
      P (unlink_at p x stamp root)) ->
  let I := fun s1 : state =>
             (exists t e, descend p (tree s1) = Some (Folder t e))
             /\ P (tree s1) in
  silent I
  /\ (forall x, keeps I (os_remove (os_path_join p x)))
  /\ (forall x, keeps I (shutil_rmtree (os_path_join p x))).
Proof.
  intros Hunlink I. split; [by intros s1 out HI |].
  split; intros x s1 [(t & e & Hp) HP].
  - rewrite (os_remove_child p x s1 t e Hp).
    destruct (e !! x) as [[i | t0 e0 | target] |]; cbn;
      (split; [| by eauto]); eauto using descend_unlink_at.
  - rewrite (shutil_rmtree_child p x s1 t e Hp).
    destruct (e !! x) as [[i | t0 e0 | target] |]; cbn;
      (split; [| by eauto]); eauto using descend_unlink_at.
Qed.

Lemma sweeps_keep `{Host} (P : lnode -> Prop) (p : fspath) (days : Z)
    (dry : bool) (s : state) (t : Q) (e : gmap string lnode) :
  (forall root t e x stamp,
      descend p root = Some (Folder t e) -> P root ->
      P (unlink_at p x stamp root)) ->
  descend p (tree s) = Some (Folder t e) -> P (tree s) ->
  P (tree (rm_files_in p days dry s).2)
  /\ P (tree (rm_folders_in p days dry s).2).
Proof.
  intros Hunlink Hp HP.
  destruct (keeps_removal P p Hunlink) as (Hsilent & Hrm & Hrmtree).
  split.
  - eapply (keeps_rm_files_in _ p days dry Hsilent); [by intros _ |]. eauto.
  - eapply (keeps_rm_folders_in _ p days dry Hsilent); [by intros _ |]. eauto.
Qed.

Lemma sweeps_keep_kinds `{Host} (p : fspath) (days : Z) (dry : bool)
    (s : state) (i : positive) :
  ikind <$> inodes (rm_files_in p days dry s).2 !! i = ikind <$> inodes s !! i
  /\ ikind <$> inodes (rm_folders_in p days dry s).2 !! i
     = ikind <$> inodes s !! i.
Proof.
  set (I := fun s1 : state => ikind <$> inodes s1 !! i = ikind <$> inodes s !! i).
  assert (Hsilent : silent I) by (by intros s1 out HI).
  split.
  - apply (keeps_rm_files_in I p days dry Hsilent); [| reflexivity].
    intros _ x s1 HI. unfold os_remove.
    destruct (split_last _) as [[d y] |]; [| exact HI].
    destruct (locate _ _ _ _ _) as [[c [j | t0 e0 | target]] |];
      try exact HI.
    destruct (e0 !! y) as [[j | t1 e1 | target] |]; try exact HI;
      unfold I; cbn [snd inodes]; by rewrite touch_all_kind.
  - apply (keeps_rm_folders_in I p days dry Hsilent); [| reflexivity].
    intros _ x s1 HI. unfold shutil_rmtree.
    destruct (split_last _) as [[d y] |]; [| exact HI].
    destruct (locate _ _ _ _ _) as [[c [j | t0 e0 | target]] |];
      try exact HI.
    destruct (e0 !! y) as [[j | t1 e1 | target] |]; try exact HI.
    unfold I. cbn [snd inodes]. by rewrite touch_all_kind.
Qed.

(** X2. A sweep over a directory given by its real path changes the
    directory tree at that directory only, dry run or not and however it
    ends. The target is still a directory and its entries are among those
    it had. A path that neither leads to the target nor lies at or below
    it names what it named: the same inode, the same directory with its
    time and all below it, the same link. A directory on the way to the
    target is a directory with the time it had. No inode changes its
    kind. (The time of an inode can change: it is stamped when one of its
    names is removed, which shows under its other names.) *)
Theorem sweep_changes_the_tree_at_its_target_only `{Host} (p : fspath)
    (days : Z) (dry : bool) (s : state) (t : Q) (e : gmap string lnode)
    (q : fspath) :
  descend p (tree s) = Some (Folder t e) ->
  let after_files := (rm_files_in p days dry s).2 in
  let after_folders := (rm_folders_in p days dry s).2 in
  ((exists t' e', descend p (tree after_files) = Some (Folder t' e')
                  /\ e' ⊆ e)
   /\ (exists t' e', descend p (tree after_folders) = Some (Folder t' e')
                     /\ e' ⊆ e))
  /\ ((forall r, q <> p ++ r) -> (forall r, p <> q ++ r) ->
      descend q (tree after_files) = descend q (tree s)
      /\ descend q (tree after_folders) = descend q (tree s))
  /\ (forall r tq eq,
        p = q ++ r -> r <> [] -> descend q (tree s) = Some (Folder tq eq) ->
        (exists e', descend q (tree after_files) = Some (Folder tq e'))
        /\ (exists e', descend q (tree after_folders)
                       = Some (Folder tq e')))
  /\ (forall i,
        ikind <$> inodes after_files !! i = ikind <$> inodes s !! i
        /\ ikind <$> inodes after_folders !! i = ikind <$> inodes s !! i).
Proof.
  intros Hp after_files after_folders. split; [| split; [| split]].
  - apply (sweeps_keep
             (fun root => exists t' e',
                descend p root = Some (Folder t' e') /\ e' ⊆ e)
             p days dry s t e); [| exact Hp | by eauto].
    intros root t0 e0 x stamp Hp0 (t' & e' & Hp' & Hsub).
    rewrite Hp0 in Hp'. injection Hp' as <- <-.
    exists stamp, (delete x e0).
    split; [by apply (descend_unlink_at p x stamp root t0) |].
    etrans; [apply delete_subseteq | exact Hsub].
  - intros Hq Hpq.
    apply (sweeps_keep (fun root => descend q root = descend q (tree s))
             p days dry s t e); [| exact Hp | reflexivity].
    intros root t0 e0 x stamp Hp0 <-. unfold unlink_at.
    by apply descend_tree_alter_apart.
  - intros r tq eq Hr Hnonempty Hq.
    apply (sweeps_keep
             (fun root => exists e', descend q root = Some (Folder tq e'))
             p days dry s t e); [| exact Hp | by eauto].
    intros root t0 e0 x stamp Hp0 [e' Hq']. unfold unlink_at.
    apply (descend_tree_alter_above _ p) with (r := r) (e := e');
      [by eauto | exact Hr | exact Hnonempty | exact Hq'].
  - intros i. apply sweeps_keep_kinds.
Qed.

(** On the plain sample: /srv/data lies outside /tmp/root. *)
Lemma outside_on_the_plain_sample :
  descend ["srv"; "data"]
    (tree (@rm_folders_in utc_posix_host ["tmp"; "root"] 10 false
             plain_state).2)
  = descend ["srv"; "data"] (tree plain_state).
Proof.
  destruct (@sweep_changes_the_tree_at_its_target_only utc_posix_host
              ["tmp"; "root"] 10 false plain_state (days_ago 1) plain_root
              ["srv"; "data"]) as (_ & Hapart & _).
  - vm_compute. reflexivity.
  - destruct Hapart as [_ Hfolders].
    + intros r Hr. discriminate.
    + intros r Hr. discriminate.
    + exact Hfolders.
Defined.

End PosixFacts.
